(** * clclite: scrollback buffer, line editor and ANSI renderer

    A shallow embedding of the core of [src/clclite.c] and the properties
    of its scrollback buffer, edit buffer, escape-sequence state machine
    and blocking send loop.

    Conventions.
    - A C [char] is a [Z] (on the target, a signed byte); a [char] array is
      a [list Z] of the array's size; [buffer[y][x]] is list lookup and
      [buffer[y][x] = c] is list update.  An update outside the array is
      undefined behaviour in C; the model leaves the array unchanged there
      and the theorems say when indices are in range.
    - [int] variables are [Z]; [size_t] variables are [Z] reduced modulo
      [2^64] after each arithmetic step.
    - Calls into curses are recorded in a log of calls. *)

From Stdlib Require Import ZArith Lia.
From stdpp Require Import base list numbers.

Local Open Scope Z_scope.

(** ** C strings in [char] arrays *)

Module CString.

(** [strlen]: the index of the first NUL.  If the array holds no NUL the
    scan stops at the end of the list. *)
Fixpoint strlen (s : list Z) : nat :=
  match s with
  | [] => 0%nat
  | c :: s' => if c =? 0 then 0%nat else S (strlen s')
  end.

(** The characters of the string held in [s], terminator excluded. *)
Definition cstr (s : list Z) : list Z := take (strlen s) s.

(** [strcpy(dst, src)]: the characters of [src] and the terminator are
    written over the beginning of [dst]; what lies behind stays. *)
Definition strcpy (dst src : list Z) : list Z :=
  let s := cstr src ++ [0] in s ++ drop (length s) dst.

(** A string literal as it lies in memory. *)
Definition literal (l : list Z) : list Z := l ++ [0].

End CString.
Import CString.

(** ** Screen buffer ([sbuffer], [last]) *)

Definition MAXLINES : Z := 100.
Definition MAX_LINE_LENGTH : Z := 1001.

Abbreviation buffer_t := (list (list Z)).

(** [buffer[y]] as an rvalue. *)
Definition row (buffer : buffer_t) (y : Z) : list Z :=
  if y <? 0 then [] else buffer !!! Z.to_nat y.

(** [buffer[y][x] = c]. *)
Definition set_char (buffer : buffer_t) (y x : Z) (c : Z) : buffer_t :=
  if (y <? 0) || (x <? 0) then buffer
  else alter (fun r => <[Z.to_nat x := c]> r) (Z.to_nat y) buffer.

(** [strcpy(buffer[y], src)]. *)
Definition strcpy_row (buffer : buffer_t) (y : Z) (src : list Z) : buffer_t :=
  if y <? 0 then buffer
  else alter (fun r => strcpy r src) (Z.to_nat y) buffer.

(** The static array before [main] runs: all bytes zero. *)
Definition sbuffer0 : buffer_t :=
  replicate (Z.to_nat MAXLINES) (replicate (Z.to_nat MAX_LINE_LENGTH) 0).

(** [for(y=0; y<MAXLINES; y++) buffer[y][0]='\0';] *)
Fixpoint init_loop (n : nat) (y : Z) (buffer : buffer_t) : buffer_t :=
  match n with
  | O => buffer
  | S n' => init_loop n' (y + 1) (set_char buffer y 0 0)
  end.

Definition init_buffer (buffer : buffer_t) : buffer_t :=
  init_loop (Z.to_nat MAXLINES) 0 buffer.

(** [for(y=1; y<MAXLINES; y++) strcpy(buffer[y-1],buffer[y]);] *)
Fixpoint scroll_loop (n : nat) (y : Z) (buffer : buffer_t) : buffer_t :=
  match n with
  | O => buffer
  | S n' => scroll_loop n' (y + 1) (strcpy_row buffer (y - 1) (row buffer y))
  end.

Definition scroll_buffer (buffer : buffer_t) : buffer_t :=
  let buffer := scroll_loop (Z.to_nat (MAXLINES - 1)) 1 buffer in
  (* the loop leaves y = MAXLINES *)
  set_char buffer (MAXLINES - 1) 0 0.

(** [add_line_buffer].  The caller's [line] is cut in place when it is too
    long; the function returns the new [lastline], the model returns the
    buffer with it. *)
Definition add_line_buffer (buffer : buffer_t) (line : list Z) (lastline : Z)
  : buffer_t * Z :=
  let '(buffer, lastline) :=
    if lastline =? MAXLINES then (scroll_buffer buffer, lastline - 1)
    else (buffer, lastline) in
  let line :=
    if MAX_LINE_LENGTH - 2 <? Z.of_nat (strlen line)
    then <[Z.to_nat (MAX_LINE_LENGTH - 2) := 0]> line
    else line in
  let buffer := strcpy_row buffer lastline line in
  (buffer, lastline + 1).

(** [add_char_buffer]. *)
Definition add_char_buffer (buffer : buffer_t) (c : Z) (lastline : Z)
  : buffer_t * Z :=
  let '(buffer, lastline) :=
    if lastline =? MAXLINES then (scroll_buffer buffer, lastline - 1)
    else (buffer, lastline) in
  let x := Z.of_nat (strlen (row buffer lastline)) in
  let x := if MAX_LINE_LENGTH - 2 <? x then MAX_LINE_LENGTH - 2 else x in
  let buffer := set_char buffer lastline x c in
  let buffer := set_char buffer lastline (x + 1) 0 in
  let lastline := if c =? 10 then lastline + 1 else lastline in
  (buffer, lastline).

(** Well-formed rows and buffers: every row has the declared size and
    holds a terminated string. *)
Definition wf_row (r : list Z) : Prop :=
  length r = Z.to_nat MAX_LINE_LENGTH /\ (strlen r < length r)%nat.

Definition wf_buffer (buffer : buffer_t) : Prop :=
  length buffer = Z.to_nat MAXLINES /\ Forall wf_row buffer.

(** The lines of the buffer as strings. *)
Definition lines (buffer : buffer_t) : list (list Z) := cstr <$> buffer.

(** Operations on the scrollback, as the renderer drives them. *)
Inductive sb_op : Type :=
| AppendChar (c : Z)
| AppendLine (line : list Z).

Definition sb_step (st : buffer_t * Z) (op : sb_op) : buffer_t * Z :=
  match op with
  | AppendChar c => add_char_buffer st.1 c st.2
  | AppendLine line => add_line_buffer st.1 line st.2
  end.

Definition sb_run (ops : list sb_op) (st : buffer_t * Z) : buffer_t * Z :=
  fold_left sb_step ops st.

(** The scrollback at session start: [init_buffer(sbuffer)], [last = 0]. *)
Definition sb_init : buffer_t * Z := (init_buffer sbuffer0, 0).

(** ** Virtual terminal *)

Inductive term_state_t : Type := TERM_ASCII | TERM_ESC | TERM_ESCRUN.

Definition TERM_MAX_ESC : Z := 16.
Definition TERM_COLOR_DEFAULT : Z := 9.
Definition TERM_FLAG_ECHO : Z := Z.shiftl 1 0.
Definition TERM_FLAG_NAWS : Z := Z.shiftl 1 2.
Definition TERM_FLAGS_DEFAULT : Z := TERM_FLAG_ECHO.

Record TERMINAL : Type := mkTERMINAL {
  state : term_state_t;
  esc_buf : list Z;
  esc_cnt : Z;
  flags : Z;
  color : Z
}.

Definition set_state (s : term_state_t) (t : TERMINAL) : TERMINAL :=
  mkTERMINAL s (esc_buf t) (esc_cnt t) (flags t) (color t).
Definition set_esc_buf (b : list Z) (t : TERMINAL) : TERMINAL :=
  mkTERMINAL (state t) b (esc_cnt t) (flags t) (color t).
Definition set_esc_cnt (n : Z) (t : TERMINAL) : TERMINAL :=
  mkTERMINAL (state t) (esc_buf t) n (flags t) (color t).
Definition set_color (c : Z) (t : TERMINAL) : TERMINAL :=
  mkTERMINAL (state t) (esc_buf t) (esc_cnt t) (flags t) c.

(** [main]: [memset(&terminal, 0, ...)], then the three defaults. *)
Definition terminal0 : TERMINAL :=
  mkTERMINAL TERM_ASCII (replicate (Z.to_nat TERM_MAX_ESC) 0) 0
             TERM_FLAGS_DEFAULT TERM_COLOR_DEFAULT.

(** Calls into curses, in the order they are made. *)
Inductive curses_call : Type :=
| Wclear_main
| Waddch (c : Z)
| Wattron (pair : Z)
| Beep.

Abbreviation log := (list curses_call).

(** 32-bit [int] and 64-bit [size_t] arithmetic. *)
Definition int_wrap (z : Z) : Z := (z + 2 ^ 31) mod 2 ^ 32 - 2 ^ 31.
Definition SIZE_MAX : Z := 2 ^ 64 - 1.
Definition size_wrap (z : Z) : Z := z mod 2 ^ 64.

(** [esc_buf[i]] as an rvalue and as an lvalue. *)
Definition esc_get (t : TERMINAL) (i : Z) : Z :=
  if i <? 0 then 0 else default 0 (esc_buf t !! Z.to_nat i).
Definition esc_put (t : TERMINAL) (i v : Z) : TERMINAL :=
  if i <? 0 then t else set_esc_buf (<[Z.to_nat i := v]> (esc_buf t)) t.

(** The body of the loop of [on_term_esc] at index [i]. *)
Definition on_term_esc_body (i : Z) (tw : TERMINAL * log) : TERMINAL * log :=
  let '(t, w) := tw in
  if esc_get t i =? 0 then
    let t := set_color TERM_COLOR_DEFAULT t in
    (t, w ++ [Wattron (color t)])
  else if (31 <=? esc_get t i) && (esc_get t i <=? 37) then
    let t := set_color (esc_get t i - 30) t in
    (t, w ++ [Wattron (color t)])
  else (t, w).

(** [for (i = 0; i < terminal.esc_cnt; ++i)] *)
Fixpoint on_term_esc_loop (n : nat) (i : Z) (tw : TERMINAL * log)
  : TERMINAL * log :=
  match n with
  | O => tw
  | S n' => on_term_esc_loop n' (i + 1) (on_term_esc_body i tw)
  end.

Definition on_term_esc (cmd : Z) (tw : TERMINAL * log) : TERMINAL * log :=
  if cmd =? 109 (* 'm' *)
  then on_term_esc_loop (Z.to_nat (esc_cnt tw.1)) 0 tw
  else tw.

Definition isdigit (c : Z) : bool := (48 <=? c) && (c <=? 57).

(** Conversion of a [char] to the [chtype] (32 bits, unsigned) that
    [waddch] takes: a negative [char] arrives sign-extended. *)
Definition chtype_of_char (c : Z) : Z := c mod 2 ^ 32.

(** One turn of the loop of [send_text_ansi] on the byte [c]. *)
Definition send_text_ansi_step (tw : TERMINAL * log) (c : Z) : TERMINAL * log :=
  let '(t, w) := tw in
  match state t with
  | TERM_ASCII =>
      if c =? 27 then (set_state TERM_ESC t, w)
      else if negb (c =? 13) then (t, w ++ [Waddch (chtype_of_char c)])
      else (t, w)
  | TERM_ESC =>
      if c =? 91 (* '[' *) then
        let t := set_state TERM_ESCRUN t in
        let t := set_esc_cnt 0 t in
        (esc_put t 0 0, w)
      else (set_state TERM_ASCII t, w)
  | TERM_ESCRUN =>
      if isdigit c then
        let t := if esc_cnt t =? 0 then set_esc_cnt 1 t else t in
        let t := esc_put t (esc_cnt t - 1)
                   (int_wrap (esc_get t (esc_cnt t - 1) * 10)) in
        let t := esc_put t (esc_cnt t - 1)
                   (int_wrap (esc_get t (esc_cnt t - 1) + (c - 48))) in
        (t, w)
      else if c =? 59 (* ';' *) then
        if esc_cnt t <? TERM_MAX_ESC then
          let t := set_esc_cnt (size_wrap (esc_cnt t + 1)) t in
          (esc_put t (esc_cnt t - 1) 0, w)
        else (t, w)
      else
        let '(t, w) := on_term_esc c (t, w) in
        (set_state TERM_ASCII t, w)
  end.

(** [send_text_ansi(text, len)] with [text] the [len] bytes. *)
Definition send_text_ansi (text : list Z) (tw : TERMINAL * log) : TERMINAL * log :=
  fold_left send_text_ansi_step text tw.

(** The session's display-independent state: scrollback and its cursor. *)
Definition on_text_plain (text : list Z) (st : buffer_t * Z) : buffer_t * Z :=
  fold_left (fun st c => add_char_buffer st.1 c st.2) text st.

(** [on_text_ansi]: a bell is played and skipped, every other byte goes to
    the scrollback. *)
Definition on_text_ansi_step (sw : (buffer_t * Z) * log) (c : Z)
  : (buffer_t * Z) * log :=
  let '(st, w) := sw in
  if c =? 7 then (st, w ++ [Beep])
  else (add_char_buffer st.1 c st.2, w).

Definition on_text_ansi (text : list Z) (sw : (buffer_t * Z) * log)
  : (buffer_t * Z) * log :=
  fold_left on_text_ansi_step text sw.

(** [print_buffer].  Reading [buffer[y]] outside the array is a fault,
    [None].  The result carries the return value, the terminal, the curses
    log and [updowntoggle]. *)
Fixpoint print_loop (n : nat) (y : Z) (buffer : buffer_t) (tw : TERMINAL * log)
  : option (TERMINAL * log) :=
  match n with
  | O => Some tw
  | S n' =>
      match (if y <? 0 then None else buffer !! Z.to_nat y) with
      | None => None
      | Some r => print_loop n' (y + 1) buffer (send_text_ansi (cstr r) tw)
      end
  end.

(** The indices [y] at which the loop of [print_buffer] reads [buffer[y]]. *)
Definition print_buffer_reads (startline endline : Z) : list Z :=
  let startline := if startline <? 0 then 0 else startline in
  if startline >? endline then []
  else
    let endline := if endline >? MAXLINES then MAXLINES else endline in
    map (fun k => startline + Z.of_nat k)
        (seq 0 (Z.to_nat (endline - startline + 1))).

Definition print_buffer (buffer : buffer_t) (startline endline : Z)
    (tw : TERMINAL * log) (updowntoggle : Z)
  : option (Z * (TERMINAL * log) * Z) :=
  let tw := (tw.1, tw.2 ++ [Wclear_main]) in
  let startline := if startline <? 0 then 0 else startline in
  if startline >? endline then Some (1, tw, updowntoggle)
  else
    let endline := if endline >? MAXLINES then MAXLINES else endline in
    match print_loop (Z.to_nat (endline - startline + 1)) startline buffer tw with
    | None => None
    | Some tw => Some (0, tw, 0)
    end.

(** ** Edit buffer *)

Definition EDITBUF_MAX : Z := 1001.

Record EDITBUF : Type := mkEDITBUF {
  buf : list Z;
  size : Z;
  pos : Z;
  start : Z
}.

(** [main]: [memset(&editbuf, 0, sizeof(struct EDITBUF))]. *)
Definition editbuf0 : EDITBUF :=
  mkEDITBUF (replicate (Z.to_nat EDITBUF_MAX) 0) 0 0 0.

(** Conversion of an [int] to the (signed) [char] it is stored in. *)
Definition char_of_int (ch : Z) : Z := (ch + 128) mod 256 - 128.

(** [memmove(a + d, a + s, n)] inside one array [a]: the source bytes are
    read before any is written.  The array is all there is: a byte the
    code would write before or behind [editbuf.buf] is dropped here, so
    that the edit functions below stand for the code on the states with
    [0 <= pos <= size <= EDITBUF_MAX] ([editbuf_inv]); from a state
    outside them the code reads or writes outside the array, and the
    functions do not follow it there. *)
Definition memmove (a : list Z) (d s n : Z) : list Z :=
  list_inserts (Z.to_nat d) (take (Z.to_nat n) (drop (Z.to_nat s) a)) a.

(** [snprintf(editbuf.buf, EDITBUF_MAX, "%s", text)] and the two
    assignments. *)
Definition editbuf_set (text : list Z) (e : EDITBUF) : EDITBUF :=
  let out := take (Z.to_nat (EDITBUF_MAX - 1)) (cstr text) ++ [0] in
  mkEDITBUF (list_inserts 0 out (buf e))
            (Z.of_nat (strlen text)) (Z.of_nat (strlen text)) (start e).

Definition editbuf_insert (ch : Z) (e : EDITBUF) : EDITBUF :=
  if size e =? EDITBUF_MAX then e
  else if pos e =? size e then
    let b := <[Z.to_nat (pos e) := char_of_int ch]> (buf e) in
    let sz := size_wrap (size e + 1) in
    mkEDITBUF b sz sz (start e)
  else
    let b := memmove (buf e) (pos e + 1) (pos e) (size_wrap (size e - pos e)) in
    let b := <[Z.to_nat (pos e) := char_of_int ch]> b in
    mkEDITBUF b (size_wrap (size e + 1)) (size_wrap (pos e + 1)) (start e).

Definition editbuf_bs (e : EDITBUF) : EDITBUF :=
  if pos e =? 0 then e
  else if pos e =? size e then
    let sz := size_wrap (size e - 1) in
    mkEDITBUF (buf e) sz sz (start e)
  else
    let b := memmove (buf e) (pos e - 1) (pos e) (size_wrap (size e - pos e)) in
    mkEDITBUF b (size_wrap (size e - 1)) (size_wrap (pos e - 1)) (start e).

Definition editbuf_del (e : EDITBUF) : EDITBUF :=
  if pos e =? size e then e
  else if pos e =? size_wrap (size e - 1) then
    mkEDITBUF (buf e) (size_wrap (size e - 1)) (size_wrap (pos e - 1)) (start e)
  else
    let b := memmove (buf e) (pos e) (pos e + 1)
                     (size_wrap (size e - pos e - 1)) in
    mkEDITBUF b (size_wrap (size e - 1)) (pos e) (start e).

Definition editbuf_home (e : EDITBUF) : EDITBUF :=
  mkEDITBUF (buf e) (size e) 0 0.

Definition editbuf_end (e : EDITBUF) : EDITBUF :=
  mkEDITBUF (buf e) (size e) (size e) (start e).

Definition editbuf_curleft (e : EDITBUF) : EDITBUF :=
  if pos e >? 0 then mkEDITBUF (buf e) (size e) (size_wrap (pos e - 1)) (start e)
  else e.

Definition editbuf_curright (e : EDITBUF) : EDITBUF :=
  if pos e <? size e then mkEDITBUF (buf e) (size e) (size_wrap (pos e + 1)) (start e)
  else e.

(** What [editbuf_display] asks of curses: the [n] and the string given to
    [mvwaddnstr] (the bytes at [buf + start], at most [n], up to a NUL) and
    the column given to [wmove]. *)
Record input_paint : Type := mkPaint {
  addnstr_n : Z;
  addnstr_text : list Z;
  wmove_x : Z
}.

(** [editbuf_display], with the screen width [COLS] of curses. *)
Definition editbuf_display (COLS : Z) (e : EDITBUF) : EDITBUF * input_paint :=
  let st :=
    if pos e >=? size_wrap COLS then size_wrap (pos e - size_wrap COLS)
    else 0 in
  let e := mkEDITBUF (buf e) (size e) (pos e) st in
  let n := int_wrap (size_wrap (size e - start e)) in
  (e, mkPaint n
        (take (Z.to_nat n) (cstr (drop (Z.to_nat (start e)) (buf e))))
        (int_wrap (pos e))).

(** The invariant of the edit buffer. *)
Definition editbuf_inv (e : EDITBUF) : Prop :=
  0 <= pos e /\ pos e <= size e /\ size e <= EDITBUF_MAX.

(** Operations of the line editor. *)
Inductive edit_op : Type :=
| EdSet (text : list Z)
| EdInsert (ch : Z)
| EdBs
| EdDel
| EdLeft
| EdRight
| EdHome
| EdEnd.

Definition edit_step (e : EDITBUF) (op : edit_op) : EDITBUF :=
  match op with
  | EdSet text => editbuf_set text e
  | EdInsert ch => editbuf_insert ch e
  | EdBs => editbuf_bs e
  | EdDel => editbuf_del e
  | EdLeft => editbuf_curleft e
  | EdRight => editbuf_curright e
  | EdHome => editbuf_home e
  | EdEnd => editbuf_end e
  end.

Definition edit_run (ops : list edit_op) (e : EDITBUF) : EDITBUF :=
  fold_left edit_step ops e.

(** ** Sending to the server *)

(** The two error codes of [<errno.h>] the code names (Linux values). *)
Definition EAGAIN : Z := 11.
Definition EINTR : Z := 4.

(** One answer of [send(sock, bytes, len, 0)]: the value returned and the
    [errno] it leaves. *)
Record send_result : Type := mkSend { sr_ret : Z; sr_errno : Z }.

Inductive send_outcome : Type :=
| Sent (sent_bytes : Z)          (* the loop ended, all bytes accepted *)
| ExitFailure (errno : Z)        (* endwin, "send() failed", exit(1) *)
| ExitDisconnected               (* endwin, "Disconnected from server", exit(0) *)
| Pending (len : Z) (sent_bytes : Z). (* the answers given are used up *)

(** [do_send(bytes, len)] against the answers [env] of the socket, from
    the counter [sent_bytes]. *)
Fixpoint do_send (env : list send_result) (len : Z) (sent_bytes : Z)
  : send_outcome :=
  if len >? 0 then
    match env with
    | [] => Pending len sent_bytes
    | r :: env' =>
        let ret := int_wrap (sr_ret r) in
        if ret =? -1 then
          if negb (ret =? EAGAIN) && negb (ret =? EINTR)
          then ExitFailure (sr_errno r)
          else do_send env' len sent_bytes
        else if ret =? 0 then ExitDisconnected
        else do_send env' (size_wrap (len - ret)) (size_wrap (sent_bytes + ret))
    end
  else Sent sent_bytes.

(** ** Keys, the session around the edit buffer *)

(** The text of the edit buffer: its first [size] bytes. *)
Definition editbuf_text (e : EDITBUF) : list Z :=
  take (Z.to_nat (size e)) (buf e).

(** Key codes of [<ncurses.h>] that the code names (octal 0401 to 0777). *)
Definition KEY_MIN : Z := 257.
Definition KEY_DOWN : Z := 258.
Definition KEY_UP : Z := 259.
Definition KEY_LEFT : Z := 260.
Definition KEY_RIGHT : Z := 261.
Definition KEY_HOME : Z := 262.
Definition KEY_BACKSPACE : Z := 263.
Definition KEY_DC : Z := 330.
Definition KEY_NPAGE : Z := 338.
Definition KEY_PPAGE : Z := 339.
Definition KEY_ENTER : Z := 343.
Definition KEY_END : Z := 360.
Definition KEY_MAX : Z := 511.

(** Calls into libtelnet, in the order they are made. *)
Inductive telnet_call : Type :=
| Telnet_printf (text : list Z)
| Telnet_begin_sb (telopt : Z)
| Telnet_send (bytes : list Z)
| Telnet_finish_sb.

(** [send_line(line, len)]: [telnet_printf(telnet, "%.*s\n", (int)len,
    line)] formats at most [len] bytes of [line], up to a NUL, and a
    newline. *)
Definition send_line (line : list Z) (len : Z) (tl : list telnet_call)
  : list telnet_call :=
  let n := int_wrap len in
  let s := if n <? 0 then cstr line else cstr (take (Z.to_nat n) line) in
  tl ++ [Telnet_printf (s ++ [10])].

(** What [on_key] works on: the edit buffer, the scroll position of the
    main window and the calls made to libtelnet. *)
Record UI : Type := mkUI {
  ui_editbuf : EDITBUF;
  ui_windowpos : Z;
  ui_updowntoggle : Z;
  ui_telnet : list telnet_call
}.

Definition ui_edit (f : EDITBUF -> EDITBUF) (u : UI) : UI :=
  mkUI (f (ui_editbuf u)) (ui_windowpos u) (ui_updowntoggle u) (ui_telnet u).

Definition ui_scroll (windowpos : Z) (u : UI) : UI :=
  mkUI (ui_editbuf u) windowpos 1 (ui_telnet u).

(** [send_line(editbuf.buf, editbuf.size); editbuf_set("");] *)
Definition ui_submit (u : UI) : UI :=
  let e := ui_editbuf u in
  mkUI (editbuf_set (literal []) e) (ui_windowpos u) (ui_updowntoggle u)
       (send_line (buf e) (size e) (ui_telnet u)).

(** The keys of [on_key] before [editbuf_display]: the state and
    [full_refresh]. *)
Definition on_key_switch (key : Z) (u : UI) : UI * Z :=
  if (key >=? KEY_MIN) && (key <=? KEY_MAX) then
    if key =? KEY_ENTER then (ui_submit u, 1)
    else if key =? KEY_BACKSPACE then (ui_edit editbuf_bs u, 0)
    else if key =? KEY_DC then (ui_edit editbuf_del u, 0)
    else if key =? KEY_LEFT then (ui_edit editbuf_curleft u, 0)
    else if key =? KEY_RIGHT then (ui_edit editbuf_curright u, 0)
    else if key =? KEY_HOME then (ui_edit editbuf_home u, 0)
    else if key =? KEY_END then (ui_edit editbuf_end u, 0)
    else if key =? KEY_DOWN then
      let wp := ui_windowpos u + 1 in
      (ui_scroll (if wp >? MAXLINES then MAXLINES else wp) u, 1)
    else if key =? KEY_NPAGE then
      let wp := ui_windowpos u + 10 in
      (ui_scroll (if wp >? MAXLINES then MAXLINES else wp) u, 1)
    else if key =? KEY_UP then
      let wp := ui_windowpos u - 1 in
      (ui_scroll (if wp <? 0 then 0 else wp) u, 1)
    else if key =? KEY_PPAGE then
      let wp := ui_windowpos u - 10 in
      (ui_scroll (if wp <? 0 then 0 else wp) u, 1)
    else (u, 0)
  else if (key =? 10) || (key =? 13) then (ui_submit u, 0)
  else (ui_edit (editbuf_insert key) u, 0).

(** [on_key(key)] on a screen [COLS] wide: the state, what is painted in
    the input window and the value returned. *)
Definition on_key (COLS : Z) (key : Z) (u : UI) : UI * input_paint * Z :=
  let '(u, full_refresh) := on_key_switch key u in
  let '(e, p) := editbuf_display COLS (ui_editbuf u) in
  (mkUI e (ui_windowpos u) (ui_updowntoggle u) (ui_telnet u), p, full_refresh).

(** A run of keys; the paints and return values are dropped. *)
Definition on_keys (COLS : Z) (keys : list Z) (u : UI) : UI :=
  fold_left (fun u key => (on_key COLS key u).1.1) keys u.

(** The session at the start of the main loop. *)
Definition ui0 : UI := mkUI editbuf0 0 0 [].

(** ** Flushing the output *)

(** The scroll position the main loop and [redraw_display] choose before
    printing: the bottom of the buffer unless the user has scrolled. *)
Definition follow_windowpos (lastline LINES windowpos updowntoggle : Z) : Z :=
  if updowntoggle =? 0 then
    let wp := lastline - LINES + 2 in
    if wp <? 0 then 0 else wp
  else windowpos.

(** [if (!updowntoggle) {...} print_buffer(sbuffer, windowpos, windowpos +
    LINES - 3);] The result carries the scroll position with that of
    [print_buffer]. *)
Definition flush_output (buffer : buffer_t) (lastline LINES windowpos : Z)
    (tw : TERMINAL * log) (updowntoggle : Z)
  : Z * option (Z * (TERMINAL * log) * Z) :=
  let windowpos := follow_windowpos lastline LINES windowpos updowntoggle in
  (windowpos,
   print_buffer buffer windowpos (windowpos + LINES - 3) tw updowntoggle).

(** ** Telnet events *)

(** Option codes of the telnet protocol that the code names. *)
Definition TELNET_TELOPT_ECHO : Z := 1.
Definition TELNET_TELOPT_NAWS : Z := 31.

(** [COLOR_RED] of curses. *)
Definition COLOR_RED : Z := 1.

(** The events of libtelnet that [telnet_event] tells apart. *)
Inductive telnet_event_t : Type :=
| TELNET_EV_DATA (buffer : list Z)
| TELNET_EV_SEND (buffer : list Z)
| TELNET_EV_WILL (telopt : Z)
| TELNET_EV_WONT (telopt : Z)
| TELNET_EV_DO (telopt : Z)
| TELNET_EV_WARNING (msg : list Z)
| TELNET_EV_ERROR (msg : list Z)
| TELNET_EV_other.

(** The two bytes at [(char* )&w] for [w = htons(v)]: [v] as an unsigned
    16-bit number, high byte first. *)
Definition htons_bytes (v : Z) : list Z :=
  [(v mod 65536) / 256; v mod 256].

(** [send_naws], on a screen of [COLS] by [LINES]. *)
Definition send_naws (COLS LINES : Z) (t : TERMINAL) (tl : list telnet_call)
  : list telnet_call :=
  if negb (Z.land (flags t) TERM_FLAG_NAWS =? 0) then
    tl ++ [Telnet_begin_sb TELNET_TELOPT_NAWS;
           Telnet_send (htons_bytes COLS);
           Telnet_send (htons_bytes LINES);
           Telnet_finish_sb]
  else tl.

Definition set_flags (f : Z) (t : TERMINAL) : TERMINAL :=
  mkTERMINAL (state t) (esc_buf t) (esc_cnt t) f (color t).

(** What [telnet_event] works on. *)
Record WORLD : Type := mkWORLD {
  w_terminal : TERMINAL;
  w_sbuffer : buffer_t;
  w_last : Z;
  w_curses : log;
  w_telnet : list telnet_call;
  w_sent_bytes : Z
}.

Inductive event_result : Type :=
| Continue (w : WORLD)
| Exit (code : Z)
| Blocked.

(** [telnet_event], with the answers [env] of the socket to the calls of
    [send] it makes. *)
Definition telnet_event (COLS LINES : Z) (env : list send_result)
    (ev : telnet_event_t) (w : WORLD) : event_result :=
  match ev with
  | TELNET_EV_DATA buffer =>
      let '((b, l), c) :=
        on_text_ansi buffer ((w_sbuffer w, w_last w), w_curses w) in
      Continue (mkWORLD (w_terminal w) b l c (w_telnet w) (w_sent_bytes w))
  | TELNET_EV_SEND buffer =>
      match do_send env (Z.of_nat (length buffer)) (w_sent_bytes w) with
      | Sent n =>
          Continue (mkWORLD (w_terminal w) (w_sbuffer w) (w_last w)
                            (w_curses w) (w_telnet w) n)
      | ExitFailure _ => Exit 1
      | ExitDisconnected => Exit 0
      | Pending _ _ => Blocked
      end
  | TELNET_EV_WILL telopt =>
      let t := w_terminal w in
      let t := if telopt =? TELNET_TELOPT_ECHO
               then set_flags (char_of_int (Z.land (flags t) (Z.lnot TERM_FLAG_ECHO))) t
               else t in
      Continue (mkWORLD t (w_sbuffer w) (w_last w) (w_curses w) (w_telnet w)
                        (w_sent_bytes w))
  | TELNET_EV_WONT telopt =>
      let t := w_terminal w in
      let t := if telopt =? TELNET_TELOPT_ECHO
               then set_flags (char_of_int (Z.lor (flags t) TERM_FLAG_ECHO)) t
               else t in
      Continue (mkWORLD t (w_sbuffer w) (w_last w) (w_curses w) (w_telnet w)
                        (w_sent_bytes w))
  | TELNET_EV_DO telopt =>
      if telopt =? TELNET_TELOPT_NAWS then
        let t := w_terminal w in
        let t := set_flags (char_of_int (Z.lor (flags t) TERM_FLAG_NAWS)) t in
        Continue (mkWORLD t (w_sbuffer w) (w_last w) (w_curses w)
                          (send_naws COLS LINES t (w_telnet w))
                          (w_sent_bytes w))
      else Continue w
  | TELNET_EV_WARNING msg =>
      let c := w_curses w ++ [Wattron COLOR_RED] in
      let st := (w_sbuffer w, w_last w) in
      let st := on_text_plain
                  (take 8 (literal [10; 87; 65; 82; 78; 73; 78; 71; 58])) st in
      let st := on_text_plain (cstr msg) st in
      let st := on_text_plain (take 1 (literal [10])) st in
      let c := c ++ [Wattron (color (w_terminal w))] in
      Continue (mkWORLD (w_terminal w) st.1 st.2 c (w_telnet w) (w_sent_bytes w))
  | TELNET_EV_ERROR msg => Exit 1
  | TELNET_EV_other => Continue w
  end.

(** The edit buffer as the program keeps it: the invariant, and the array
    of [EDITBUF_MAX] bytes. *)
Definition editbuf_ok (e : EDITBUF) : Prop :=
  editbuf_inv e /\ length (buf e) = Z.to_nat EDITBUF_MAX.

(** The operations other than delete-forward, the text given to
    [editbuf_set] being no longer than the array. *)
Definition edit_op_plain (op : edit_op) : Prop :=
  match op with
  | EdDel => False
  | EdSet text => (strlen text <= Z.to_nat EDITBUF_MAX)%nat
  | _ => True
  end.

(** A key that [on_key] hands to [editbuf_insert] and that does not end
    the string sent: not a special key, not a line end, not NUL as a
    [char]. *)
Definition text_key (key : Z) : Prop :=
  (key < KEY_MIN \/ KEY_MAX < key) /\ key <> 10 /\ key <> 13 /\
  char_of_int key <> 0.

(** ** Reading escape sequences *)

(** The colour after one parameter of an [m] command. *)
Definition sgr_color (col v : Z) : Z :=
  if v =? 0 then TERM_COLOR_DEFAULT
  else if (31 <=? v) && (v <=? 37) then v - 30
  else col.

(** The calls of [wattron] that the parameters of an [m] command cause. *)
Definition sgr_calls (params : list Z) : list curses_call :=
  (fun v => Wattron (sgr_color 0 v))
    <$> filter (fun v => v = 0 \/ 31 <= v <= 37) params.

(** The number written by a run of digit characters. *)
Definition decimal (ds : list Z) : Z :=
  fold_left (fun a d => a * 10 + (d - 48)) ds 0.

(** Parameters written out with semicolons between them. *)
Fixpoint params_text (dss : list (list Z)) : list Z :=
  match dss with
  | [] => []
  | ds :: rest =>
      match rest with
      | [] => ds
      | _ :: _ => ds ++ 59 :: params_text rest
      end
  end.

(** A parameter as it can be read back: digits, at least one, the number
    within [int]. *)
Definition param_digits (ds : list Z) : Prop :=
  ds <> [] /\ Forall (fun d => 48 <= d <= 57) ds /\ decimal ds < 2 ^ 31.

(** What a terminal in the parameter run looks like with [k] parameters
    read and stored. *)
Definition in_run (t0 t : TERMINAL) (params : list Z) : Prop :=
  state t = TERM_ESCRUN /\ esc_cnt t = Z.of_nat (length params) /\
  length (esc_buf t) = length (esc_buf t0) /\
  take (length params) (esc_buf t) = params /\
  color t = color t0 /\ flags t = flags t0.


(** The lines by which a scroll key moves the main window. *)
Definition scroll_step (key : Z) : Z :=
  if key =? KEY_UP then -1
  else if key =? KEY_DOWN then 1
  else if key =? KEY_PPAGE then -10
  else if key =? KEY_NPAGE then 10
  else 0.

(** * Properties *)

(** ** Facts about C strings *)

Section CStringFacts.

Implicit Types (s l r : list Z) (c : Z) (n i : nat).

Lemma strlen_le s : (strlen s <= length s)%nat.
Proof.
  induction s as [|c s IH]; simpl; [lia|].
  destruct (Z.eqb_spec c 0); lia.
Qed.

Lemma strlen_app l r :
  Forall (fun c => c <> 0) l -> strlen (l ++ r) = (length l + strlen r)%nat.
Proof.
  induction 1 as [|c l Hc _ IH]; simpl; [done|].
  destruct (Z.eqb_spec c 0); [done|]. by rewrite IH.
Qed.

Lemma take_strlen_nonzero s n :
  (n <= strlen s)%nat -> Forall (fun c => c <> 0) (take n s).
Proof.
  revert n. induction s as [|c s IH]; intros [|n]; simpl; try by constructor.
  destruct (Z.eqb_spec c 0); [lia|]. intros ?. constructor; [done|].
  apply IH. lia.
Qed.

Lemma cstr_nonzero s : Forall (fun c => c <> 0) (cstr s).
Proof. by apply take_strlen_nonzero. Qed.

Lemma length_cstr s : length (cstr s) = strlen s.
Proof. unfold cstr. rewrite length_take. pose proof (strlen_le s). lia. Qed.

Lemma strlen_lookup s : (strlen s < length s)%nat -> s !! strlen s = Some 0.
Proof.
  induction s as [|c s IH]; simpl; [lia|].
  destruct (Z.eqb_spec c 0) as [->|]; [done|]. intros ?. apply IH. lia.
Qed.

(** A terminated array splits into its string, the NUL and the rest. *)
Lemma cstr_split s :
  (strlen s < length s)%nat -> s = cstr s ++ 0 :: drop (S (strlen s)) s.
Proof.
  intros H. unfold cstr.
  rewrite <- (take_drop (strlen s) s) at 1. f_equal.
  by apply drop_S, strlen_lookup.
Qed.

Lemma cstr_app_nul l r : Forall (fun c => c <> 0) l -> cstr (l ++ 0 :: r) = l.
Proof.
  intros H. unfold cstr. rewrite strlen_app by done. simpl.
  rewrite Nat.add_0_r. by rewrite take_app_length.
Qed.

Lemma strlen_lookup_nul s n : s !! n = Some 0 -> (strlen s <= n)%nat.
Proof.
  revert n. induction s as [|c s IH]; intros n; simpl; [lia|].
  destruct (Z.eqb_spec c 0); [lia|].
  destruct n as [|n]; simpl; [congruence|]. intros ?%IH. lia.
Qed.

(** [strcpy] in closed form. *)
Lemma strcpy_eq dst src :
  strcpy dst src = cstr src ++ 0 :: drop (S (strlen src)) dst.
Proof.
  unfold strcpy. rewrite length_app, length_cstr. simpl.
  rewrite <- app_assoc. simpl. by rewrite Nat.add_1_r.
Qed.

Lemma cstr_strcpy dst src : cstr (strcpy dst src) = cstr src.
Proof. rewrite strcpy_eq. apply cstr_app_nul, cstr_nonzero. Qed.

Lemma strlen_strcpy dst src : strlen (strcpy dst src) = strlen src.
Proof. by rewrite <- !length_cstr, cstr_strcpy. Qed.

Lemma length_strcpy dst src :
  (strlen src < length dst)%nat -> length (strcpy dst src) = length dst.
Proof.
  intros H. rewrite strcpy_eq, length_app, length_cstr. simpl.
  rewrite length_drop. lia.
Qed.

(** Two neighbouring stores [s[x] = a; s[x+1] = b]. *)
Lemma insert_pair s n a b :
  (n + 2 <= length s)%nat ->
  <[S n := b]> (<[n := a]> s) = take n s ++ a :: b :: drop (n + 2) s.
Proof.
  revert n. induction s as [|c s IH]; intros n Hn; simpl in *; [lia|].
  destruct n as [|n]; simpl.
  - destruct s; simpl in *; [lia|]. by rewrite drop_0.
  - f_equal. apply IH. lia.
Qed.

Lemma insert_split s n a :
  (n < length s)%nat -> <[n := a]> s = take n s ++ a :: drop (S n) s.
Proof.
  revert n. induction s as [|c s IH]; intros n Hn; simpl in *; [lia|].
  destruct n as [|n]; simpl; [by rewrite drop_0|].
  f_equal. apply IH. lia.
Qed.

(** The cut [line[n] = 0] of an overlong string. *)
Lemma cstr_cut s n :
  (n < strlen s)%nat -> cstr (<[n := 0]> s) = take n (cstr s).
Proof.
  intros H. pose proof (strlen_le s).
  rewrite insert_split by lia.
  rewrite cstr_app_nul by (apply take_strlen_nonzero; lia).
  unfold cstr. rewrite take_take. f_equal. lia.
Qed.

End CStringFacts.

(** ** The screen buffer *)

Section BufferFacts.

Implicit Types (b : buffer_t) (r : list Z) (y x c : Z).

Lemma row_lookup b y r :
  0 <= y -> b !! Z.to_nat y = Some r -> row b y = r.
Proof.
  intros Hy Hr. unfold row. destruct (Z.ltb_spec y 0); [lia|].
  by apply list_lookup_total_correct.
Qed.

Lemma alter_insert {A} (f : A -> A) (l : list A) i a :
  l !! i = Some a -> alter f i l = <[i := f a]> l.
Proof.
  intros H. rewrite list_insert_alter. apply list_alter_ext; [|done].
  intros a' Ha'. congruence.
Qed.

Lemma set_char_eq b y x c r :
  0 <= y -> 0 <= x -> b !! Z.to_nat y = Some r ->
  set_char b y x c = <[Z.to_nat y := <[Z.to_nat x := c]> r]> b.
Proof.
  intros Hy Hx Hr. unfold set_char.
  destruct (Z.ltb_spec y 0); [lia|]. destruct (Z.ltb_spec x 0); [lia|].
  simpl. by apply (alter_insert (fun r' => <[Z.to_nat x := c]> r')).
Qed.

Lemma strcpy_row_eq b y src r :
  0 <= y -> b !! Z.to_nat y = Some r ->
  strcpy_row b y src = <[Z.to_nat y := strcpy r src]> b.
Proof.
  intros Hy Hr. unfold strcpy_row. destruct (Z.ltb_spec y 0); [lia|].
  by apply (alter_insert (fun r' => strcpy r' src)).
Qed.

Lemma wf_buffer_lookup b y :
  wf_buffer b -> 0 <= y < MAXLINES ->
  exists r, b !! Z.to_nat y = Some r /\ wf_row r.
Proof.
  intros [Hl Hall] Hy.
  destruct (lookup_lt_is_Some_2 b (Z.to_nat y)) as [r Hr]; [lia|].
  exists r. split; [done|]. by eapply Forall_lookup_1.
Qed.

Lemma wf_buffer_insert b i r :
  wf_buffer b -> wf_row r -> wf_buffer (<[i := r]> b).
Proof.
  intros [Hl Hall] Hr. split; [by rewrite length_insert|].
  by apply Forall_insert.
Qed.

(** *** Scrolling *)

Lemma scroll_loop_eq n y (pre l : buffer_t) :
  y = Z.of_nat (length pre) + 1 -> (n < length l)%nat ->
  scroll_loop n y (pre ++ l)
  = pre ++ zip_with strcpy (take n l) (drop 1 l) ++ drop n l.
Proof.
  revert y pre l. induction n as [|n IH]; intros y pre l Hy Hn; simpl.
  { by rewrite drop_0. }
  destruct l as [|r0 [|r1 l']]; simpl in Hn; try lia.
  assert (Hrow : row (pre ++ r0 :: r1 :: l') y = r1).
  { apply row_lookup; [lia|].
    replace (pre ++ r0 :: r1 :: l') with ((pre ++ [r0]) ++ r1 :: l')
      by (by rewrite <- app_assoc).
    apply list_lookup_middle. rewrite length_app. simpl. lia. }
  rewrite Hrow.
  assert (Hcp : strcpy_row (pre ++ r0 :: r1 :: l') (y - 1) r1
                = (pre ++ [strcpy r0 r1]) ++ r1 :: l').
  { rewrite (strcpy_row_eq _ _ _ r0); [|lia|].
    - replace (Z.to_nat (y - 1)) with (length pre + 0)%nat by lia.
      rewrite insert_app_r. simpl. by rewrite <- app_assoc.
    - apply list_lookup_middle. lia. }
  rewrite Hcp, IH; [|rewrite length_app; simpl; lia|simpl; lia].
  rewrite <- app_assoc. simpl. by rewrite drop_0.
Qed.

Lemma cstr_zip_strcpy (xs ys : buffer_t) :
  (length ys <= length xs)%nat -> cstr <$> zip_with strcpy xs ys = cstr <$> ys.
Proof.
  revert ys. induction xs as [|a xs IH]; intros [|d ys]; simpl; try done; try lia.
  intros H. rewrite cstr_strcpy. f_equal. apply IH. lia.
Qed.

Lemma wf_zip_strcpy (xs ys : buffer_t) :
  Forall wf_row xs -> Forall wf_row ys -> Forall wf_row (zip_with strcpy xs ys).
Proof.
  intros Hx. revert ys. induction Hx as [|a xs Ha _ IH]; intros ys Hy; simpl.
  { constructor. }
  destruct Hy as [|d ys Hd Hy]; constructor; [|by apply IH].
  destruct Ha as [Hla Hsa], Hd as [Hld Hsd].
  split.
  - rewrite length_strcpy; [done|]. rewrite Hla, <- Hld. done.
  - rewrite strlen_strcpy, length_strcpy; rewrite Hla, <- Hld; done.
Qed.

(** [scroll_buffer] in closed form: every row receives the string of its
    successor, the last row becomes the empty string. *)
Lemma scroll_buffer_eq b rlast :
  wf_buffer b -> b !! 99%nat = Some rlast ->
  scroll_buffer b
  = zip_with strcpy (take 99 b) (drop 1 b) ++ [<[0%nat := 0]> rlast].
Proof.
  intros [Hl Hall] Hlast. unfold scroll_buffer.
  change (Z.to_nat (MAXLINES - 1)) with 99%nat. change (MAXLINES - 1) with 99.
  change (Z.to_nat MAXLINES) with 100%nat in Hl.
  pose proof (scroll_loop_eq 99 1 [] b) as Hs. simpl app in Hs.
  rewrite Hs by (simpl; lia). clear Hs.
  assert (Hd : drop 99 b = [rlast]).
  { rewrite (drop_S _ rlast) by done. rewrite drop_ge by lia. done. }
  rewrite Hd.
  set (z := zip_with strcpy (take 99 b) (drop 1 b)).
  assert (Hz : length z = 99%nat).
  { unfold z. rewrite length_zip_with, length_take, length_drop. lia. }
  rewrite (set_char_eq _ _ _ _ rlast); [| lia | lia |].
  - change (Z.to_nat 99) with 99%nat. change (Z.to_nat 0) with 0%nat.
    replace 99%nat with (length z + 0)%nat by lia.
    by rewrite insert_app_r.
  - change (Z.to_nat 99) with 99%nat. by apply list_lookup_middle.
Qed.

Lemma scroll_buffer_wf b : wf_buffer b -> wf_buffer (scroll_buffer b).
Proof.
  intros Hwf.
  destruct (wf_buffer_lookup b 99 Hwf) as (rlast & Hlast & Hwl); [done|].
  change (Z.to_nat 99) with 99%nat in Hlast.
  rewrite (scroll_buffer_eq b rlast) by done.
  destruct Hwf as [Hl Hall]. change (Z.to_nat MAXLINES) with 100%nat in Hl.
  split.
  - rewrite length_app, length_zip_with, length_take, length_drop.
    change (Z.to_nat MAXLINES) with 100%nat. cbn [length]. lia.
  - apply Forall_app_2.
    + apply wf_zip_strcpy; [by apply Forall_take | by apply Forall_drop].
    + constructor; [|constructor]. destruct Hwl as [Hll Hsl].
      split; [by rewrite length_insert|]. rewrite length_insert.
      destruct rlast; simpl in *; lia.
Qed.

Lemma scroll_buffer_lines b :
  wf_buffer b -> lines (scroll_buffer b) = drop 1 (lines b) ++ [[]].
Proof.
  intros Hwf.
  destruct (wf_buffer_lookup b 99 Hwf) as (rlast & Hlast & Hwl); [done|].
  change (Z.to_nat 99) with 99%nat in Hlast.
  rewrite (scroll_buffer_eq b rlast) by done.
  destruct Hwf as [Hl Hall]. change (Z.to_nat MAXLINES) with 100%nat in Hl.
  unfold lines. rewrite fmap_app, cstr_zip_strcpy, fmap_drop.
  - f_equal. simpl. destruct rlast; [done|]. done.
  - rewrite length_take, length_drop. lia.
Qed.

End BufferFacts.

(** ** Appending to the screen buffer *)

Section AppendFacts.

Implicit Types (b : buffer_t) (r line : list Z) (c last : Z).

(** The line that [add_line_buffer] copies: at most 999 characters. *)
Lemma cstr_line_cut line :
  cstr (if MAX_LINE_LENGTH - 2 <? Z.of_nat (strlen line)
        then <[Z.to_nat (MAX_LINE_LENGTH - 2) := 0]> line else line)
  = take 999 (cstr line).
Proof.
  change (MAX_LINE_LENGTH - 2) with 999. change (Z.to_nat 999) with 999%nat.
  destruct (Z.ltb_spec 999 (Z.of_nat (strlen line))).
  - apply cstr_cut. lia.
  - rewrite take_ge; [done|]. rewrite length_cstr. lia.
Qed.

(** The row on which an append works, after the scroll if there is one. *)
Lemma append_target b last :
  wf_buffer b -> 0 <= last <= MAXLINES ->
  let b0 := if last =? MAXLINES then scroll_buffer b else b in
  let y := if last =? MAXLINES then last - 1 else last in
  wf_buffer b0 /\ 0 <= y < MAXLINES /\
  exists r, b0 !! Z.to_nat y = Some r /\ wf_row r /\ row b0 y = r.
Proof.
  intros Hwf Hlast b0 y.
  assert (Hwf0 : wf_buffer b0).
  { unfold b0. destruct (last =? MAXLINES); [by apply scroll_buffer_wf | done]. }
  assert (Hy : 0 <= y < MAXLINES).
  { unfold y, MAXLINES in *. destruct (Z.eqb_spec last 100); lia. }
  split; [done|]. split; [done|].
  destruct (wf_buffer_lookup b0 y Hwf0 Hy) as (r & Hr & Hwr).
  exists r. split; [done|]. split; [done|]. apply row_lookup; [lia | done].
Qed.

Lemma add_line_buffer_eq b line last :
  wf_buffer b -> 0 <= last <= MAXLINES ->
  let b0 := if last =? MAXLINES then scroll_buffer b else b in
  let y := if last =? MAXLINES then last - 1 else last in
  wf_buffer (add_line_buffer b line last).1 /\
  lines (add_line_buffer b line last).1
    = <[Z.to_nat y := take 999 (cstr line)]> (lines b0) /\
  (add_line_buffer b line last).2 = y + 1.
Proof.
  intros Hwf Hlast b0 y.
  destruct (append_target b last Hwf Hlast) as (Hwf0 & Hy & r & Hr & Hwr & _).
  fold b0 y in Hwf0, Hy, Hr.
  assert (E : add_line_buffer b line last
              = (strcpy_row b0
                   y (if MAX_LINE_LENGTH - 2 <? Z.of_nat (strlen line)
                      then <[Z.to_nat (MAX_LINE_LENGTH - 2) := 0]> line
                      else line), y + 1)).
  { unfold add_line_buffer, b0, y. by destruct (last =? MAXLINES). }
  rewrite E. simpl. clear E.
  rewrite (strcpy_row_eq _ _ _ r) by (done || lia).
  set (line' := if _ <? _ then _ else _).
  assert (Hc : cstr line' = take 999 (cstr line)) by apply cstr_line_cut.
  assert (Hs : (strlen line' <= 999)%nat).
  { rewrite <- length_cstr, Hc, length_take. lia. }
  split; [|split; [|done]].
  - apply wf_buffer_insert; [done|]. destruct Hwr as [Hl Hn].
    split; rewrite ?strlen_strcpy, length_strcpy; rewrite ?Hl;
      unfold MAX_LINE_LENGTH; try done; lia.
  - unfold lines. by rewrite list_fmap_insert, cstr_strcpy, Hc.
Qed.

(** [add_char_buffer] in closed form: the two stores land at [x] and
    [x + 1], [x] the length of the row's string or 999 if that is less. *)
Lemma add_char_buffer_eq b c last :
  wf_buffer b -> 0 <= last <= MAXLINES ->
  let b0 := if last =? MAXLINES then scroll_buffer b else b in
  let y := if last =? MAXLINES then last - 1 else last in
  let r := row b0 y in
  let x := (strlen r `min` 999)%nat in
  add_char_buffer b c last
  = (<[Z.to_nat y := take x r ++ c :: 0 :: drop (x + 2) r]> b0,
     if c =? 10 then y + 1 else y).
Proof.
  intros Hwf Hlast b0 y r x.
  destruct (append_target b last Hwf Hlast) as (Hwf0 & Hy & r' & Hr & Hwr & Hrow).
  fold b0 y in Hwf0, Hy, Hr, Hrow. fold r in Hrow. subst r'.
  assert (E : add_char_buffer b c last
              = (let x := Z.of_nat (strlen r) in
                 let x := if MAX_LINE_LENGTH - 2 <? x
                          then MAX_LINE_LENGTH - 2 else x in
                 set_char (set_char b0 y x c) y (x + 1) 0,
                 if c =? 10 then y + 1 else y)).
  { unfold add_char_buffer, r, b0, y. by destruct (last =? MAXLINES). }
  rewrite E. clear E. cbv zeta. f_equal.
  assert (Hx : (if MAX_LINE_LENGTH - 2 <? Z.of_nat (strlen r)
                then MAX_LINE_LENGTH - 2 else Z.of_nat (strlen r))
               = Z.of_nat x).
  { unfold x, MAX_LINE_LENGTH.
    destruct (Z.ltb_spec (1001 - 2) (Z.of_nat (strlen r))); lia. }
  rewrite Hx.
  destruct Hwr as [Hl Hn]. unfold MAX_LINE_LENGTH in Hl.
  rewrite (set_char_eq b0 y (Z.of_nat x) c r) by (done || lia).
  rewrite (set_char_eq _ _ _ _ (<[Z.to_nat (Z.of_nat x) := c]> r)).
  - rewrite list_insert_insert_eq. f_equal.
    replace (Z.to_nat (Z.of_nat x)) with x by lia.
    replace (Z.to_nat (Z.of_nat x + 1)) with (S x) by lia.
    apply insert_pair. lia.
  - lia.
  - lia.
  - apply list_lookup_insert_eq.
    destruct Hwf0 as [Hlb _]. unfold MAXLINES in *. lia.
Qed.

(** The string of the row after [add_char_buffer]'s two stores. *)
Lemma cstr_put_char r c :
  let x := (strlen r `min` 999)%nat in
  cstr (take x r ++ c :: 0 :: drop (x + 2) r)
  = take x r ++ (if c =? 0 then [] else [c]).
Proof.
  intros x.
  assert (Hnz : Forall (fun c => c <> 0) (take x r)).
  { apply take_strlen_nonzero. lia. }
  destruct (Z.eqb_spec c 0) as [->|Hc].
  - rewrite app_nil_r. by apply cstr_app_nul.
  - rewrite (cons_middle c), app_assoc. apply cstr_app_nul.
    apply Forall_app_2; [done|]. by repeat constructor.
Qed.

Lemma wf_put_char r c :
  wf_row r ->
  let x := (strlen r `min` 999)%nat in
  wf_row (take x r ++ c :: 0 :: drop (x + 2) r).
Proof.
  intros [Hl Hn] x. unfold MAX_LINE_LENGTH in Hl.
  assert (Hlen : length (take x r ++ c :: 0 :: drop (x + 2) r) = 1001%nat).
  { rewrite length_app, length_take. simpl. rewrite length_drop. lia. }
  split; [done|]. rewrite Hlen.
  pose proof (cstr_put_char r c) as Hc. cbv zeta in Hc. fold x in Hc.
  rewrite <- (length_cstr (take x r ++ c :: 0 :: drop (x + 2) r)), Hc.
  rewrite length_app, length_take. destruct (c =? 0); simpl; lia.
Qed.

Lemma add_char_buffer_wf b c last :
  wf_buffer b -> 0 <= last <= MAXLINES ->
  wf_buffer (add_char_buffer b c last).1 /\
  0 <= (add_char_buffer b c last).2 <= MAXLINES.
Proof.
  intros Hwf Hlast.
  rewrite add_char_buffer_eq by done. simpl.
  destruct (append_target b last Hwf Hlast) as (Hwf0 & Hy & r & Hr & Hwr & Hrow).
  rewrite Hrow. split.
  - apply wf_buffer_insert; [done|]. by apply wf_put_char.
  - destruct (c =? 10); lia.
Qed.

Lemma sb_step_wf st op :
  wf_buffer st.1 -> 0 <= st.2 <= MAXLINES ->
  wf_buffer (sb_step st op).1 /\ 0 <= (sb_step st op).2 <= MAXLINES.
Proof.
  intros Hwf Hlast. destruct op as [c|line]; simpl.
  - by apply add_char_buffer_wf.
  - destruct (add_line_buffer_eq st.1 line st.2 Hwf Hlast) as (Hw & _ & Hl).
    split; [done|]. rewrite Hl. unfold MAXLINES in *.
    destruct (Z.eqb_spec st.2 100); lia.
Qed.

Lemma sb_init_wf : wf_buffer sb_init.1 /\ sb_init.2 = 0.
Proof.
  split; [|done]. split; [by vm_compute|].
  apply Forall_lookup_2. intros i r Hir.
  assert (Hi : (i < 100)%nat).
  { apply lookup_lt_Some in Hir. revert Hir. by vm_compute. }
  assert (Hr : r = replicate 1001 0).
  { revert Hir. do 100 (destruct i as [|i]; [vm_compute; congruence|]). lia. }
  subst r. split; [by vm_compute | vm_compute; lia].
Qed.

Lemma sb_run_wf ops st :
  wf_buffer st.1 -> 0 <= st.2 <= MAXLINES ->
  wf_buffer (sb_run ops st).1 /\ 0 <= (sb_run ops st).2 <= MAXLINES.
Proof.
  revert st. induction ops as [|op ops IH]; intros st Hwf Hlast; [done|].
  simpl. destruct (sb_step_wf st op Hwf Hlast). by apply IH.
Qed.

End AppendFacts.

(** ** Whole lines: eviction in arrival order *)

Section LineFacts.

Implicit Types (b : buffer_t) (ls : list (list Z)) (cs : list Z).

Lemma sb_init_lines : lines sb_init.1 = replicate 100 [].
Proof. by vm_compute. Qed.

Lemma sb_run_snoc ops op st : sb_run (ops ++ [op]) st = sb_step (sb_run ops st) op.
Proof. unfold sb_run. by rewrite fold_left_app. Qed.

(** Up to [MAXLINES] lines fill the rows from the first on. *)
Lemma append_lines_fill ls :
  (length ls <= 100)%nat ->
  let st := sb_run (AppendLine <$> ls) sb_init in
  lines st.1 = (take 999 ∘ cstr <$> ls) ++ replicate (100 - length ls) []
  /\ st.2 = Z.of_nat (length ls).
Proof.
  induction ls as [|l ls IH] using rev_ind; intros Hlen st.
  { split; [apply sb_init_lines | done]. }
  rewrite length_app in Hlen. simpl in Hlen.
  destruct IH as [IHl IHn]; [lia|].
  unfold st. rewrite fmap_app. simpl. rewrite sb_run_snoc. simpl.
  set (st' := sb_run (AppendLine <$> ls) sb_init) in *.
  destruct (sb_run_wf (AppendLine <$> ls) sb_init) as [Hwf Hlast];
    [apply sb_init_wf | by vm_compute |]. fold st' in Hwf, Hlast.
  destruct (add_line_buffer_eq st'.1 l st'.2 Hwf Hlast) as (_ & Hl & Hn).
  assert (Hne : (st'.2 =? MAXLINES) = false).
  { apply Z.eqb_neq. unfold MAXLINES. lia. }
  rewrite Hne in Hl, Hn. rewrite Hl, Hn, IHl, IHn. split.
  - replace (Z.to_nat (Z.of_nat (length ls)))
      with (length (take 999 ∘ cstr <$> ls) + 0)%nat
      by (rewrite length_fmap; lia).
    rewrite insert_app_r, fmap_app, <- app_assoc. f_equal.
    rewrite length_app. simpl.
    replace (100 - length ls)%nat with (S (100 - (length ls + 1))) by lia.
    done.
  - rewrite length_app. simpl. lia.
Qed.

(** From [MAXLINES] lines on, the buffer holds the last [MAXLINES]. *)
Lemma append_lines_evict ls :
  (100 <= length ls)%nat ->
  let st := sb_run (AppendLine <$> ls) sb_init in
  lines st.1 = drop (length ls - 100) (take 999 ∘ cstr <$> ls)
  /\ st.2 = MAXLINES.
Proof.
  induction ls as [|l ls IH] using rev_ind; intros Hlen st.
  { simpl in Hlen. lia. }
  rewrite length_app in Hlen. simpl in Hlen.
  destruct (decide (length ls = 99%nat)) as [H99|H99].
  { destruct (append_lines_fill (ls ++ [l])) as [Hl Hn].
    { rewrite length_app. simpl. lia. }
    fold st in Hl, Hn. rewrite Hl, Hn, length_app. simpl.
    replace (100 - (length ls + 1))%nat with 0%nat by lia.
    replace (length ls + 1 - 100)%nat with 0%nat by lia.
    rewrite app_nil_r, drop_0. split; [done|]. unfold MAXLINES. lia. }
  destruct IH as [IHl IHn]; [lia|].
  unfold st. rewrite fmap_app. simpl. rewrite sb_run_snoc. simpl.
  set (st' := sb_run (AppendLine <$> ls) sb_init) in *.
  destruct (sb_run_wf (AppendLine <$> ls) sb_init) as [Hwf Hlast];
    [apply sb_init_wf | by vm_compute |]. fold st' in Hwf, Hlast.
  destruct (add_line_buffer_eq st'.1 l st'.2 Hwf Hlast) as (_ & Hl & Hn).
  assert (He : (st'.2 =? MAXLINES) = true) by (rewrite IHn; apply Z.eqb_refl).
  rewrite He in Hl, Hn. rewrite Hl, Hn, IHn.
  split; [|done]. rewrite scroll_buffer_lines, IHl by done.
  set (ss := take 999 ∘ cstr <$> ls).
  assert (Hss : length ss = length ls) by (unfold ss; by rewrite length_fmap).
  assert (Hd : length (drop 1 (drop (length ls - 100) ss)) = Z.to_nat (MAXLINES - 1)).
  { rewrite !length_drop. unfold MAXLINES. lia. }
  rewrite insert_app_r_alt by lia. rewrite Hd, Nat.sub_diag. simpl.
  rewrite drop_drop, fmap_app, length_app. simpl. fold ss.
  rewrite drop_app_le by lia. f_equal. f_equal. lia.
Qed.

End LineFacts.

(** C2.  Whatever is appended to the screen buffer, its hundred rows stay
    a hundred, each holding a terminated string, and the line cursor stays
    within [0, MAXLINES]; and when 101 distinct one-character lines are
    appended, the first hundred fill the buffer in order and the last one
    pushes out the oldest: the buffer then holds lines 2 to 101 in order. *)
Theorem scrollback_capacity_fifo (ops : list sb_op) (cs : list Z) :
  length cs = 101%nat -> NoDup cs -> Forall (fun c => c <> 0) cs ->
  let one c := AppendLine (literal [c]) in
  (length (sb_run ops sb_init).1 = 100%nat /\
   Forall wf_row (sb_run ops sb_init).1 /\
   0 <= (sb_run ops sb_init).2 <= MAXLINES) /\
  (lines (sb_run (one <$> take 100 cs) sb_init).1 = (fun c => [c]) <$> take 100 cs /\
   (sb_run (one <$> take 100 cs) sb_init).2 = MAXLINES) /\
  (lines (sb_run (one <$> cs) sb_init).1 = (fun c => [c]) <$> drop 1 cs /\
   (sb_run (one <$> cs) sb_init).2 = MAXLINES).
Proof.
  intros Hlen _ Hnz one.
  assert (Hone : forall l : list Z,
            one <$> l = AppendLine <$> ((fun c => literal [c]) <$> l)).
  { intros l. by rewrite <- list_fmap_compose. }
  assert (Hstr : forall l : list Z, Forall (fun c => c <> 0) l ->
            take 999 ∘ cstr <$> ((fun c => literal [c]) <$> l) = (fun c => [c]) <$> l).
  { intros l Hl. rewrite <- list_fmap_compose. apply Forall_fmap_ext_1.
    eapply Forall_impl; [|exact Hl]. intros c Hc. simpl. unfold literal, cstr.
    simpl. destruct (Z.eqb_spec c 0); [done|]. done. }
  split; [|split].
  - destruct (sb_run_wf ops sb_init) as [[Hl Hall] Hlast];
      [apply sb_init_wf | by vm_compute |]. done.
  - rewrite Hone.
    destruct (append_lines_evict ((fun c => literal [c]) <$> take 100 cs)) as [Hl Hn].
    { rewrite length_fmap, length_take. lia. }
    rewrite Hl, Hn, length_fmap, length_take, Hlen. simpl drop.
    split; [|done]. apply Hstr. by apply Forall_take.
  - rewrite Hone.
    destruct (append_lines_evict ((fun c => literal [c]) <$> cs)) as [Hl Hn].
    { rewrite length_fmap. lia. }
    rewrite Hl, Hn, length_fmap, Hlen. split; [|done].
    rewrite Hstr by done. by rewrite fmap_drop.
Qed.

Lemma scrollback_capacity_fifo_witness :
  let cs := Z.of_nat <$> seq 1 101 in
  let ops := [AppendChar 72; AppendChar 10; AppendLine (literal [105])] in
  let one c := AppendLine (literal [c]) in
  (length (sb_run ops sb_init).1 = 100%nat /\
   Forall wf_row (sb_run ops sb_init).1 /\
   0 <= (sb_run ops sb_init).2 <= MAXLINES) /\
  (lines (sb_run (one <$> take 100 cs) sb_init).1 = (fun c => [c]) <$> take 100 cs /\
   (sb_run (one <$> take 100 cs) sb_init).2 = MAXLINES) /\
  (lines (sb_run (one <$> cs) sb_init).1 = (fun c => [c]) <$> drop 1 cs /\
   (sb_run (one <$> cs) sb_init).2 = MAXLINES).
Proof.
  intros cs ops one. apply (scrollback_capacity_fifo ops cs).
  - reflexivity.
  - apply (bool_decide_unpack _). vm_compute. reflexivity.
  - apply (bool_decide_unpack _). vm_compute. reflexivity.
Defined.

(** ** Characters: the row under the cursor *)

Section CharFacts.

Implicit Types (b : buffer_t) (r text : list Z) (c last y : Z).

Lemma row_insert_eq b y r :
  0 <= y -> (Z.to_nat y < length b)%nat -> row (<[Z.to_nat y := r]> b) y = r.
Proof.
  intros Hy Hlt. apply row_lookup; [done|]. by apply list_lookup_insert_eq.
Qed.

Lemma row_insert_ne b y y' r :
  0 <= y -> y <> y' -> row (<[Z.to_nat y := r]> b) y' = row b y'.
Proof.
  intros Hy Hne. unfold row. destruct (Z.ltb_spec y' 0); [done|].
  apply list_lookup_total_insert_ne. lia.
Qed.

(** Appending to a row that is not the last one of a full buffer: the
    closed form of [add_char_buffer_eq] without the scroll. *)
Lemma add_char_buffer_row b c last :
  wf_buffer b -> 0 <= last < MAXLINES ->
  let r := row b last in
  let x := (strlen r `min` 999)%nat in
  let st := add_char_buffer b c last in
  wf_buffer st.1 /\
  st.2 = (if c =? 10 then last + 1 else last) /\
  row st.1 last = take x r ++ c :: 0 :: drop (x + 2) r /\
  (forall y, y <> last -> row st.1 y = row b y).
Proof.
  intros Hwf Hlast r x st.
  assert (Hl2 : 0 <= last <= MAXLINES) by lia.
  pose proof (add_char_buffer_eq b c last Hwf Hl2) as E.
  destruct (add_char_buffer_wf b c last Hwf Hl2) as [Hwf' _].
  assert (Hne : (last =? MAXLINES) = false) by (apply Z.eqb_neq; lia).
  rewrite Hne in E. cbv zeta in E. fold r x in E. fold st in E, Hwf'.
  split; [done|]. rewrite E. simpl. split; [done|]. split.
  - apply row_insert_eq; [lia|]. destruct Hwf as [Hl _].
    unfold MAXLINES in *. lia.
  - intros y Hy. apply row_insert_ne; [lia | done].
Qed.

(** A character that is neither NUL nor a newline lengthens a row that
    has room for it. *)
Lemma add_char_buffer_grow b c last :
  wf_buffer b -> 0 <= last < MAXLINES ->
  (strlen (row b last) <= 999)%nat -> c <> 0 ->
  let st := add_char_buffer b c last in
  wf_buffer st.1 /\
  st.2 = (if c =? 10 then last + 1 else last) /\
  cstr (row st.1 last) = cstr (row b last) ++ [c].
Proof.
  intros Hwf Hlast Hlen Hc st.
  destruct (add_char_buffer_row b c last Hwf Hlast) as (Hwf' & Hn & Hr & _).
  fold st in Hwf', Hn, Hr. split; [done|]. split; [done|].
  rewrite Hr. pose proof (cstr_put_char (row b last) c) as Hp.
  cbv zeta in Hp. rewrite Hp.
  destruct (Z.eqb_spec c 0); [done|].
  unfold cstr. by rewrite Nat.min_l by lia.
Qed.

(** A run of such characters on one row. *)
Lemma on_text_ansi_grow text b last w :
  wf_buffer b -> 0 <= last < MAXLINES ->
  Forall (fun c => c <> 0 /\ c <> 7 /\ c <> 10) text ->
  (strlen (row b last) + length text <= 1000)%nat ->
  let sw := on_text_ansi text ((b, last), w) in
  wf_buffer sw.1.1 /\ sw.1.2 = last /\ sw.2 = w /\
  cstr (row sw.1.1 last) = cstr (row b last) ++ text.
Proof.
  intros Hwf Hlast Htext. revert b Hwf.
  induction Htext as [|c text (Hc0 & Hc7 & Hc10) _ IH]; intros b Hwf Hlen.
  { simpl. by rewrite app_nil_r. }
  simpl in Hlen. simpl.
  destruct (Z.eqb_spec c 7); [done|].
  destruct (add_char_buffer_grow b c last Hwf Hlast) as (Hwf' & Hn & Hr);
    [lia | done |].
  destruct (Z.eqb_spec c 10); [done|].
  destruct (add_char_buffer b c last) as [b' last'] eqn:E. simpl in *. subst last'.
  destruct (IH b' Hwf') as (H1 & H2 & H3 & H4).
  { rewrite <- length_cstr, Hr, length_app, length_cstr. simpl. lia. }
  split; [done|]. split; [done|]. split; [done|].
  rewrite H4, Hr, <- app_assoc. done.
Qed.

(** At the boundary: a row whose string has 999 characters or more
    takes the character at index 999, whatever it is. *)
Lemma add_char_buffer_full b c last :
  wf_buffer b -> 0 <= last < MAXLINES ->
  (999 <= strlen (row b last))%nat ->
  let st := add_char_buffer b c last in
  wf_buffer st.1 /\
  st.2 = (if c =? 10 then last + 1 else last) /\
  row st.1 last = take 999 (row b last) ++ [c; 0] /\
  (forall y, y <> last -> row st.1 y = row b y).
Proof.
  intros Hwf Hlast Hlen st.
  destruct (add_char_buffer_row b c last Hwf Hlast) as (Hwf' & Hn & Hr & Ho).
  fold st in Hwf', Hn, Hr, Ho.
  split; [done|]. split; [done|]. split; [|done].
  rewrite Hr, Nat.min_r by lia.
  destruct (wf_buffer_lookup b last Hwf Hlast) as (r & Hbr & Hlr & _).
  rewrite (row_lookup b last r) by (lia || done).
  rewrite drop_ge; [done|]. unfold MAX_LINE_LENGTH in Hlr. lia.
Qed.

End CharFacts.

Section BoundaryFacts.

Implicit Types (b : buffer_t) (r text cs : list Z) (c last y : Z).

Lemma on_text_plain_snoc cs c st :
  on_text_plain (cs ++ [c]) st
  = add_char_buffer (on_text_plain cs st).1 c (on_text_plain cs st).2.
Proof. unfold on_text_plain. by rewrite fold_left_app. Qed.

Lemma on_text_plain_sb_run text st :
  on_text_plain text st = sb_run (AppendChar <$> text) st.
Proof.
  revert st. induction text as [|c text IH]; intros st; [done|]. apply IH.
Qed.

Lemma on_text_plain_wf text st :
  wf_buffer st.1 -> 0 <= st.2 <= MAXLINES ->
  wf_buffer (on_text_plain text st).1 /\
  0 <= (on_text_plain text st).2 <= MAXLINES.
Proof. rewrite on_text_plain_sb_run. apply sb_run_wf. Qed.

Lemma strlen_boundary r c :
  (999 <= strlen r)%nat -> (999 <= length r)%nat ->
  (999 <= strlen (take 999 r ++ [c; 0%Z]))%nat.
Proof.
  intros Hs Hl. rewrite strlen_app by (by apply take_strlen_nonzero).
  rewrite length_take. lia.
Qed.

(** Characters other than a newline arriving on a row at the boundary
    leave the cursor on the row, the row at the boundary and its first
    999 characters as they are. *)
Lemma on_text_plain_boundary cs b last :
  wf_buffer b -> 0 <= last < MAXLINES ->
  (999 <= strlen (row b last))%nat ->
  Forall (fun c => c <> 10) cs ->
  let st := on_text_plain cs (b, last) in
  wf_buffer st.1 /\ st.2 = last /\
  (999 <= strlen (row st.1 last))%nat /\
  take 999 (row st.1 last) = take 999 (row b last).
Proof.
  intros Hwf Hlast Hlen Hcs. revert b Hwf Hlen.
  induction Hcs as [|c cs Hc _ IH]; intros b Hwf Hlen; [done|].
  simpl.
  destruct (add_char_buffer_full b c last Hwf Hlast Hlen) as (Hwf' & Hn & Hr & _).
  destruct (Z.eqb_spec c 10); [done|].
  destruct (add_char_buffer b c last) as [b' last'] eqn:E. simpl in *. subst last'.
  destruct (wf_buffer_lookup b last Hwf Hlast) as (r & Hbr & Hlr & _).
  rewrite (row_lookup b last r) in * by (lia || done).
  unfold MAX_LINE_LENGTH in Hlr.
  destruct (IH b' Hwf') as (H1 & H2 & H3 & H4).
  { rewrite Hr. apply strlen_boundary; lia. }
  split; [done|]. split; [done|]. split; [done|].
  rewrite H4, Hr. apply take_app_length'. rewrite length_take. lia.
Qed.

End BoundaryFacts.

(** C10.  On a scrollback line that has reached its maximum length of 1000
    characters, every further character other than a newline is stored at
    the last writable position, index 999, over the character that was
    there: after any run of such characters the byte at index 999 is the
    one appended last, the terminator stays at index 1000, the first 999
    characters and the line cursor are unchanged; unless that byte is NUL
    the line's string is its first 999 characters followed by it. *)
Theorem add_char_buffer_overwrites_last
    (b : buffer_t) (last : Z) (cs : list Z) (c : Z) :
  wf_buffer b -> 0 <= last < MAXLINES ->
  strlen (row b last) = 1000%nat ->
  Forall (fun c => c <> 10) (cs ++ [c]) ->
  let st := on_text_plain (cs ++ [c]) (b, last) in
  st.2 = last /\
  row st.1 last !! 999%nat = Some c /\
  row st.1 last !! 1000%nat = Some 0 /\
  take 999 (row st.1 last) = take 999 (row b last) /\
  (c <> 0 -> cstr (row st.1 last) = take 999 (cstr (row b last)) ++ [c]).
Proof.
  intros Hwf Hlast Hfull Hnl st.
  apply Forall_app in Hnl as [Hcs Hc]. apply Forall_inv in Hc.
  destruct (on_text_plain_boundary cs b last Hwf Hlast) as (Hwf1 & Hl1 & Hs1 & Ht1);
    [lia | done |].
  unfold st. rewrite on_text_plain_snoc.
  set (st1 := on_text_plain cs (b, last)) in *. rewrite Hl1.
  destruct (add_char_buffer_full st1.1 c last Hwf1 Hlast Hs1) as (_ & Hn & Hr & _).
  destruct (Z.eqb_spec c 10); [done|].
  destruct (wf_buffer_lookup st1.1 last Hwf1 Hlast) as (r1 & Hbr & Hlr & _).
  rewrite (row_lookup st1.1 last r1) in * by (lia || done).
  unfold MAX_LINE_LENGTH in Hlr.
  assert (Hlt : length (take 999 r1) = 999%nat) by (rewrite length_take; lia).
  rewrite Hn, Hr. split; [done|]. split; [|split; [|split]].
  - by apply list_lookup_middle.
  - rewrite (cons_middle c), app_assoc.
    apply list_lookup_middle. rewrite length_app, Hlt. done.
  - rewrite take_app_length' by done. done.
  - intros Hc0. rewrite (cons_middle c), app_assoc.
    rewrite cstr_app_nul.
    + f_equal. rewrite Ht1. unfold cstr. rewrite Hfull, take_take. done.
    + apply Forall_app_2; [apply take_strlen_nonzero; lia | by repeat constructor].
Qed.

Lemma add_char_buffer_overwrites_last_witness :
  let b := (on_text_plain (replicate 1000 97) sb_init).1 in
  let st := on_text_plain ([98; 0; 99] ++ [100]) (b, 0) in
  st.2 = 0 /\
  row st.1 0 !! 999%nat = Some 100 /\
  row st.1 0 !! 1000%nat = Some 0 /\
  take 999 (row st.1 0) = take 999 (row b 0) /\
  (100 <> 0 -> cstr (row st.1 0) = take 999 (cstr (row b 0)) ++ [100]).
Proof.
  intros b.
  apply (add_char_buffer_overwrites_last b 0 [98; 0; 99] 100).
  - apply on_text_plain_wf; [apply sb_init_wf | by vm_compute].
  - done.
  - by vm_compute.
  - repeat constructor; done.
Defined.

(** C7.  For every text, [add_line_buffer] stores the text cut to 999
    characters, the index [MAX_LINE_LENGTH - 2] of its guard: a text
    longer than 999 characters loses what is behind them, a text of 999
    characters or fewer is stored as it is.  The row written is the one
    under the line cursor, or the last one after a scroll when the buffer
    is full, and the line cursor ends one past it. *)
Theorem add_line_buffer_truncates (b : buffer_t) (line : list Z) (last : Z) :
  wf_buffer b -> 0 <= last <= MAXLINES ->
  let st := add_line_buffer b line last in
  let y := if last =? MAXLINES then MAXLINES - 1 else last in
  let stored := cstr (row st.1 y) in
  st.2 = y + 1 /\
  stored = take 999 (cstr line) /\
  ((strlen line <= 999)%nat -> stored = cstr line) /\
  ((999 < strlen line)%nat -> length stored = 999%nat).
Proof.
  intros Hwf Hlast st y stored.
  destruct (add_line_buffer_eq b line last Hwf Hlast) as (Hwf' & Hl & Hn).
  destruct (append_target b last Hwf Hlast) as (Hwf0 & Hy & _).
  cbv zeta in Hl, Hn, Hwf0, Hy. fold st in Hwf', Hl, Hn.
  assert (Ey : (if last =? MAXLINES then last - 1 else last) = y).
  { unfold y. by destruct (Z.eqb_spec last MAXLINES) as [->|]. }
  rewrite Ey in Hl, Hn, Hy.
  assert (Hs : stored = take 999 (cstr line)).
  { destruct (wf_buffer_lookup st.1 y Hwf' Hy) as (r & Hr & _).
    unfold stored. rewrite (row_lookup st.1 y r) by (lia || done).
    assert (Hlk : lines st.1 !! Z.to_nat y = Some (cstr r)).
    { unfold lines. by rewrite list_lookup_fmap, Hr. }
    rewrite Hl, list_lookup_insert_eq in Hlk; [congruence|].
    unfold lines. rewrite length_fmap. destruct Hwf0 as [Hb0 _]. lia. }
  split; [done|]. split; [done|]. split.
  - intros Hle. rewrite Hs. apply take_ge. rewrite length_cstr. lia.
  - intros Hgt. rewrite Hs, length_take, length_cstr. lia.
Qed.

Lemma add_line_buffer_truncates_witness :
  let line := literal (replicate 1000 97) in
  let st := add_line_buffer sb_init.1 line 0 in
  let stored := cstr (row st.1 0) in
  st.2 = 0 + 1 /\
  stored = take 999 (cstr line) /\
  ((strlen line <= 999)%nat -> stored = cstr line) /\
  ((999 < strlen line)%nat -> length stored = 999%nat).
Proof.
  intros line.
  apply (add_line_buffer_truncates sb_init.1 line 0);
    [apply sb_init_wf | by vm_compute].
Defined.

(** A text of exactly 1000 characters is not stored unchanged: the row
    holds its first 999 characters. *)
Lemma add_line_buffer_cuts_at_999 :
  let text := literal (replicate 1000 97) in
  let stored := cstr (row (add_line_buffer sb_init.1 text sb_init.2).1 0) in
  strlen text = 1000%nat /\
  stored = replicate 999 97 /\
  stored <> cstr text /\
  stored <> take 1000 (cstr text).
Proof.
  vm_compute. split; [reflexivity|]. split; [reflexivity|].
  split; intros H; apply (f_equal length) in H; vm_compute in H; discriminate.
Qed.

(** ** Inbound text *)

Section InboundFacts.

Implicit Types (b : buffer_t) (text : list Z) (c last y : Z) (w : log).

Lemma add_char_buffer_scroll b c :
  add_char_buffer b c MAXLINES
  = add_char_buffer (scroll_buffer b) c (MAXLINES - 1).
Proof. reflexivity. Qed.

Lemma on_text_ansi_snoc text c sw :
  on_text_ansi (text ++ [c]) sw = on_text_ansi_step (on_text_ansi text sw) c.
Proof. unfold on_text_ansi. by rewrite fold_left_app. Qed.

Lemma on_text_ansi_cons text c sw :
  on_text_ansi (c :: text) sw = on_text_ansi text (on_text_ansi_step sw c).
Proof. reflexivity. Qed.

Lemma on_text_ansi_scroll text c b w :
  c <> 7 ->
  on_text_ansi (c :: text) ((b, MAXLINES), w)
  = on_text_ansi (c :: text) ((scroll_buffer b, MAXLINES - 1), w).
Proof.
  intros Hc. rewrite !on_text_ansi_cons.
  assert (E : on_text_ansi_step (b, MAXLINES, w) c
              = on_text_ansi_step (scroll_buffer b, MAXLINES - 1, w) c).
  { unfold on_text_ansi_step. destruct (Z.eqb_spec c 7); [contradiction|].
    cbn [fst snd]. rewrite add_char_buffer_scroll. reflexivity. }
  rewrite E. reflexivity.
Qed.

Lemma scroll_buffer_fresh b :
  wf_buffer b -> strlen (row (scroll_buffer b) (MAXLINES - 1)) = 0%nat.
Proof.
  intros Hwf.
  destruct (wf_buffer_lookup b 99 Hwf) as (rlast & Hlast & Hwl); [done|].
  change (Z.to_nat 99) with 99%nat in Hlast.
  rewrite (scroll_buffer_eq b rlast) by done.
  set (z := zip_with strcpy (take 99 b) (drop 1 b)).
  assert (Hz : length z = Z.to_nat (MAXLINES - 1)).
  { unfold z. rewrite length_zip_with, length_take, length_drop.
    destruct Hwf as [Hl _]. unfold MAXLINES in *. lia. }
  rewrite (row_lookup _ _ (<[0%nat := 0]> rlast)).
  - destruct Hwl as [Hl _]. by destruct rlast.
  - done.
  - by apply list_lookup_middle.
Qed.

(** Text without an escape byte, rendered from the plain state: every
    byte but the carriage returns is written to the window. *)
Lemma send_text_ansi_plain text t w :
  state t = TERM_ASCII -> Forall (fun c => c <> 27) text ->
  send_text_ansi text (t, w)
  = (t, w ++ ((fun c => Waddch (chtype_of_char c))
                <$> filter (fun c => c <> 13) text)).
Proof.
  intros Ht Htext. revert w.
  induction Htext as [|c text Hc _ IH]; intros w.
  { simpl. by rewrite app_nil_r. }
  unfold send_text_ansi in *. cbn [fold_left].
  unfold send_text_ansi_step at 2. rewrite Ht.
  destruct (Z.eqb_spec c 27); [done|].
  rewrite filter_cons. destruct (decide (c <> 13)) as [Hc13|Hc13].
  - destruct (Z.eqb_spec c 13); [done|]. cbn [negb].
    rewrite IH, fmap_cons. by rewrite <- app_assoc.
  - destruct (Z.eqb_spec c 13); [|done]. cbn [negb]. apply IH.
Qed.

(** "Hello\r\n" arriving at the start of a row that is not evicted. *)
Lemma on_text_ansi_hello b last w :
  wf_buffer b -> 0 <= last < MAXLINES -> strlen (row b last) = 0%nat ->
  let sw := on_text_ansi [72; 101; 108; 108; 111; 13; 10] ((b, last), w) in
  sw.1.2 = last + 1 /\ sw.2 = w /\
  cstr (row sw.1.1 last) = [72; 101; 108; 108; 111; 13; 10].
Proof.
  intros Hwf Hlast Hfresh sw.
  assert (E : sw = on_text_ansi_step
                     (on_text_ansi [72; 101; 108; 108; 111; 13] ((b, last), w)) 10)
    by apply (on_text_ansi_snoc [72; 101; 108; 108; 111; 13] 10).
  clearbody sw. subst sw.
  destruct (on_text_ansi_grow [72; 101; 108; 108; 111; 13] b last w Hwf Hlast)
    as (Hwf1 & Hl1 & Hw1 & Hc1).
  { repeat constructor; done. }
  { rewrite Hfresh. simpl. lia. }
  destruct (on_text_ansi [72; 101; 108; 108; 111; 13] (b, last, w))
    as [[b1 last1] w1].
  simpl in Hwf1, Hl1, Hw1, Hc1. subst last1 w1.
  assert (Hnil : cstr (row b last) = []) by (unfold cstr; by rewrite Hfresh).
  rewrite Hnil in Hc1. simpl in Hc1.
  destruct (add_char_buffer_grow b1 10 last Hwf1 Hlast) as (_ & Hn & Hr).
  { rewrite <- length_cstr, Hc1. simpl. lia. }
  { done. }
  unfold on_text_ansi_step. change (10 =? 7) with false.
  cbv beta iota. cbn [fst snd]. rewrite Hn, Hr, Hc1. done.
Qed.

End InboundFacts.

(** C4 as the code has it.  When the bytes "Hello\r\n" arrive at the
    start of a line, the line completed by them holds all seven bytes: the
    carriage return and the newline are stored with the five letters.  The
    newline moves the line cursor to the next row, no bell is rung, and it
    is the rendering of the stored line that leaves the carriage return
    out: the window receives the five letters and the newline. *)
Theorem on_text_ansi_hello_crlf
    (b : buffer_t) (last : Z) (w : log) (t : TERMINAL) (w' : log) :
  wf_buffer b -> 0 <= last <= MAXLINES ->
  (last < MAXLINES -> strlen (row b last) = 0%nat) ->
  state t = TERM_ASCII ->
  let sw := on_text_ansi [72; 101; 108; 108; 111; 13; 10] ((b, last), w) in
  let y := sw.1.2 - 1 in
  y = (if last =? MAXLINES then last - 1 else last) /\
  sw.2 = w /\
  cstr (row sw.1.1 y) = [72; 101; 108; 108; 111; 13; 10] /\
  send_text_ansi (cstr (row sw.1.1 y)) (t, w')
  = (t, w' ++ [Waddch 72; Waddch 101; Waddch 108; Waddch 108; Waddch 111;
               Waddch 10]).
Proof.
  intros Hwf Hlast Hfresh Ht sw y.
  assert (H : exists b0 y0,
             wf_buffer b0 /\ 0 <= y0 < MAXLINES /\ strlen (row b0 y0) = 0%nat /\
             y0 = (if last =? MAXLINES then last - 1 else last) /\
             sw = on_text_ansi [72; 101; 108; 108; 111; 13; 10] ((b0, y0), w)).
  { destruct (Z.eqb_spec last MAXLINES) as [->|Hne].
    - exists (scroll_buffer b), (MAXLINES - 1).
      split; [by apply scroll_buffer_wf|]. split; [done|].
      split; [by apply scroll_buffer_fresh|]. split; [done|].
      apply on_text_ansi_scroll. discriminate.
    - exists b, last. split; [done|]. split; [lia|]. split; [apply Hfresh; lia|].
      done. }
  destruct H as (b0 & y0 & Hwf0 & Hy0 & Hfresh0 & Hy & Hsw).
  destruct (on_text_ansi_hello b0 y0 w Hwf0 Hy0 Hfresh0) as (Hn & Hw & Hc).
  rewrite <- Hsw in Hn, Hw, Hc.
  assert (Hyy : y = y0) by (unfold y; lia).
  rewrite Hyy, Hc. split; [done|]. split; [done|]. split; [done|].
  rewrite send_text_ansi_plain; [done | done | repeat constructor; done].
Qed.

Lemma on_text_ansi_hello_crlf_witness :
  let sw := on_text_ansi [72; 101; 108; 108; 111; 13; 10] (sb_init, []) in
  let y := sw.1.2 - 1 in
  y = 0 /\
  sw.2 = [] /\
  cstr (row sw.1.1 y) = [72; 101; 108; 108; 111; 13; 10] /\
  send_text_ansi (cstr (row sw.1.1 y)) (terminal0, [])
  = (terminal0, [Waddch 72; Waddch 101; Waddch 108; Waddch 108; Waddch 111;
                 Waddch 10]).
Proof.
  apply (on_text_ansi_hello_crlf sb_init.1 0 [] terminal0 []).
  - apply sb_init_wf.
  - done.
  - intros _. by vm_compute.
  - done.
Defined.

(** The stored line is not the five letters alone. *)
Lemma hello_line_keeps_cr_lf :
  let sw := on_text_ansi [72; 101; 108; 108; 111; 13; 10] (sb_init, []) in
  cstr (row sw.1.1 (sw.1.2 - 1)) <> [72; 101; 108; 108; 111].
Proof. vm_compute. discriminate. Qed.

(** ** The escape-sequence state machine *)

Section TerminalFacts.

Implicit Types (t : TERMINAL) (w : log) (c d i : Z) (text : list Z).

Lemma send_text_ansi_snoc text c tw :
  send_text_ansi (text ++ [c]) tw
  = send_text_ansi_step (send_text_ansi text tw) c.
Proof. unfold send_text_ansi. by rewrite fold_left_app. Qed.

(** [on_term_esc] touches the colour and the window only. *)
Lemma on_term_esc_body_frame i t w :
  let tw := on_term_esc_body i (t, w) in
  state tw.1 = state t /\ esc_buf tw.1 = esc_buf t /\ esc_cnt tw.1 = esc_cnt t.
Proof.
  unfold on_term_esc_body.
  destruct (esc_get t i =? 0); [done|].
  by destruct ((31 <=? esc_get t i) && (esc_get t i <=? 37)).
Qed.

Lemma on_term_esc_loop_frame n i t w :
  let tw := on_term_esc_loop n i (t, w) in
  state tw.1 = state t /\ esc_buf tw.1 = esc_buf t /\ esc_cnt tw.1 = esc_cnt t.
Proof.
  revert i t w. induction n as [|n IH]; intros i t w; [done|].
  cbv zeta. cbn [on_term_esc_loop].
  pose proof (on_term_esc_body_frame i t w) as (H1 & H2 & H3).
  destruct (on_term_esc_body i (t, w)) as [t1 w1]. cbn [fst] in *.
  destruct (IH (i + 1) t1 w1) as (H4 & H5 & H6). split; [|split]; congruence.
Qed.

Lemma on_term_esc_frame c t w :
  let tw := on_term_esc c (t, w) in
  state tw.1 = state t /\ esc_buf tw.1 = esc_buf t /\ esc_cnt tw.1 = esc_cnt t.
Proof.
  unfold on_term_esc. destruct (c =? 109); [|done].
  apply on_term_esc_loop_frame.
Qed.

Lemma esc_put_frame t i v :
  state (esc_put t i v) = state t /\ esc_cnt (esc_put t i v) = esc_cnt t /\
  color (esc_put t i v) = color t /\
  length (esc_buf (esc_put t i v)) = length (esc_buf t).
Proof.
  unfold esc_put. destruct (i <? 0); [done|]. simpl.
  by rewrite length_insert.
Qed.

Lemma esc_get_put_eq t i v :
  0 <= i -> (Z.to_nat i < length (esc_buf t))%nat ->
  esc_get (esc_put t i v) i = v.
Proof.
  intros Hi Hlt. unfold esc_get, esc_put.
  destruct (Z.ltb_spec i 0); [lia|]. cbn [esc_buf set_esc_buf].
  by rewrite list_lookup_insert_eq.
Qed.

Lemma esc_put_put t i v v' : esc_put (esc_put t i v) i v' = esc_put t i v'.
Proof.
  unfold esc_put. destruct (i <? 0); [done|].
  unfold set_esc_buf. cbn [state esc_buf esc_cnt flags color].
  by rewrite list_insert_insert_eq.
Qed.

(** One byte keeps the parameter count within the sixteen slots. *)
Lemma send_text_ansi_step_cnt t w c :
  0 <= esc_cnt t <= TERM_MAX_ESC ->
  let tw := send_text_ansi_step (t, w) c in
  0 <= esc_cnt tw.1 <= TERM_MAX_ESC /\
  length (esc_buf tw.1) = length (esc_buf t).
Proof.
  intros Hcnt. unfold send_text_ansi_step. destruct (state t).
  - destruct (c =? 27); [done|]. by destruct (negb (c =? 13)).
  - destruct (c =? 91); [|done].
    destruct (esc_put_frame (set_esc_cnt 0 (set_state TERM_ESCRUN t)) 0 0)
      as (_ & H2 & _ & H4).
    cbv zeta. cbn [fst]. rewrite H2, H4. simpl. unfold TERM_MAX_ESC. lia.
  - destruct (isdigit c).
    + cbv zeta. cbn [fst].
      set (t1 := if esc_cnt t =? 0 then set_esc_cnt 1 t else t).
      assert (H1 : 0 <= esc_cnt t1 <= TERM_MAX_ESC /\
                   length (esc_buf t1) = length (esc_buf t)).
      { unfold t1. destruct (esc_cnt t =? 0); [|done]. simpl.
        unfold TERM_MAX_ESC. lia. }
      set (t2 := esc_put t1 _ _).
      destruct (esc_put_frame t1 (esc_cnt t1 - 1)
                  (int_wrap (esc_get t1 (esc_cnt t1 - 1) * 10)))
        as (_ & H2 & _ & H4). fold t2 in H2, H4.
      destruct (esc_put_frame t2 (esc_cnt t2 - 1)
                  (int_wrap (esc_get t2 (esc_cnt t2 - 1) + (c - 48))))
        as (_ & H5 & _ & H6).
      rewrite H5, H6, H2, H4. done.
    + destruct (c =? 59).
      * destruct (Z.ltb_spec (esc_cnt t) TERM_MAX_ESC); [|done].
        cbv zeta. cbn [fst].
        set (t1 := set_esc_cnt _ t).
        destruct (esc_put_frame t1 (esc_cnt t1 - 1) 0) as (_ & H2 & _ & H4).
        rewrite H2, H4. unfold t1. simpl. unfold size_wrap, TERM_MAX_ESC in *.
        rewrite Z.mod_small by lia. split; [lia | done].
      * pose proof (on_term_esc_frame c t w) as (_ & H2 & H3).
        destruct (on_term_esc c (t, w)) as [t1 w1]. simpl in *.
        rewrite H2, H3. done.
Qed.

Lemma send_text_ansi_cnt text t w :
  0 <= esc_cnt t <= TERM_MAX_ESC ->
  let tw := send_text_ansi text (t, w) in
  0 <= esc_cnt tw.1 <= TERM_MAX_ESC /\
  length (esc_buf tw.1) = length (esc_buf t).
Proof.
  revert t w. induction text as [|c text IH]; intros t w Hcnt; [done|].
  unfold send_text_ansi. cbn [fold_left].
  destruct (send_text_ansi_step_cnt t w c Hcnt) as [H1 H2].
  destruct (send_text_ansi_step (t, w) c) as [t1 w1]. simpl in H1, H2.
  destruct (IH t1 w1 H1) as [H3 H4]. split; [done|]. by rewrite <- H2.
Qed.

End TerminalFacts.

(** C6.  Whatever bytes are rendered, the parameter count of the escape
    run never exceeds the sixteen slots of [esc_buf].  Once sixteen
    parameters are open, a semicolon changes nothing: no entry is added
    and the count stays at sixteen; a digit goes on into the sixteenth
    slot, [esc_buf[15]], whose value becomes ten times the old one plus
    the digit (in [int] arithmetic). *)
Theorem esc_params_at_most_16 (t : TERMINAL) (text : list Z) (w : log) (d : Z) :
  0 <= esc_cnt t <= TERM_MAX_ESC ->
  length (esc_buf t) = Z.to_nat TERM_MAX_ESC ->
  let tw := send_text_ansi text (t, w) in
  (0 <= esc_cnt tw.1 <= TERM_MAX_ESC /\
   length (esc_buf tw.1) = Z.to_nat TERM_MAX_ESC) /\
  (state tw.1 = TERM_ESCRUN -> esc_cnt tw.1 = TERM_MAX_ESC ->
   send_text_ansi_step tw 59 = tw /\
   (isdigit d = true ->
    send_text_ansi_step tw d
    = (set_esc_buf
         (<[15%nat := int_wrap (int_wrap (esc_get tw.1 15 * 10) + (d - 48))]>
            (esc_buf tw.1)) tw.1,
       tw.2))).
Proof.
  intros Hcnt Hlen tw.
  destruct (send_text_ansi_cnt text t w Hcnt) as [Hc' Hl']. fold tw in Hc', Hl'.
  rewrite Hlen in Hl'. split; [done|].
  destruct tw as [t' w']. cbn [fst snd] in *. intros Hst Hfull.
  unfold send_text_ansi_step. rewrite Hst, Hfull. split; [reflexivity|].
  intros Hd. rewrite Hd.
  assert (Hne : (TERM_MAX_ESC =? 0) = false) by done. rewrite Hne.
  cbv zeta. rewrite Hfull. change (TERM_MAX_ESC - 1) with 15.
  destruct (esc_put_frame t' 15 (int_wrap (esc_get t' 15 * 10))) as (_ & H2 & _).
  rewrite H2, Hfull. change (TERM_MAX_ESC - 1) with 15.
  rewrite esc_get_put_eq, esc_put_put; [done | done |].
  rewrite Hl'. unfold TERM_MAX_ESC. lia.
Qed.

Lemma esc_params_at_most_16_witness :
  let text := [27; 91; 49; 59; 59; 59; 59; 59; 59; 59; 59; 59; 59; 59; 59; 59;
               59; 59; 52; 59; 59] in
  let tw := send_text_ansi text (terminal0, []) in
  (0 <= esc_cnt tw.1 <= TERM_MAX_ESC /\
   length (esc_buf tw.1) = Z.to_nat TERM_MAX_ESC) /\
  esc_cnt tw.1 = 16 /\
  send_text_ansi_step tw 59 = tw /\
  send_text_ansi_step tw 50
  = (set_esc_buf
       (<[15%nat := int_wrap (int_wrap (esc_get tw.1 15 * 10) + (50 - 48))]>
          (esc_buf tw.1)) tw.1,
     tw.2) /\
  esc_get (send_text_ansi_step tw 50).1 15 = 42.
Proof.
  intros text tw.
  destruct (esc_params_at_most_16 terminal0 text [] 50) as [Hinv Hfull];
    [by vm_compute | reflexivity |].
  destruct Hfull as [Hsemi Hdigit]; [reflexivity | reflexivity |].
  split; [exact Hinv|]. split; [reflexivity|]. split; [exact Hsemi|].
  split; [exact (Hdigit eq_refl) | reflexivity].
Defined.

(** C3 as the code has it.  From the plain state, ESC [ leaves the
    machine in the parameter run with a parameter count of zero and slot 0
    zeroed, and an [m] that follows at once is dispatched over no
    parameter: the colour is the one before, nothing is sent to the
    window and the machine is back in the plain state.  The colour goes
    back to the default when the parameter 0 is written out, ESC [ 0 m. *)
Theorem esc_bracket_m_keeps_color (t : TERMINAL) (w : log) :
  state t = TERM_ASCII ->
  length (esc_buf t) = Z.to_nat TERM_MAX_ESC ->
  let t1 := (send_text_ansi [27; 91] (t, w)).1 in
  let tw := send_text_ansi [27; 91; 109] (t, w) in
  let tw0 := send_text_ansi [27; 91; 48; 109] (t, w) in
  (state t1 = TERM_ESCRUN /\ esc_cnt t1 = 0 /\ esc_get t1 0 = 0) /\
  (state tw.1 = TERM_ASCII /\ color tw.1 = color t /\ tw.2 = w) /\
  (state tw0.1 = TERM_ASCII /\ color tw0.1 = TERM_COLOR_DEFAULT /\
   tw0.2 = w ++ [Wattron TERM_COLOR_DEFAULT]).
Proof.
  intros Hst Hlen.
  destruct t as [s eb n f col]. cbn [state esc_buf] in Hst, Hlen. subst s.
  destruct eb as [|e0 eb]; [discriminate Hlen|].
  by vm_compute.
Qed.

Lemma esc_bracket_m_keeps_color_witness :
  let t := (send_text_ansi [27; 91; 51; 51; 109] (terminal0, [])).1 in
  let w := [Wattron 3] in
  let t1 := (send_text_ansi [27; 91] (t, w)).1 in
  let tw := send_text_ansi [27; 91; 109] (t, w) in
  let tw0 := send_text_ansi [27; 91; 48; 109] (t, w) in
  (state t1 = TERM_ESCRUN /\ esc_cnt t1 = 0 /\ esc_get t1 0 = 0) /\
  (state tw.1 = TERM_ASCII /\ color tw.1 = color t /\ tw.2 = w) /\
  (state tw0.1 = TERM_ASCII /\ color tw0.1 = TERM_COLOR_DEFAULT /\
   tw0.2 = w ++ [Wattron TERM_COLOR_DEFAULT]).
Proof.
  intros t w. apply (esc_bracket_m_keeps_color t w); reflexivity.
Defined.

(** With colour 3 active (after ESC [ 3 3 m), ESC [ m does not bring the
    default colour back, and ESC [ opens the run with no parameter, not
    with one. *)
Lemma esc_bracket_m_no_reset :
  let t := (send_text_ansi [27; 91; 51; 51; 109] (terminal0, [])).1 in
  color t = 3 /\
  color (send_text_ansi [27; 91; 109] (t, [])).1 <> TERM_COLOR_DEFAULT /\
  esc_cnt (send_text_ansi [27; 91] (t, [])).1 <> 1.
Proof. vm_compute. repeat split; discriminate. Qed.

(** ** The edit buffer *)

Section EditFacts.

Implicit Types (e : EDITBUF) (ch : Z).

Lemma size_wrap_small z : 0 <= z < 2 ^ 64 -> size_wrap z = z.
Proof. intros H. unfold size_wrap. by apply Z.mod_small. Qed.

Lemma int_wrap_small z : - 2 ^ 31 <= z < 2 ^ 31 -> int_wrap z = z.
Proof. intros H. unfold int_wrap. rewrite Z.mod_small; lia. Qed.

(** Inserting keeps the invariant; into a buffer holding [EDITBUF_MAX]
    characters it changes nothing. *)
Lemma editbuf_insert_inv ch e : editbuf_inv e -> editbuf_inv (editbuf_insert ch e).
Proof.
  unfold editbuf_inv, editbuf_insert, EDITBUF_MAX. intros (H1 & H2 & H3).
  destruct (Z.eqb_spec (size e) 1001); [done|].
  destruct (Z.eqb_spec (pos e) (size e)); cbn [pos size];
    rewrite !size_wrap_small by lia; lia.
Qed.

Lemma editbuf_insert_full ch e : size e = EDITBUF_MAX -> editbuf_insert ch e = e.
Proof. intros H. unfold editbuf_insert. by rewrite H. Qed.

Lemma editbuf_bs_inv e : editbuf_inv e -> editbuf_inv (editbuf_bs e).
Proof.
  unfold editbuf_inv, editbuf_bs, EDITBUF_MAX. intros (H1 & H2 & H3).
  destruct (Z.eqb_spec (pos e) 0); [done|].
  destruct (Z.eqb_spec (pos e) (size e)); cbn [pos size];
    rewrite !size_wrap_small by lia; lia.
Qed.

(** Deleting under the cursor keeps the invariant unless the cursor is
    at offset 0 of a buffer of one character. *)
Lemma editbuf_del_inv e :
  editbuf_inv e -> ~ (pos e = 0 /\ size e = 1) -> editbuf_inv (editbuf_del e).
Proof.
  unfold editbuf_inv, editbuf_del, EDITBUF_MAX. intros (H1 & H2 & H3) Hne.
  destruct (Z.eqb_spec (pos e) (size e)); [done|].
  rewrite (size_wrap_small (size e - 1)) by lia.
  destruct (Z.eqb_spec (pos e) (size e - 1)); cbn [pos size];
    rewrite ?size_wrap_small by lia; lia.
Qed.

Lemma editbuf_move_inv e :
  editbuf_inv e ->
  editbuf_inv (editbuf_curleft e) /\ editbuf_inv (editbuf_curright e) /\
  editbuf_inv (editbuf_home e) /\ editbuf_inv (editbuf_end e).
Proof.
  unfold editbuf_inv, editbuf_curleft, editbuf_curright, editbuf_home,
    editbuf_end, EDITBUF_MAX. intros (H1 & H2 & H3).
  destruct (Z.gtb_spec (pos e) 0), (Z.ltb_spec (pos e) (size e));
    cbn [pos size]; rewrite ?size_wrap_small by lia; lia.
Qed.

Lemma editbuf_set_inv text e :
  (strlen text <= 1001)%nat -> editbuf_inv (editbuf_set text e).
Proof. unfold editbuf_inv, editbuf_set, EDITBUF_MAX. cbn [pos size]. lia. Qed.

End EditFacts.

(** C1.  Typing one character, moving home and deleting under the cursor
    takes the cursor below zero: [--editbuf.pos] on the [size_t] 0 gives
    [SIZE_MAX], with a size of 0, and the invariant
    [0 <= pos <= size <= EDITBUF_MAX] is lost. *)
Theorem editbuf_del_wraps_cursor :
  let e1 := edit_run [EdInsert 97; EdHome] editbuf0 in
  let e := edit_step e1 EdDel in
  editbuf_inv e1 /\ pos e1 = 0 /\ size e1 = 1 /\
  pos e = SIZE_MAX /\ size e = 0 /\ ~ editbuf_inv e.
Proof.
  vm_compute. repeat split; try discriminate.
  intros (_ & H & _). by apply H.
Qed.

(** [editbuf_display]: the scroll offset, the text painted and the column
    handed to [wmove]. *)
Lemma editbuf_display_eq (COLS : Z) (e : EDITBUF) :
  editbuf_inv e -> 0 <= COLS < 2 ^ 31 ->
  let st := if pos e >=? COLS then pos e - COLS else 0 in
  editbuf_display COLS e
  = (mkEDITBUF (buf e) (size e) (pos e) st,
     mkPaint (size e - st)
       (take (Z.to_nat (size e - st)) (cstr (drop (Z.to_nat st) (buf e))))
       (pos e)).
Proof.
  intros (H1 & H2 & H3) HC st. unfold EDITBUF_MAX in H3.
  unfold editbuf_display. rewrite (size_wrap_small COLS) by lia. fold st.
  assert (Hst : 0 <= st <= pos e).
  { unfold st. destruct (Z.geb_spec (pos e) COLS); lia. }
  assert (Hw : (if pos e >=? COLS then size_wrap (pos e - COLS) else 0) = st).
  { unfold st. destruct (Z.geb_spec (pos e) COLS); [|done].
    apply size_wrap_small. lia. }
  rewrite Hw. cbn [buf size pos start].
  rewrite (size_wrap_small (size e - st)) by lia.
  rewrite (int_wrap_small (size e - st)) by lia.
  rewrite (int_wrap_small (pos e)) by lia. done.
Qed.

(** C8 as the code has it.  For every cursor position and screen width
    the scroll offset is [pos - COLS] when [pos >= COLS] and 0 otherwise,
    and the text painted is the buffer from that offset on.  While the
    cursor is left of the screen width the offset is 0 and the column
    given to [wmove] is the cursor minus the offset, inside the window. *)
Theorem editbuf_display_offset (COLS : Z) (e : EDITBUF) :
  editbuf_inv e -> 0 <= COLS < 2 ^ 31 ->
  let r := editbuf_display COLS e in
  start r.1 = (if pos e >=? COLS then pos e - COLS else 0) /\
  (buf r.1 = buf e /\ size r.1 = size e /\ pos r.1 = pos e) /\
  addnstr_n r.2 = size e - start r.1 /\
  addnstr_text r.2
    = take (Z.to_nat (size e - start r.1))
        (cstr (drop (Z.to_nat (start r.1)) (buf e))) /\
  (pos e < COLS ->
   start r.1 = 0 /\ wmove_x r.2 = pos e - start r.1 /\ 0 <= wmove_x r.2 < COLS).
Proof.
  intros Hinv HC r. unfold r. rewrite editbuf_display_eq by done.
  cbn [fst snd start buf size pos addnstr_n addnstr_text wmove_x].
  repeat split; try done.
  - destruct (Z.geb_spec (pos e) COLS); [lia | done].
  - destruct (Z.geb_spec (pos e) COLS); lia.
  - by destruct Hinv.
Qed.

Lemma editbuf_display_offset_witness :
  let e := edit_run [EdInsert 104; EdInsert 105; EdLeft] editbuf0 in
  let r := editbuf_display 80 e in
  start r.1 = (if pos e >=? 80 then pos e - 80 else 0) /\
  (buf r.1 = buf e /\ size r.1 = size e /\ pos r.1 = pos e) /\
  addnstr_n r.2 = size e - start r.1 /\
  addnstr_text r.2
    = take (Z.to_nat (size e - start r.1))
        (cstr (drop (Z.to_nat (start r.1)) (buf e))) /\
  (pos e < 80 ->
   start r.1 = 0 /\ wmove_x r.2 = pos e - start r.1 /\ 0 <= wmove_x r.2 < 80).
Proof.
  intros e. apply (editbuf_display_offset 80 e).
  - by vm_compute.
  - done.
Defined.

(** With 100 characters typed on a screen 80 columns wide the offset is
    20, and the column given to [wmove] is 100: neither the cursor minus
    the offset nor a column of the window. *)
Lemma editbuf_display_cursor_off_window :
  let e := edit_run (replicate 100 (EdInsert 97)) editbuf0 in
  let r := editbuf_display 80 e in
  pos e = 100 /\ start r.1 = 20 /\ wmove_x r.2 = 100 /\
  ~ (wmove_x r.2 = pos e - start r.1 /\ 0 <= wmove_x r.2 < 80).
Proof.
  vm_compute. repeat split; try discriminate.
  intros [H _]. discriminate H.
Qed.

(** ** Sending *)

Section SendFacts.

Implicit Types (env : list send_result) (len sent errno : Z).

(** A failed [send] ends the program, whatever [errno] says: the test
    compares the return value, which is -1, with the two codes. *)
Lemma do_send_error_fatal env len sent errno :
  0 < len -> do_send (mkSend (-1) errno :: env) len sent = ExitFailure errno.
Proof.
  intros Hlen. cbn [do_send]. destruct (Z.gtb_spec len 0); [|lia]. reflexivity.
Qed.

Lemma do_send_zero_disconnects env len sent errno :
  0 < len -> do_send (mkSend 0 errno :: env) len sent = ExitDisconnected.
Proof.
  intros Hlen. cbn [do_send]. destruct (Z.gtb_spec len 0); [|lia]. reflexivity.
Qed.

Lemma do_send_done env sent : do_send env 0 sent = Sent sent.
Proof. by destruct env. Qed.

(** A partial write moves on by the bytes accepted. *)
Lemma do_send_partial env len sent n errno :
  0 < n <= len -> len < 2 ^ 31 -> 0 <= sent -> sent + len < 2 ^ 64 ->
  do_send (mkSend n errno :: env) len sent = do_send env (len - n) (sent + n).
Proof.
  intros Hn Hlen Hs Hsl. cbn [do_send sr_ret].
  destruct (Z.gtb_spec len 0); [|lia].
  rewrite int_wrap_small by lia.
  destruct (Z.eqb_spec n (-1)); [lia|]. destruct (Z.eqb_spec n 0); [lia|].
  by rewrite !size_wrap_small by lia.
Qed.

(** Writes accepted in parts, however many, end the loop with every byte
    counted. *)
Lemma do_send_accepts (ns : list Z) len sent :
  Forall (fun n => 0 < n) ns -> foldr Z.add 0 ns = len ->
  len < 2 ^ 31 -> 0 <= sent -> sent + len < 2 ^ 64 ->
  do_send ((fun n => mkSend n 0) <$> ns) len sent = Sent (sent + len).
Proof.
  intros Hns. revert len sent.
  induction Hns as [|n ns Hn Hns IH]; intros len sent Hsum Hlen Hs Hsl.
  { simpl in Hsum. subst len. rewrite Z.add_0_r. apply do_send_done. }
  simpl in Hsum. rewrite fmap_cons.
  assert (H0 : 0 <= foldr Z.add 0 ns).
  { clear -Hns. induction Hns as [|m ns Hm _ IH]; simpl; lia. }
  rewrite do_send_partial by lia.
  rewrite IH by lia. f_equal. lia.
Qed.

End SendFacts.

(** C9.  A [send] that fails with [EINTR] or with [EAGAIN] is not tried
    again: the program ends with failure, although the socket would have
    taken all five bytes at the next call.  Writes accepted in parts are
    carried on to the end, and a write of zero bytes ends the program as a
    disconnect. *)
Theorem do_send_transient_is_fatal :
  do_send [mkSend (-1) EINTR; mkSend 5 0] 5 0 = ExitFailure EINTR /\
  do_send [mkSend (-1) EAGAIN; mkSend 5 0] 5 0 = ExitFailure EAGAIN /\
  do_send [mkSend 2 0; mkSend 3 0] 5 0 = Sent 5 /\
  do_send [mkSend 2 0; mkSend 0 0] 5 0 = ExitDisconnected.
Proof. by vm_compute. Qed.

(** ** Printing the screen buffer *)

Section PrintFacts.

Implicit Types (b : buffer_t) (y startline endline : Z) (tw : TERMINAL * log).

(** The loop of [print_buffer] reads every row from [y] on; it goes
    through when all of them are rows of the buffer. *)
Lemma print_loop_in_range n y b tw :
  0 <= y -> (Z.to_nat y + n <= length b)%nat ->
  is_Some (print_loop n y b tw).
Proof.
  revert y tw. induction n as [|n IH]; intros y tw Hy Hn; [by eexists|].
  cbn [print_loop]. destruct (Z.ltb_spec y 0); [lia|].
  destruct (lookup_lt_is_Some_2 b (Z.to_nat y)) as [r Hr]; [lia|].
  rewrite Hr. apply IH; lia.
Qed.

Lemma print_loop_fault n y b tw :
  0 <= y -> (Z.to_nat y <= length b < Z.to_nat y + n)%nat ->
  print_loop n y b tw = None.
Proof.
  revert y tw. induction n as [|n IH]; intros y tw Hy Hn; [lia|].
  cbn [print_loop]. destruct (Z.ltb_spec y 0); [lia|].
  destruct (b !! Z.to_nat y) as [r|] eqn:Hr; [|done].
  apply lookup_lt_Some in Hr. apply IH; lia.
Qed.

(** The rows read lie between 0 and [MAXLINES], both included. *)
Lemma print_buffer_reads_range startline endline y :
  In y (print_buffer_reads startline endline) -> 0 <= y <= MAXLINES.
Proof.
  unfold print_buffer_reads.
  set (s := if startline <? 0 then 0 else startline).
  assert (Hs : 0 <= s) by (unfold s; destruct (Z.ltb_spec startline 0); lia).
  destruct (Z.gtb_spec s endline); [done|].
  set (e := if endline >? MAXLINES then MAXLINES else endline).
  assert (He : e <= MAXLINES) by (unfold e; destruct (Z.gtb_spec endline MAXLINES); lia).
  intros Hin. apply in_map_iff in Hin as (k & <- & Hk).
  apply in_seq in Hk. lia.
Qed.

(** With [endline] below [MAXLINES] no row outside the buffer is read. *)
Lemma print_buffer_safe b startline endline tw u :
  length b = Z.to_nat MAXLINES -> endline < MAXLINES ->
  is_Some (print_buffer b startline endline tw u).
Proof.
  intros Hb He. unfold print_buffer, MAXLINES in *.
  set (s := if startline <? 0 then 0 else startline).
  assert (Hs : 0 <= s) by (unfold s; destruct (Z.ltb_spec startline 0); lia).
  destruct (Z.gtb_spec s endline); [by eexists|].
  destruct (Z.gtb_spec endline 100); [lia|].
  destruct (print_loop_in_range (Z.to_nat (endline - s + 1)) s b
              (tw.1, tw.2 ++ [Wclear_main])) as [tw' Htw]; [done | lia |].
  rewrite Htw. by eexists.
Qed.

(** With [endline] at [MAXLINES] or beyond and [startline] not beyond
    it, the row after the last one is read. *)
Lemma print_buffer_overrun b startline endline tw u :
  length b = Z.to_nat MAXLINES -> startline <= MAXLINES <= endline ->
  print_buffer b startline endline tw u = None /\
  In MAXLINES (print_buffer_reads startline endline).
Proof.
  intros Hb Hse. unfold print_buffer, print_buffer_reads, MAXLINES in *.
  set (s := if startline <? 0 then 0 else startline).
  assert (Hs : 0 <= s <= 100).
  { unfold s. destruct (Z.ltb_spec startline 0); lia. }
  destruct (Z.gtb_spec s endline); [lia|].
  set (e := if endline >? 100 then 100 else endline).
  assert (He : e = 100).
  { unfold e. destruct (Z.gtb_spec endline 100); lia. }
  rewrite He. split.
  - rewrite print_loop_fault; [done | lia | lia].
  - apply in_map_iff. exists (Z.to_nat (100 - s)). split; [lia|].
    apply in_seq. lia.
Qed.

End PrintFacts.

(** C5.  Scrolled down to line 90 on a screen of 24 lines, [print_buffer]
    is called with the lines 90 to 111; [endline] is clamped to
    [MAXLINES], not to the last row [MAXLINES - 1], and the loop reads
    [buffer[100]], one row past the end of the array.  An empty range
    returns without reading, and a range ending at the last row is read
    without fault. *)
Theorem print_buffer_reads_past_end :
  print_buffer_reads 90 111 = [90; 91; 92; 93; 94; 95; 96; 97; 98; 99; 100] /\
  ~ (100 < MAXLINES) /\
  print_buffer sb_init.1 90 111 (terminal0, []) 0 = None /\
  print_buffer sb_init.1 5 3 (terminal0, []) 7
    = Some (1, (terminal0, [Wclear_main]), 7) /\
  print_buffer sb_init.1 (-4) 99 (terminal0, []) 7
    = Some (0, (terminal0, [Wclear_main]), 0).
Proof. vm_compute. repeat split; try done. Qed.

(** * Further properties *)

(** ** The text of the edit buffer *)

Section EditTextFacts.

Implicit Types (e : EDITBUF) (ch : Z) (a k : list Z).

Lemma list_inserts_eq a k (d : nat) :
  (d + length k <= length a)%nat ->
  list_inserts d k a = take d a ++ k ++ drop (d + length k) a.
Proof.
  intros H.
  rewrite <- (take_drop d a) at 1.
  rewrite <- (take_drop (length k) (drop d a)), drop_drop.
  assert (Hd : length (take d a) = d) by (rewrite length_take; lia).
  replace d with (length (take d a) + 0)%nat at 1 by lia.
  rewrite list_inserts_app_r. f_equal.
  apply list_inserts_0_r. rewrite length_take, length_drop. lia.
Qed.

Lemma memmove_eq a (d s n : Z) :
  0 <= d -> 0 <= s -> 0 <= n ->
  (Z.to_nat s + Z.to_nat n <= length a)%nat ->
  (Z.to_nat d + Z.to_nat n <= length a)%nat ->
  memmove a d s n
  = take (Z.to_nat d) a ++ take (Z.to_nat n) (drop (Z.to_nat s) a)
      ++ drop (Z.to_nat d + Z.to_nat n) a.
Proof.
  intros Hd Hs Hn Hsn Hdn. unfold memmove.
  assert (Hl : length (take (Z.to_nat n) (drop (Z.to_nat s) a)) = Z.to_nat n).
  { rewrite length_take, length_drop. lia. }
  rewrite list_inserts_eq; rewrite Hl; [done | lia].
Qed.


(** [editbuf_insert] below capacity, in closed form. *)
Lemma editbuf_insert_eq ch e :
  editbuf_ok e -> size e < EDITBUF_MAX ->
  let p := Z.to_nat (pos e) in
  let n := Z.to_nat (size e) in
  editbuf_insert ch e
  = mkEDITBUF (take p (buf e) ++ char_of_int ch
                 :: take (n - p) (drop p (buf e)) ++ drop (n + 1) (buf e))
              (size e + 1) (pos e + 1) (start e).
Proof.
  intros [(H1 & H2 & H3) Hl] Hlt p n. unfold EDITBUF_MAX in *.
  assert (Hp : Z.to_nat (pos e) = p) by done.
  assert (Hn : Z.to_nat (size e) = n) by done. clearbody p n.
  unfold editbuf_insert, EDITBUF_MAX.
  destruct (Z.eqb_spec (size e) 1001); [lia|].
  destruct (Z.eqb_spec (pos e) (size e)) as [Heq|Hne].
  - rewrite size_wrap_small by lia. rewrite <- Heq at 3. f_equal.
    + rewrite Hp, insert_split by lia.
      replace (n - p)%nat with 0%nat by lia.
      replace (n + 1)%nat with (S p) by lia. by rewrite take_0.
    + lia.
    + lia.
  - rewrite !size_wrap_small by lia. f_equal.
    rewrite memmove_eq by lia.
    replace (Z.to_nat (pos e + 1)) with (S p) by lia.
    replace (n + 1)%nat with (S p + (n - p))%nat by lia.
    replace (Z.to_nat (size e - pos e)) with (n - p)%nat by lia.
    rewrite Hp. rewrite (take_S_r (buf e) p (default 0 (buf e !! p))).
    + rewrite <- app_assoc. simpl.
      rewrite insert_app_r_alt by (rewrite length_take; lia).
      rewrite length_take.
      replace (p - p `min` length (buf e))%nat with 0%nat by lia. done.
    + destruct (lookup_lt_is_Some_2 (buf e) p) as [v Hv]; [lia|]. by rewrite Hv.
Qed.

(** [editbuf_bs] away from the left end, in closed form. *)
Lemma editbuf_bs_eq e :
  editbuf_ok e -> 0 < pos e ->
  let p := Z.to_nat (pos e) in
  let n := Z.to_nat (size e) in
  editbuf_text (editbuf_bs e) = take (p - 1) (buf e) ++ take (n - p) (drop p (buf e)) /\
  size (editbuf_bs e) = size e - 1 /\ pos (editbuf_bs e) = pos e - 1 /\
  start (editbuf_bs e) = start e /\ length (buf (editbuf_bs e)) = length (buf e).
Proof.
  intros [(H1 & H2 & H3) Hl] Hpos p n. unfold EDITBUF_MAX in *.
  assert (Hp : Z.to_nat (pos e) = p) by done.
  assert (Hn : Z.to_nat (size e) = n) by done. clearbody p n.
  unfold editbuf_bs, editbuf_text.
  destruct (Z.eqb_spec (pos e) 0); [lia|].
  destruct (Z.eqb_spec (pos e) (size e)) as [Heq|Hne]; cbn [buf size pos start].
  - rewrite size_wrap_small by lia. split; [|repeat split; done || lia].
    replace (n - p)%nat with 0%nat by lia. rewrite take_0, app_nil_r.
    f_equal. lia.
  - rewrite !size_wrap_small by lia.
    split; [|repeat split; try done; unfold memmove; by rewrite length_inserts].
    rewrite memmove_eq by lia.
    replace (Z.to_nat (pos e - 1)) with (p - 1)%nat by lia.
    replace (Z.to_nat (size e - pos e)) with (n - p)%nat by lia.
    rewrite Hp.
    replace (Z.to_nat (size e - 1)) with (length (take (p - 1) (buf e)
                ++ take (n - p) (drop p (buf e)))).
    + rewrite app_assoc. apply take_app_length.
    + rewrite length_app, !length_take, length_drop. lia.
Qed.

(** [editbuf_del] before the right end, in closed form.  On the last
    character the cursor is moved as well. *)
Lemma editbuf_del_eq e :
  editbuf_ok e -> pos e < size e ->
  let p := Z.to_nat (pos e) in
  let n := Z.to_nat (size e) in
  editbuf_text (editbuf_del e)
    = take p (buf e) ++ take (n - p - 1) (drop (p + 1) (buf e)) /\
  size (editbuf_del e) = size e - 1 /\
  pos (editbuf_del e)
    = (if pos e =? size e - 1 then size_wrap (pos e - 1) else pos e) /\
  start (editbuf_del e) = start e /\ length (buf (editbuf_del e)) = length (buf e).
Proof.
  intros [(H1 & H2 & H3) Hl] Hpos p n. unfold EDITBUF_MAX in *.
  assert (Hp : Z.to_nat (pos e) = p) by done.
  assert (Hn : Z.to_nat (size e) = n) by done. clearbody p n.
  unfold editbuf_del, editbuf_text.
  destruct (Z.eqb_spec (pos e) (size e)); [lia|].
  rewrite (size_wrap_small (size e - 1)) by lia.
  destruct (Z.eqb_spec (pos e) (size e - 1)) as [Heq|Hne]; cbn [buf size pos start].
  - split; [|repeat split; done || lia].
    replace (n - p - 1)%nat with 0%nat by lia. rewrite take_0, app_nil_r.
    f_equal. lia.
  - rewrite (size_wrap_small (size e - pos e - 1)) by lia.
    split; [|repeat split; try done; unfold memmove; by rewrite length_inserts].
    rewrite memmove_eq by lia.
    replace (Z.to_nat (pos e + 1)) with (p + 1)%nat by lia.
    replace (Z.to_nat (size e - pos e - 1)) with (n - p - 1)%nat by lia.
    rewrite Hp.
    replace (Z.to_nat (size e - 1)) with (length (take p (buf e)
                ++ take (n - p - 1) (drop (p + 1) (buf e)))).
    + rewrite app_assoc. apply take_app_length.
    + rewrite length_app, !length_take, length_drop. lia.
Qed.

End EditTextFacts.

Section EditTextViews.

Implicit Types (e : EDITBUF) (ch : Z).

Lemma editbuf_text_take e (p : nat) :
  (p <= Z.to_nat (size e))%nat -> take p (editbuf_text e) = take p (buf e).
Proof. intros H. unfold editbuf_text. rewrite take_take. f_equal. lia. Qed.

Lemma editbuf_text_drop e (p : nat) :
  (p <= Z.to_nat (size e))%nat ->
  drop p (editbuf_text e) = take (Z.to_nat (size e) - p) (drop p (buf e)).
Proof.
  intros H. unfold editbuf_text. rewrite take_drop_commute. do 2 f_equal. lia.
Qed.

Lemma length_editbuf_text e :
  editbuf_ok e -> length (editbuf_text e) = Z.to_nat (size e).
Proof.
  intros [(H1 & H2 & H3) Hl]. unfold editbuf_text.
  rewrite length_take, Hl. lia.
Qed.

Lemma editbuf_insert_ok ch e : editbuf_ok e -> editbuf_ok (editbuf_insert ch e).
Proof.
  intros [Hinv Hl]. split; [by apply editbuf_insert_inv|].
  unfold editbuf_insert. destruct (size e =? EDITBUF_MAX); [done|].
  destruct (pos e =? size e); cbn [buf]; unfold memmove;
    by rewrite ?length_insert, ?length_inserts.
Qed.

Lemma editbuf_bs_ok e : editbuf_ok e -> editbuf_ok (editbuf_bs e).
Proof.
  intros [Hinv Hl]. split; [by apply editbuf_bs_inv|].
  unfold editbuf_bs. destruct (pos e =? 0); [done|].
  destruct (pos e =? size e); cbn [buf]; unfold memmove;
    by rewrite ?length_inserts.
Qed.

Lemma editbuf_move_ok e :
  editbuf_ok e ->
  editbuf_ok (editbuf_curleft e) /\ editbuf_ok (editbuf_curright e) /\
  editbuf_ok (editbuf_home e) /\ editbuf_ok (editbuf_end e).
Proof.
  intros [Hinv Hl]. destruct (editbuf_move_inv e Hinv) as (A & B & C & D).
  unfold editbuf_ok, editbuf_curleft, editbuf_curright in *.
  destruct (pos e >? 0), (pos e <? size e); done.
Qed.

Lemma editbuf_set_ok text e :
  (strlen text <= 1001)%nat -> length (buf e) = Z.to_nat EDITBUF_MAX ->
  editbuf_ok (editbuf_set text e).
Proof.
  intros Hs Hl. split; [by apply editbuf_set_inv|].
  unfold editbuf_set. cbn [buf]. by rewrite length_inserts.
Qed.

End EditTextViews.

(** [editbuf_insert] below capacity, on the text. *)
Lemma editbuf_insert_chars (ch : Z) (e : EDITBUF) :
  editbuf_ok e -> size e < EDITBUF_MAX ->
  let e' := editbuf_insert ch e in
  let p := Z.to_nat (pos e) in
  editbuf_text e'
    = take p (editbuf_text e) ++ char_of_int ch :: drop p (editbuf_text e) /\
  pos e' = pos e + 1 /\ size e' = size e + 1 /\ start e' = start e /\
  editbuf_ok e'.
Proof.
  intros Hok Hlt e' p.
  assert (Hok' : editbuf_ok e') by (by apply editbuf_insert_ok).
  pose proof (editbuf_insert_eq ch e Hok Hlt) as E. cbv zeta in E. fold e' p in E.
  destruct Hok as [(H1 & H2 & H3) Hl]. unfold EDITBUF_MAX in *.
  rewrite editbuf_text_take, editbuf_text_drop by (unfold p; lia).
  rewrite E in Hok' |- *. cbn [pos size start].
  split; [|by split; [|split; [|split]]].
  unfold editbuf_text. cbn [buf size].
  set (n := Z.to_nat (size e)) in *.
  replace (Z.to_nat (size e + 1)) with (S n) by lia.
  assert (Hp : length (take p (buf e)) = p) by (rewrite length_take; lia).
  assert (Hm : length (take (n - p) (drop p (buf e))) = (n - p)%nat).
  { rewrite length_take, length_drop. lia. }
  rewrite take_app, Hp. rewrite (take_ge (take p (buf e))) by lia. f_equal.
  replace (S n - p)%nat with (S (n - p)) by lia. cbn [take]. f_equal.
  rewrite take_app, Hm, Nat.sub_diag, take_0, app_nil_r.
  by rewrite take_ge by lia.
Qed.

(** X1.  Below capacity, [editbuf_insert] puts the character, as a
    [char], into the text at the cursor: what was left of the cursor
    stays, what was at and right of it moves one place to the right, and
    cursor and size grow by one. *)
Theorem editbuf_insert_text (ch : Z) (e : EDITBUF) :
  editbuf_ok e -> size e < EDITBUF_MAX ->
  let e' := editbuf_insert ch e in
  let p := Z.to_nat (pos e) in
  editbuf_text e'
    = take p (editbuf_text e) ++ char_of_int ch :: drop p (editbuf_text e) /\
  pos e' = pos e + 1 /\ size e' = size e + 1 /\ start e' = start e /\
  editbuf_ok e'.
Proof. exact (editbuf_insert_chars ch e). Qed.

Lemma editbuf_insert_text_witness :
  let e := edit_run [EdInsert 104; EdInsert 105; EdLeft] editbuf0 in
  let e' := editbuf_insert 33 e in
  editbuf_text e = [104; 105] /\
  editbuf_text e' = [104; 33; 105] /\
  pos e' = pos e + 1 /\ size e' = size e + 1 /\ start e' = start e /\
  editbuf_ok e'.
Proof.
  intros e e'. split; [reflexivity|].
  apply (editbuf_insert_text 33 e); by vm_compute.
Defined.

(** [editbuf_bs] on the text. *)
Lemma editbuf_bs_chars (e : EDITBUF) :
  editbuf_ok e ->
  let e' := editbuf_bs e in
  let p := Z.to_nat (pos e) in
  (pos e = 0 -> e' = e) /\
  (0 < pos e ->
   editbuf_text e' = take (p - 1) (editbuf_text e) ++ drop p (editbuf_text e) /\
   pos e' = pos e - 1 /\ size e' = size e - 1 /\ start e' = start e /\
   editbuf_ok e').
Proof.
  intros Hok e' p. split.
  - intros H0. unfold e', editbuf_bs. by rewrite H0.
  - intros Hpos.
    destruct (editbuf_bs_eq e Hok Hpos) as (Ht & Hn & Hp & Hs & _).
    assert (Hok' : editbuf_ok e') by (by apply editbuf_bs_ok).
    destruct Hok as [(H1 & H2 & H3) Hl].
    rewrite editbuf_text_take, editbuf_text_drop by (unfold p; lia).
    done.
Qed.

(** X2.  [editbuf_bs] does nothing at the left end; elsewhere it takes the
    character left of the cursor out of the text and moves the cursor
    and the size down by one. *)
Theorem editbuf_bs_text (e : EDITBUF) :
  editbuf_ok e ->
  let e' := editbuf_bs e in
  let p := Z.to_nat (pos e) in
  (pos e = 0 -> e' = e) /\
  (0 < pos e ->
   editbuf_text e' = take (p - 1) (editbuf_text e) ++ drop p (editbuf_text e) /\
   pos e' = pos e - 1 /\ size e' = size e - 1 /\ start e' = start e /\
   editbuf_ok e').
Proof. exact (editbuf_bs_chars e). Qed.

Lemma editbuf_bs_text_witness :
  let e := edit_run [EdInsert 104; EdInsert 105; EdInsert 33; EdLeft] editbuf0 in
  let e' := editbuf_bs e in
  editbuf_text e = [104; 105; 33] /\
  (pos e = 0 -> e' = e) /\
  editbuf_text e' = [104; 33] /\
  pos e' = pos e - 1 /\ size e' = size e - 1 /\ start e' = start e /\
  editbuf_ok e'.
Proof.
  intros e e'. split; [reflexivity|].
  destruct (editbuf_bs_text e) as [H0 H1]; [by vm_compute|].
  split; [exact H0|]. apply H1. reflexivity.
Defined.

(** X3.  [editbuf_del] does nothing at the right end; elsewhere it takes
    the character under the cursor out of the text and lowers the size by
    one.  The cursor stays where it is, except on the last character of
    the text, where it is moved one place to the left as well. *)
Theorem editbuf_del_text (e : EDITBUF) :
  editbuf_ok e ->
  let e' := editbuf_del e in
  let p := Z.to_nat (pos e) in
  (pos e = size e -> e' = e) /\
  (pos e < size e ->
   editbuf_text e' = take p (editbuf_text e) ++ drop (p + 1) (editbuf_text e) /\
   size e' = size e - 1 /\ start e' = start e /\
   (pos e < size e - 1 -> pos e' = pos e) /\
   (0 < pos e -> pos e = size e - 1 -> pos e' = pos e - 1)).
Proof.
  intros Hok e' p. split.
  - intros H0. unfold e', editbuf_del. rewrite H0. by rewrite Z.eqb_refl.
  - intros Hpos.
    destruct (editbuf_del_eq e Hok Hpos) as (Ht & Hn & Hp & Hs & _).
    destruct Hok as [(H1 & H2 & H3) Hl]. unfold EDITBUF_MAX in *.
    rewrite editbuf_text_take, editbuf_text_drop by (unfold p; lia).
    fold e' in Ht, Hn, Hp, Hs. rewrite Ht, Hn, Hs, Hp.
    repeat split.
    + do 2 f_equal. unfold p. lia.
    + intros Hlt. destruct (Z.eqb_spec (pos e) (size e - 1)); [lia | done].
    + intros Hgt Heq. destruct (Z.eqb_spec (pos e) (size e - 1)); [|lia].
      apply size_wrap_small. lia.
Qed.

Lemma editbuf_del_text_witness :
  let e := edit_run [EdInsert 104; EdInsert 105; EdInsert 33; EdHome; EdRight] editbuf0 in
  let e' := editbuf_del e in
  editbuf_text e = [104; 105; 33] /\
  (pos e = size e -> e' = e) /\
  editbuf_text e' = [104; 33] /\
  size e' = size e - 1 /\ start e' = start e /\
  (pos e < size e - 1 -> pos e' = pos e) /\
  (0 < pos e -> pos e = size e - 1 -> pos e' = pos e - 1).
Proof.
  intros e e'. split; [reflexivity|].
  destruct (editbuf_del_text e) as [H0 H1]; [by vm_compute|].
  split; [exact H0|]. apply H1. reflexivity.
Defined.

(** X4.  Below capacity, a character typed and rubbed out again leaves
    text, cursor, size and scroll offset of the edit buffer as they
    were. *)
Theorem editbuf_insert_bs (ch : Z) (e : EDITBUF) :
  editbuf_ok e -> size e < EDITBUF_MAX ->
  let e' := editbuf_bs (editbuf_insert ch e) in
  editbuf_text e' = editbuf_text e /\
  pos e' = pos e /\ size e' = size e /\ start e' = start e /\ editbuf_ok e'.
Proof.
  intros Hok Hlt e'.
  destruct (editbuf_insert_chars ch e Hok Hlt) as (Ht & Hp & Hn & Hs & Hok1).
  set (e1 := editbuf_insert ch e) in *.
  destruct (editbuf_bs_chars e1 Hok1) as [_ Hbs].
  pose proof Hok as [(H1 & H2 & H3) Hl].
  destruct Hbs as (Ht' & Hp' & Hn' & Hs' & Hok'); [lia|].
  fold e' in Ht', Hp', Hn', Hs', Hok'.
  rewrite Ht', Hp', Hn', Hs', Hp, Hn, Hs.
  split; [|split; [lia|split; [lia|split; [done|exact Hok']]]].
  rewrite Ht. set (p := Z.to_nat (pos e)).
  replace (Z.to_nat (pos e + 1)) with (S p) by lia.
  assert (Hlp : length (take p (editbuf_text e)) = p).
  { rewrite length_take, length_editbuf_text by done. lia. }
  replace (S p - 1)%nat with p by lia.
  rewrite take_app, drop_app, Hlp.
  rewrite (take_ge (take p (editbuf_text e))) by lia.
  rewrite (drop_ge (take p (editbuf_text e))) by lia.
  rewrite Nat.sub_diag, take_0, app_nil_r.
  replace (S p - p)%nat with 1%nat by lia. cbn [drop app].
  rewrite drop_0. apply take_drop.
Qed.

Lemma editbuf_insert_bs_witness :
  let e := edit_run [EdInsert 104; EdInsert 105; EdLeft] editbuf0 in
  let e' := editbuf_bs (editbuf_insert 33 e) in
  editbuf_text e' = editbuf_text e /\
  pos e' = pos e /\ size e' = size e /\ start e' = start e /\ editbuf_ok e'.
Proof.
  intros e. apply (editbuf_insert_bs 33 e); by vm_compute.
Defined.

(** X5.  Whatever is typed, rubbed out, set or moved, as long as the
    delete key stays out of it, the edit buffer keeps
    [0 <= pos <= size <= EDITBUF_MAX] and its array of [EDITBUF_MAX]
    bytes. *)
Theorem edit_run_plain_ok (ops : list edit_op) (e : EDITBUF) :
  editbuf_ok e -> Forall edit_op_plain ops -> editbuf_ok (edit_run ops e).
Proof.
  intros Hok Hops. revert e Hok.
  induction Hops as [|op ops Hop _ IH]; intros e Hok; [done|].
  unfold edit_run. cbn [fold_left]. apply IH.
  destruct (editbuf_move_ok e Hok) as (A & B & C & D).
  destruct op; cbn [edit_step]; try done.
  - apply editbuf_set_ok; [exact Hop | by destruct Hok].
  - by apply editbuf_insert_ok.
  - by apply editbuf_bs_ok.
Qed.

Lemma edit_run_plain_ok_witness :
  editbuf_ok
    (edit_run [EdInsert 104; EdInsert 105; EdHome; EdBs; EdRight; EdBs;
               EdSet (literal [111; 107]); EdLeft; EdEnd] editbuf0).
Proof.
  apply edit_run_plain_ok; [by vm_compute|].
  repeat (constructor; [exact I || (vm_compute; lia)|]). constructor.
Defined.

(** [editbuf_set] with a text that fits. *)
Lemma editbuf_set_chars (text : list Z) (e : EDITBUF) :
  length (buf e) = Z.to_nat EDITBUF_MAX -> (strlen text <= 1000)%nat ->
  let e' := editbuf_set text e in
  editbuf_text e' = cstr text /\
  buf e' !! strlen text = Some 0 /\
  pos e' = Z.of_nat (strlen text) /\ size e' = Z.of_nat (strlen text) /\
  start e' = start e /\ editbuf_ok e'.
Proof.
  intros Hl Hs e'.
  assert (Hok : editbuf_ok e') by (apply editbuf_set_ok; [lia | done]).
  unfold EDITBUF_MAX in Hl.
  assert (Hb : buf e' = cstr text ++ 0 :: drop (S (strlen text)) (buf e)).
  { unfold e', editbuf_set. cbn [buf]. change (Z.to_nat (EDITBUF_MAX - 1)) with 1000%nat.
    rewrite (take_ge (cstr text)) by (rewrite length_cstr; lia).
    rewrite list_inserts_eq; rewrite length_app, length_cstr; cbn [length];
      [|lia].
    rewrite take_0, <- app_assoc. cbn [app]. do 3 f_equal. lia. }
  split; [|split; [|by split; [|split; [|split]]]].
  - unfold editbuf_text. rewrite Hb. unfold e', editbuf_set. cbn [size].
    rewrite Nat2Z.id. apply take_app_length'. by rewrite length_cstr.
  - rewrite Hb. apply list_lookup_middle. by rewrite length_cstr.
Qed.

(** X6.  [editbuf_set] with a text of at most 1000 characters makes that
    text the text of the edit buffer, terminated by a NUL, with the
    cursor at its end; the scroll offset stays. *)
Theorem editbuf_set_text (text : list Z) (e : EDITBUF) :
  length (buf e) = Z.to_nat EDITBUF_MAX -> (strlen text <= 1000)%nat ->
  let e' := editbuf_set text e in
  editbuf_text e' = cstr text /\
  buf e' !! strlen text = Some 0 /\
  pos e' = Z.of_nat (strlen text) /\ size e' = Z.of_nat (strlen text) /\
  start e' = start e /\ editbuf_ok e'.
Proof. exact (editbuf_set_chars text e). Qed.

Lemma editbuf_set_text_witness :
  let e := edit_run [EdInsert 104; EdInsert 105; EdInsert 33] editbuf0 in
  let e' := editbuf_set (literal [111; 107]) e in
  editbuf_text e' = cstr (literal [111; 107]) /\
  buf e' !! strlen (literal [111; 107]) = Some 0 /\
  pos e' = Z.of_nat (strlen (literal [111; 107])) /\
  size e' = Z.of_nat (strlen (literal [111; 107])) /\
  start e' = start e /\ editbuf_ok e'.
Proof.
  intros e. apply (editbuf_set_text (literal [111; 107]) e).
  - reflexivity.
  - vm_compute. lia.
Defined.

(** ** Keys *)

Section KeyFacts.

Implicit Types (u : UI) (e : EDITBUF) (key COLS : Z) (keys : list Z).

Lemma cstr_nonul (l : list Z) : Forall (fun c => c <> 0) l -> cstr l = l.
Proof.
  intros H. unfold cstr. pose proof (strlen_app l [] H) as E.
  rewrite app_nil_r in E. cbn [strlen] in E. rewrite E, Nat.add_0_r.
  by apply take_ge.
Qed.

Lemma on_keys_snoc COLS keys key u :
  on_keys COLS (keys ++ [key]) u = (on_key COLS key (on_keys COLS keys u)).1.1.
Proof. unfold on_keys. by rewrite fold_left_app. Qed.

(** [editbuf_display] sets the scroll offset and nothing else. *)
Lemma editbuf_display_frame COLS e :
  buf (editbuf_display COLS e).1 = buf e /\
  size (editbuf_display COLS e).1 = size e /\
  pos (editbuf_display COLS e).1 = pos e.
Proof. done. Qed.

Lemma on_key_state COLS key u :
  let u1 := (on_key_switch key u).1 in
  let u' := (on_key COLS key u).1.1 in
  buf (ui_editbuf u') = buf (ui_editbuf u1) /\
  size (ui_editbuf u') = size (ui_editbuf u1) /\
  pos (ui_editbuf u') = pos (ui_editbuf u1) /\
  ui_windowpos u' = ui_windowpos u1 /\
  ui_updowntoggle u' = ui_updowntoggle u1 /\
  ui_telnet u' = ui_telnet u1.
Proof.
  unfold on_key. destruct (on_key_switch key u) as [u1 r]. done.
Qed.

Lemma on_key_switch_text_key key u :
  text_key key -> on_key_switch key u = (ui_edit (editbuf_insert key) u, 0).
Proof.
  intros (Hk & H10 & H13 & _). unfold on_key_switch.
  destruct (Z.geb_spec key KEY_MIN), (Z.leb_spec key KEY_MAX); cbn [andb];
    try lia; by destruct (Z.eqb_spec key 10), (Z.eqb_spec key 13).
Qed.

(** The keys typed into an empty edit buffer are its text, up to the
    capacity of the buffer; nothing is sent and nothing scrolls. *)
Lemma on_keys_typed COLS keys u :
  editbuf_ok (ui_editbuf u) -> size (ui_editbuf u) = 0 ->
  Forall text_key keys ->
  let u' := on_keys COLS keys u in
  let cs := take 1001 (char_of_int <$> keys) in
  editbuf_ok (ui_editbuf u') /\
  editbuf_text (ui_editbuf u') = cs /\
  size (ui_editbuf u') = Z.of_nat (length cs) /\
  pos (ui_editbuf u') = Z.of_nat (length cs) /\
  ui_telnet u' = ui_telnet u /\ ui_windowpos u' = ui_windowpos u /\
  ui_updowntoggle u' = ui_updowntoggle u.
Proof.
  intros Hok H0. induction keys as [|key keys IH] using rev_ind; intros Hkeys.
  2: apply Forall_app in Hkeys as [Hkeys Hkey]; apply Forall_inv in Hkey;
     specialize (IH Hkeys).
  { cbn. destruct Hok as [(H1 & H2 & H3) Hl]. unfold editbuf_text.
    rewrite H0. repeat split; try done. lia. }
  cbv zeta in IH |- *. rewrite on_keys_snoc.
  set (u1 := on_keys COLS keys u) in *.
  destruct IH as (Hok1 & Ht1 & Hn1 & Hp1 & Htl & Hwp & Hud).
  pose proof (on_key_state COLS key u1) as K. cbv zeta in K.
  rewrite (on_key_switch_text_key key u1 Hkey) in K. cbn [fst] in K.
  destruct K as (Kb & Kn & Kp & Kw & Ku & Kt).
  set (u' := (on_key COLS key u1).1.1) in *.
  cbn [ui_edit ui_editbuf ui_windowpos ui_updowntoggle ui_telnet] in *.
  set (e1 := ui_editbuf u1) in *. set (e' := ui_editbuf u') in *.
  assert (Ht : editbuf_text e' = editbuf_text (editbuf_insert key e1)).
  { unfold editbuf_text. by rewrite Kb, Kn. }
  assert (Hok' : editbuf_ok e').
  { destruct (editbuf_insert_ok key e1 Hok1) as [(A & B & C) D].
    split; [unfold editbuf_inv|]; rewrite ?Kb, ?Kn, ?Kp; done. }
  rewrite Kw, Ku, Kt, Kn, Kp, Ht, fmap_app. cbn [fmap list_fmap].
  set (cs := char_of_int <$> keys) in *.
  split; [done|].
  destruct (decide (length cs < 1001)%nat) as [Hlt|Hge].
  - rewrite take_ge in Ht1, Hn1, Hp1 by lia.
    destruct (editbuf_insert_chars key e1 Hok1) as (Ht' & Hp' & Hn' & _).
    { unfold EDITBUF_MAX. lia. }
    rewrite Ht', Hp', Hn', Hp1, Hn1, Ht1, Nat2Z.id.
    rewrite take_ge, drop_ge by lia.
    rewrite (take_ge (cs ++ [char_of_int key])) by (rewrite length_app; cbn; lia).
    rewrite length_app. cbn [length]. repeat split; try done; lia.
  - rewrite editbuf_insert_full.
    + rewrite take_app_le by lia. by repeat split.
    + rewrite Hn1, length_take. unfold EDITBUF_MAX. lia.
Qed.

End KeyFacts.

(** X7.  Keys typed on an empty input line and a line end (the return or
    newline character or the enter key): the line handed to libtelnet is
    the characters typed, as many as the buffer holds (1001), followed
    by a newline, and the edit buffer is empty again.  The scroll
    position of the main window is not touched. *)
Theorem on_keys_type_enter (COLS : Z) (keys : list Z) (enter : Z) (u : UI) :
  editbuf_ok (ui_editbuf u) -> size (ui_editbuf u) = 0 ->
  Forall text_key keys ->
  enter = 10 \/ enter = 13 \/ enter = KEY_ENTER ->
  let u' := on_keys COLS (keys ++ [enter]) u in
  ui_telnet u'
    = ui_telnet u ++ [Telnet_printf (take 1001 (char_of_int <$> keys) ++ [10])] /\
  editbuf_text (ui_editbuf u') = [] /\
  size (ui_editbuf u') = 0 /\ pos (ui_editbuf u') = 0 /\
  editbuf_ok (ui_editbuf u') /\
  ui_windowpos u' = ui_windowpos u /\ ui_updowntoggle u' = ui_updowntoggle u.
Proof.
  intros Hok H0 Hkeys Henter.
  destruct (on_keys_typed COLS keys u Hok H0 Hkeys)
    as (Hok1 & Ht1 & Hn1 & Hp1 & Htl & Hwp & Hud).
  cbv zeta. rewrite on_keys_snoc.
  set (u1 := on_keys COLS keys u) in *.
  set (cs := take 1001 (char_of_int <$> keys)) in *.
  assert (Hsw : (on_key_switch enter u1).1 = ui_submit u1).
  { destruct Henter as [E|[E|E]]; subst enter; reflexivity. }
  pose proof (on_key_state COLS enter u1) as K. cbv zeta in K.
  rewrite Hsw in K. destruct K as (Kb & Kn & Kp & Kw & Ku & Kt).
  set (u' := (on_key COLS enter u1).1.1) in *.
  set (e1 := ui_editbuf u1) in *.
  cbn [ui_submit ui_editbuf ui_windowpos ui_updowntoggle ui_telnet] in *.
  fold e1 in Kb, Kn, Kp, Kt.
  assert (Hcs : Forall (fun c => c <> 0) cs).
  { unfold cs. apply Forall_take, Forall_fmap.
    eapply Forall_impl; [|exact Hkeys]. by intros k (_ & _ & _ & Hk). }
  assert (Hlen : (length cs <= 1001)%nat) by (unfold cs; rewrite length_take; lia).
  assert (Hsend : send_line (buf e1) (size e1) (ui_telnet u1)
                  = ui_telnet u ++ [Telnet_printf (cs ++ [10])]).
  { unfold send_line. rewrite Hn1, int_wrap_small by lia.
    destruct (Z.ltb_spec (Z.of_nat (length cs)) 0); [lia|].
    rewrite Htl. do 3 f_equal. rewrite <- Hn1. fold (editbuf_text e1).
    rewrite Ht1. by rewrite cstr_nonul. }
  destruct Hok1 as [_ Hl1].
  destruct (editbuf_set_chars (literal []) e1 Hl1) as (St & _ & Sp & Sn & _ & Sok).
  { cbn. lia. }
  change (Z.of_nat (strlen (literal []))) with 0 in Sp, Sn.
  assert (Hok' : editbuf_ok (ui_editbuf u')).
  { destruct Sok as [(A & B & C) D].
    split; [unfold editbuf_inv|]; rewrite ?Kb, ?Kn, ?Kp; done. }
  rewrite Kt, Hsend, Kn, Kp, Kw, Ku. unfold editbuf_text. rewrite Kn, Sn, Sp.
  rewrite take_0. split; [done|]. split; [done|]. split; [done|]. split; [done|].
  split; [exact Hok'|]. by split.
Qed.

Lemma on_keys_type_enter_witness :
  let u' := on_keys 80 ([104; 105] ++ [13]) ui0 in
  ui_telnet u'
    = ui_telnet ui0 ++ [Telnet_printf (take 1001 (char_of_int <$> [104; 105]) ++ [10])] /\
  editbuf_text (ui_editbuf u') = [] /\
  size (ui_editbuf u') = 0 /\ pos (ui_editbuf u') = 0 /\
  editbuf_ok (ui_editbuf u') /\
  ui_windowpos u' = ui_windowpos ui0 /\ ui_updowntoggle u' = ui_updowntoggle ui0.
Proof.
  apply (on_keys_type_enter 80 [104; 105] 13 ui0).
  - by vm_compute.
  - reflexivity.
  - repeat constructor; (lia || discriminate).
  - right. by left.
Defined.

(** A key other than delete-forward keeps the edit buffer within its
    bounds. *)
Lemma on_key_ok (COLS : Z) (key : Z) (u : UI) :
  editbuf_ok (ui_editbuf u) -> key <> KEY_DC ->
  editbuf_ok (ui_editbuf (on_key COLS key u).1.1).
Proof.
  intros Hok Hkey.
  destruct (on_key_state COLS key u) as (Kb & Ks & Kp & _).
  assert (H1 : editbuf_ok (ui_editbuf (on_key_switch key u).1)).
  { destruct (editbuf_move_ok _ Hok) as (Hl & Hr & Hh & He).
    unfold on_key_switch.
    destruct (Z.eqb_spec key KEY_DC); [contradiction|].
    repeat match goal with
           | |- context [if ?b then _ else _] => destruct b
           end;
      cbn [fst ui_editbuf ui_edit ui_submit ui_scroll];
      first [ exact Hok | exact Hl | exact Hr | exact Hh | exact He
            | by apply editbuf_bs_ok | by apply editbuf_insert_ok
            | apply editbuf_set_ok; [cbn; lia | apply Hok] ]. }
  unfold editbuf_ok, editbuf_inv in *. by rewrite Kb, Ks, Kp.
Qed.

(** The scroll position after one key. *)
Lemma on_key_windowpos (COLS : Z) (key : Z) (u : UI) :
  0 <= ui_windowpos u <= MAXLINES ->
  0 <= ui_windowpos (on_key COLS key u).1.1 <= MAXLINES.
Proof.
  intros Hw. destruct (on_key_state COLS key u) as (_ & _ & _ & Kw & _).
  rewrite Kw. unfold on_key_switch, MAXLINES in *.
  repeat match goal with
         | |- context [if ?a >? ?b then _ else _] => destruct (Z.gtb_spec a b)
         | |- context [if ?a <? ?b then _ else _] => destruct (Z.ltb_spec a b)
         end;
    repeat match goal with
           | |- context [if ?b then _ else _] => destruct b
           end;
    cbn [fst ui_windowpos ui_scroll ui_edit ui_submit]; lia.
Qed.

(** X8.  From an edit buffer within its bounds, whatever keys other than
    delete-forward are pressed, the scroll position of the main window
    stays within [0, MAXLINES] and the edit buffer stays within its
    bounds, [0 <= pos <= size <= EDITBUF_MAX], after every key, so that
    no key reads or writes outside [editbuf.buf]. *)
Theorem on_keys_windowpos (COLS : Z) (keys : list Z) (u : UI) :
  editbuf_ok (ui_editbuf u) -> Forall (fun key => key <> KEY_DC) keys ->
  0 <= ui_windowpos u <= MAXLINES ->
  forall n,
    let u' := on_keys COLS (take n keys) u in
    0 <= ui_windowpos u' <= MAXLINES /\ editbuf_ok (ui_editbuf u').
Proof.
  intros Hok Hkeys. revert u Hok.
  induction Hkeys as [|key keys Hkey _ IH]; intros u Hok Hw n.
  { rewrite take_nil. by split. }
  destruct n as [|n]; [by split|].
  cbn [take]. unfold on_keys. cbn [fold_left].
  apply (IH (on_key COLS key u).1.1);
    [by apply on_key_ok | by apply on_key_windowpos].
Qed.

Lemma on_keys_windowpos_witness :
  let u' :=
    on_keys 80
      (take 6 [KEY_NPAGE; KEY_UP; 104; KEY_HOME; KEY_BACKSPACE; KEY_DOWN; KEY_PPAGE])
      ui0 in
  0 <= ui_windowpos u' <= MAXLINES /\ editbuf_ok (ui_editbuf u').
Proof.
  apply (on_keys_windowpos 80
           [KEY_NPAGE; KEY_UP; 104; KEY_HOME; KEY_BACKSPACE; KEY_DOWN; KEY_PPAGE]
           ui0).
  - by vm_compute.
  - repeat constructor; discriminate.
  - by vm_compute.
Defined.

(** ** More on the screen buffer *)

Section BufferMore.

Implicit Types (b : buffer_t) (r text line : list Z) (c last y : Z).

Lemma init_loop_eq n y (pre l : buffer_t) :
  y = Z.of_nat (length pre) -> (n <= length l)%nat ->
  init_loop n y (pre ++ l)
  = pre ++ ((fun r => <[0%nat := 0]> r) <$> take n l) ++ drop n l.
Proof.
  revert y pre l. induction n as [|n IH]; intros y pre l Hy Hn.
  { cbn. by rewrite drop_0. }
  cbn [init_loop]. destruct l as [|r l]; [cbn in Hn; lia|]. cbn [length] in Hn.
  rewrite (set_char_eq _ _ _ _ r); [| lia | lia |].
  - replace (Z.to_nat y) with (length pre + 0)%nat by lia.
    rewrite insert_app_r. cbn [insert list_insert].
    rewrite (cons_middle _ pre), app_assoc, IH.
    + by rewrite <- app_assoc.
    + rewrite length_app. cbn. lia.
    + lia.
  - apply list_lookup_middle. lia.
Qed.

(** A run of characters that are neither NUL nor a newline on a row that
    has room for them. *)
Lemma on_text_plain_grow text b last :
  wf_buffer b -> 0 <= last < MAXLINES ->
  Forall (fun c => c <> 0 /\ c <> 10) text ->
  (strlen (row b last) + length text <= 1000)%nat ->
  let st := on_text_plain text (b, last) in
  wf_buffer st.1 /\ st.2 = last /\
  cstr (row st.1 last) = cstr (row b last) ++ text.
Proof.
  intros Hwf Hlast Htext. revert b Hwf.
  induction Htext as [|c text (Hc0 & Hc10) _ IH]; intros b Hwf Hlen.
  { cbn. by rewrite app_nil_r. }
  cbn [length] in Hlen. unfold on_text_plain. cbn [fold_left fst snd].
  destruct (add_char_buffer_grow b c last Hwf Hlast) as (Hwf' & Hn & Hr);
    [lia | done |].
  destruct (Z.eqb_spec c 10); [done|].
  destruct (add_char_buffer b c last) as [b' last'] eqn:E.
  cbn [fst snd] in *. subst last'.
  destruct (IH b' Hwf') as (H1 & H2 & H3).
  { rewrite <- length_cstr, Hr, length_app, length_cstr. cbn. lia. }
  split; [done|]. split; [done|].
  unfold on_text_plain in H3. rewrite H3, Hr, <- app_assoc. done.
Qed.

Lemma lines_insert b (i : nat) r : lines (<[i := r]> b) = <[i := cstr r]> (lines b).
Proof. unfold lines. apply list_fmap_insert. Qed.

End BufferMore.

(** X9.  [init_buffer] on an array of the declared size, whatever it
    holds: every row gets a NUL at index 0 and is otherwise left as it is,
    so that every line is the empty string. *)
Theorem init_buffer_clears (b : buffer_t) :
  length b = Z.to_nat MAXLINES ->
  Forall (fun r => length r = Z.to_nat MAX_LINE_LENGTH) b ->
  init_buffer b = (fun r => <[0%nat := 0]> r) <$> b /\
  wf_buffer (init_buffer b) /\
  lines (init_buffer b) = replicate (Z.to_nat MAXLINES) [].
Proof.
  intros Hl Hrows.
  assert (E : init_buffer b = (fun r => <[0%nat := 0]> r) <$> b).
  { unfold init_buffer. pose proof (init_loop_eq (Z.to_nat MAXLINES) 0 [] b) as H.
    cbn [app length] in H. rewrite H by (done || lia).
    rewrite take_ge, drop_ge by lia. by rewrite app_nil_r. }
  rewrite E. split; [done|]. split; [split|].
  - by rewrite length_fmap.
  - apply Forall_fmap. eapply Forall_impl; [|exact Hrows].
    intros r Hr. cbn. split; [by rewrite length_insert|].
    rewrite length_insert. destruct r; [discriminate Hr|]. cbn. lia.
  - unfold lines. rewrite <- list_fmap_compose, <- Hl.
    clear Hl E. induction Hrows as [|r b Hr _ IH]; [done|].
    cbn. rewrite IH. f_equal. by destruct r.
Qed.

Lemma init_buffer_clears_witness :
  let b := replicate 100 (replicate 1001 65) in
  init_buffer b = (fun r => <[0%nat := 0]> r) <$> b /\
  wf_buffer (init_buffer b) /\
  lines (init_buffer b) = replicate (Z.to_nat MAXLINES) [].
Proof.
  intros b. apply (init_buffer_clears b).
  - reflexivity.
  - apply Forall_replicate. reflexivity.
Defined.

(** X10.  [scroll_buffer] drops the first line, moves every other line up
    by one row and leaves the empty string in the last row. *)
Theorem scroll_buffer_shifts (b : buffer_t) :
  wf_buffer b ->
  wf_buffer (scroll_buffer b) /\
  lines (scroll_buffer b) = drop 1 (lines b) ++ [[]].
Proof.
  intros Hwf. split; [by apply scroll_buffer_wf | by apply scroll_buffer_lines].
Qed.

Lemma scroll_buffer_shifts_witness :
  let b := (sb_run [AppendLine (literal [97]); AppendLine (literal [98])] sb_init).1 in
  wf_buffer (scroll_buffer b) /\
  lines (scroll_buffer b) = drop 1 (lines b) ++ [[]].
Proof.
  intros b. apply (scroll_buffer_shifts b).
  apply sb_run_wf; [apply sb_init_wf | by vm_compute].
Defined.

(** X11.  [add_line_buffer] stores the first 999 characters of the text,
    whatever the text: in the row under the line cursor when the buffer
    is not full, the other lines staying, and after a scroll in the last
    row when it is.  The line cursor ends one past the row written. *)
Theorem add_line_buffer_stores (b : buffer_t) (line : list Z) (last : Z) :
  wf_buffer b -> 0 <= last <= MAXLINES ->
  let st := add_line_buffer b line last in
  wf_buffer st.1 /\
  (last < MAXLINES ->
   lines st.1 = <[Z.to_nat last := take 999 (cstr line)]> (lines b) /\
   st.2 = last + 1) /\
  (last = MAXLINES ->
   lines st.1 = drop 1 (lines b) ++ [take 999 (cstr line)] /\
   st.2 = MAXLINES).
Proof.
  intros Hwf Hlast st.
  destruct (add_line_buffer_eq b line last Hwf Hlast) as (Hwf' & Hl & Hn).
  fold st in Hwf', Hl, Hn. split; [done|]. split.
  - intros Hlt. assert (Hne : (last =? MAXLINES) = false) by (apply Z.eqb_neq; lia).
    rewrite Hne in Hl, Hn. done.
  - intros Heq. subst last. rewrite Z.eqb_refl in Hl, Hn.
    rewrite Hl, Hn, scroll_buffer_lines by done.
    split; [|unfold MAXLINES; lia].
    assert (Hd : length (drop 1 (lines b)) = Z.to_nat (MAXLINES - 1)).
    { unfold lines. rewrite length_drop, length_fmap. destruct Hwf as [Hb _].
      unfold MAXLINES in *. lia. }
    rewrite insert_app_r_alt by lia. by rewrite Hd, Nat.sub_diag.
Qed.

Lemma add_line_buffer_stores_witness :
  let b := sb_init.1 in
  let line := literal [104; 105] in
  let st := add_line_buffer b line 0 in
  wf_buffer st.1 /\
  (0 < MAXLINES ->
   lines st.1 = <[Z.to_nat 0 := take 999 (cstr line)]> (lines b) /\
   st.2 = 0 + 1) /\
  (0 = MAXLINES ->
   lines st.1 = drop 1 (lines b) ++ [take 999 (cstr line)] /\
   st.2 = MAXLINES).
Proof.
  intros b line. apply (add_line_buffer_stores b line 0); [apply sb_init_wf | done].
Defined.

(** X12.  [add_char_buffer] in terms of lines.  The line under the cursor
    becomes its first 999 characters followed by the new character (a
    NUL adds nothing): a line shorter than 1000 grows by the character,
    a line of 1000 characters has its last one replaced; the other lines
    stay.  On a full buffer the lines are scrolled first and the
    character starts the last line.  The line cursor moves on after a
    newline only. *)
Theorem add_char_buffer_lines (b : buffer_t) (c : Z) (last : Z) :
  wf_buffer b -> 0 <= last <= MAXLINES ->
  let st := add_char_buffer b c last in
  let tail := if c =? 0 then [] else [c] in
  wf_buffer st.1 /\
  (last < MAXLINES ->
   lines st.1
     = <[Z.to_nat last := take 999 (cstr (row b last)) ++ tail]> (lines b) /\
   st.2 = (if c =? 10 then last + 1 else last)) /\
  (last = MAXLINES ->
   lines st.1 = drop 1 (lines b) ++ [tail] /\
   st.2 = (if c =? 10 then MAXLINES else MAXLINES - 1)).
Proof.
  intros Hwf Hlast st tail.
  destruct (add_char_buffer_wf b c last Hwf Hlast) as [Hwf' _].
  pose proof (add_char_buffer_eq b c last Hwf Hlast) as E. cbv zeta in E.
  fold st in Hwf', E. split; [done|]. split.
  - intros Hlt. assert (Hne : (last =? MAXLINES) = false) by (apply Z.eqb_neq; lia).
    rewrite Hne in E. rewrite E. cbn [fst snd]. split; [|done].
    rewrite lines_insert. f_equal.
    pose proof (cstr_put_char (row b last) c) as Hp. cbv zeta in Hp. rewrite Hp.
    f_equal. unfold cstr. rewrite take_take. f_equal. lia.
  - intros Heq. subst last. rewrite Z.eqb_refl in E. rewrite E. cbn [fst snd].
    split; [|destruct (c =? 10); unfold MAXLINES; lia].
    rewrite lines_insert.
    pose proof (cstr_put_char (row (scroll_buffer b) (MAXLINES - 1)) c) as Hp.
    cbv zeta in Hp. rewrite Hp, scroll_buffer_fresh by done. cbn [Nat.min take app].
    rewrite scroll_buffer_lines by done.
    assert (Hd : length (drop 1 (lines b)) = Z.to_nat (MAXLINES - 1)).
    { unfold lines. rewrite length_drop, length_fmap. destruct Hwf as [Hb _].
      unfold MAXLINES in *. lia. }
    rewrite insert_app_r_alt by lia. by rewrite Hd, Nat.sub_diag.
Qed.

Lemma add_char_buffer_lines_witness :
  let b := (on_text_plain [104; 105] sb_init).1 in
  let st := add_char_buffer b 33 0 in
  let tail := if 33 =? 0 then [] else [33] in
  wf_buffer st.1 /\
  (0 < MAXLINES ->
   lines st.1
     = <[Z.to_nat 0 := take 999 (cstr (row b 0)) ++ tail]> (lines b) /\
   st.2 = (if 33 =? 10 then 0 + 1 else 0)) /\
  (0 = MAXLINES ->
   lines st.1 = drop 1 (lines b) ++ [tail] /\
   st.2 = (if 33 =? 10 then MAXLINES else MAXLINES - 1)).
Proof.
  intros b. apply (add_char_buffer_lines b 33 0); [|done].
  apply on_text_plain_wf; [apply sb_init_wf | by vm_compute].
Defined.

Section TextMore.

Implicit Types (b : buffer_t) (text : list Z) (c last : Z) (w : log).

Lemma on_text_plain_app text1 text2 st :
  on_text_plain (text1 ++ text2) st = on_text_plain text2 (on_text_plain text1 st).
Proof. unfold on_text_plain. by rewrite fold_left_app. Qed.

(** [on_text_ansi] is [on_text_plain] on the bytes that are not bells,
    with one [beep] for each bell. *)
Lemma on_text_ansi_eq text st w :
  on_text_ansi text (st, w)
  = (on_text_plain (filter (fun c => c <> 7) text) st,
     w ++ replicate (length (filter (fun c => c = 7) text)) Beep).
Proof.
  revert st w. induction text as [|c text IH]; intros st w.
  { cbn. by rewrite app_nil_r. }
  rewrite on_text_ansi_cons, !filter_cons. unfold on_text_ansi_step.
  destruct (Z.eqb_spec c 7) as [->|Hc].
  - rewrite IH. rewrite decide_False by (intros H; by apply H).
    rewrite decide_True by done. cbn [length replicate].
    by rewrite <- app_assoc.
  - rewrite IH. rewrite decide_True by done. rewrite decide_False by done.
    done.
Qed.

End TextMore.

(** X13.  A line too long for its row.  Characters other than NUL and
    newline arriving on one line are all kept while the line has at most
    1000 characters; beyond that the line keeps its first 999 characters
    and, in the last place, the character that arrived last.  The line
    cursor does not move. *)
Theorem on_text_plain_long_line (text : list Z) (b : buffer_t) (last : Z) :
  wf_buffer b -> 0 <= last < MAXLINES ->
  Forall (fun c => c <> 0 /\ c <> 10) text ->
  let st := on_text_plain text (b, last) in
  let s := cstr (row b last) ++ text in
  st.2 = last /\
  ((length s <= 1000)%nat -> cstr (row st.1 last) = s) /\
  ((1000 < length s)%nat ->
   cstr (row st.1 last) = take 999 s ++ drop (length s - 1) s).
Proof.
  intros Hwf Hlast Htext st s.
  destruct (wf_buffer_lookup b last Hwf Hlast) as (r & Hbr & Hwr).
  assert (Hrow : row b last = r) by (apply row_lookup; [lia | done]).
  assert (Hs : s = cstr r ++ text) by (unfold s; by rewrite Hrow).
  clearbody s. subst s. set (s := cstr r ++ text).
  destruct Hwr as [Hlr Hsr]. unfold MAX_LINE_LENGTH in Hlr.
  assert (Hls : length s = (strlen r + length text)%nat).
  { unfold s. by rewrite length_app, length_cstr. }
  destruct (decide (length s <= 1000)%nat) as [Hle|Hgt].
  - destruct (on_text_plain_grow text b last Hwf Hlast Htext) as (_ & Hn & Hc).
    { rewrite Hrow. lia. }
    rewrite Hrow in Hc.
    fold st in Hn, Hc. split; [done|]. split; [done | lia].
  - set (k := (1000 - strlen r)%nat).
    assert (Hk : (k < length text)%nat) by (unfold k; lia).
    assert (Hsplit : text = take k text ++ take (length text - k - 1) (drop k text)
                             ++ drop (length text - 1) text).
    { rewrite <- (take_drop k text) at 1. f_equal.
      rewrite <- (take_drop (length text - k - 1) (drop k text)) at 1. f_equal.
      rewrite drop_drop. f_equal. lia. }
    set (t1 := take k text) in *.
    set (t2 := take (length text - k - 1) (drop k text)) in *.
    destruct (drop (length text - 1) text) as [|c [|c' t3]] eqn:Hd;
      try (apply (f_equal length) in Hd; rewrite length_drop in Hd; cbn in Hd; lia).
    assert (Hf : Forall (fun c => c <> 0 /\ c <> 10) t1 /\
                 Forall (fun c => c <> 0 /\ c <> 10) t2 /\ (c <> 0 /\ c <> 10)).
    { rewrite Hsplit in Htext. apply Forall_app in Htext as [H1 H23].
      apply Forall_app in H23 as [H2 H3]. apply Forall_inv in H3. done. }
    destruct Hf as (Hf1 & Hf2 & Hc0 & Hc10).
    assert (Hl1 : length t1 = k) by (unfold t1; rewrite length_take; lia).
    destruct (on_text_plain_grow t1 b last Hwf Hlast Hf1) as (Hwf1 & Hn1 & Hc1).
    { rewrite Hrow. lia. }
    rewrite Hrow in Hc1.
    set (st1 := on_text_plain t1 (b, last)) in *.
    assert (Hs1 : strlen (row st1.1 last) = 1000%nat).
    { rewrite <- length_cstr, Hc1, length_app, length_cstr. lia. }
    destruct (on_text_plain_boundary t2 st1.1 last Hwf1 Hlast) as (Hwf2 & Hn2 & Hs2 & Ht2).
    { lia. }
    { eapply Forall_impl; [|exact Hf2]. by intros ? [_ ?]. }
    set (st2 := on_text_plain t2 (st1.1, last)) in *.
    destruct (add_char_buffer_full st2.1 c last Hwf2 Hlast Hs2) as (_ & Hn3 & Hr3 & _).
    assert (E : st = add_char_buffer st2.1 c last).
    { unfold st. rewrite Hsplit, !on_text_plain_app. fold st1.
      replace st1 with (st1.1, last) by (rewrite <- Hn1; by destruct st1).
      fold st2. replace st2 with (st2.1, last) at 1 by (rewrite <- Hn2; by destruct st2).
      reflexivity. }
    rewrite E, Hn3, Hr3. destruct (Z.eqb_spec c 10); [done|].
    split; [done|]. split; [lia|]. intros _.
    destruct (wf_buffer_lookup st2.1 last Hwf2 Hlast) as (r2 & Hbr2 & Hlr2 & _).
    rewrite (row_lookup st2.1 last r2) in * by (lia || done).
    unfold MAX_LINE_LENGTH in Hlr2.
    rewrite (cons_middle c), app_assoc, cstr_app_nul.
    + f_equal.
      * rewrite Ht2.
        destruct (wf_buffer_lookup st1.1 last Hwf1 Hlast) as (r1 & Hbr1 & Hlr1 & _).
        rewrite (row_lookup st1.1 last r1) in * by (lia || done).
        assert (Hr1 : take 999 r1 = take 999 (cstr r1)).
        { unfold cstr. rewrite take_take. f_equal. lia. }
        rewrite Hr1, Hc1. unfold s. rewrite Hsplit, app_assoc.
        rewrite (take_app_le (cstr r ++ t1)); [done|].
        rewrite length_app, length_cstr. lia.
      * rewrite Hls. unfold s. rewrite drop_app_ge by (rewrite length_cstr; lia).
        rewrite length_cstr.
        replace (strlen r + length text - 1 - strlen r)%nat
          with (length text - 1)%nat by lia.
        by rewrite Hd.
    + apply Forall_app_2; [apply take_strlen_nonzero; lia | by repeat constructor].
Qed.

Lemma on_text_plain_long_line_witness :
  let text := replicate 1001 97 ++ [98; 99] in
  let b := sb_init.1 in
  let st := on_text_plain text (b, 0) in
  let s := cstr (row b 0) ++ text in
  st.2 = 0 /\
  ((length s <= 1000)%nat -> cstr (row st.1 0) = s) /\
  cstr (row st.1 0) = take 999 s ++ drop (length s - 1) s /\
  cstr (row st.1 0) = replicate 999 97 ++ [99].
Proof.
  intros text b.
  destruct (on_text_plain_long_line text b 0) as (H1 & H2 & H3).
  - apply sb_init_wf.
  - done.
  - apply Forall_app_2; [apply Forall_replicate|]; repeat constructor; discriminate.
  - split; [exact H1|]. split; [exact H2|]. split.
    + apply H3. vm_compute. lia.
    + by vm_compute.
Defined.

(** X14.  Bells in inbound text are rung and not stored: [on_text_ansi]
    leaves the screen buffer as the text without its bell bytes would,
    and calls [beep] once for each of them. *)
Theorem on_text_ansi_bells (text : list Z) (st : buffer_t * Z) (w : log) :
  let sw := on_text_ansi text (st, w) in
  sw.1 = on_text_plain (filter (fun c => c <> 7) text) st /\
  sw.2 = w ++ replicate (length (filter (fun c => c = 7) text)) Beep /\
  (Forall (fun c => c <> 7) text -> sw = (on_text_plain text st, w)).
Proof.
  cbv zeta. rewrite on_text_ansi_eq. cbn [fst snd]. split; [done|]. split; [done|].
  intros Hno. f_equal.
  - f_equal. clear -Hno. induction Hno as [|c text Hc _ IH]; [done|].
    rewrite filter_cons, decide_True by done. by rewrite IH.
  - replace (filter (fun c => c = 7) text) with (@nil Z).
    + cbn. apply app_nil_r.
    + clear -Hno. induction Hno as [|c text Hc _ IH]; [done|].
      rewrite filter_cons, decide_False by done. done.
Qed.

Lemma on_text_ansi_bells_witness :
  on_text_ansi [104; 105] (sb_init, []) = (on_text_plain [104; 105] sb_init, []).
Proof.
  destruct (on_text_ansi_bells [104; 105] sb_init []) as (_ & _ & H).
  apply H. repeat (apply Forall_cons; [lia|]). apply Forall_nil.
Defined.

(** ** Reading escape sequences *)

Section EscapeFacts.

Implicit Types (t : TERMINAL) (w : log) (c d i v : Z) (ds text : list Z).

Lemma sgr_calls_cons v params :
  sgr_calls (v :: params)
  = (if (v =? 0) || ((31 <=? v) && (v <=? 37)) then [Wattron (sgr_color 0 v)] else [])
    ++ sgr_calls params.
Proof.
  unfold sgr_calls. rewrite filter_cons.
  destruct (Z.eqb_spec v 0), (Z.leb_spec 31 v), (Z.leb_spec v 37); cbn [orb andb];
    (rewrite decide_True by lia) || (rewrite decide_False by lia);
    rewrite ?fmap_cons; done || lia.
Qed.

Lemma on_term_esc_body_eq i t w :
  let v := esc_get t i in
  on_term_esc_body i (t, w)
  = (if (v =? 0) || ((31 <=? v) && (v <=? 37))
     then (set_color (sgr_color (color t) v) t, w ++ [Wattron (sgr_color 0 v)])
     else (t, w)).
Proof.
  intros v. unfold on_term_esc_body, sgr_color. fold v.
  destruct (v =? 0); [done|]. cbn [orb].
  by destruct ((31 <=? v) && (v <=? 37)).
Qed.

(** The loop of [on_term_esc] from index [i] on. *)
Lemma on_term_esc_loop_color n i t w :
  0 <= i -> (Z.to_nat i + n <= length (esc_buf t))%nat ->
  let params := take n (drop (Z.to_nat i) (esc_buf t)) in
  let tw := on_term_esc_loop n i (t, w) in
  color tw.1 = fold_left sgr_color params (color t) /\
  tw.2 = w ++ sgr_calls params.
Proof.
  revert i t w. induction n as [|n IH]; intros i t w Hi Hn.
  { cbn. by rewrite app_nil_r. }
  cbv zeta. cbn [on_term_esc_loop].
  destruct (lookup_lt_is_Some_2 (esc_buf t) (Z.to_nat i)) as [v Hv]; [lia|].
  assert (Hget : esc_get t i = v).
  { unfold esc_get. destruct (Z.ltb_spec i 0); [lia|]. by rewrite Hv. }
  rewrite (drop_S _ v) by done. cbn [take fold_left].
  rewrite sgr_calls_cons.
  pose proof (on_term_esc_body_eq i t w) as Hb. cbv zeta in Hb. rewrite Hget in Hb.
  rewrite Hb. clear Hb.
  replace (S (Z.to_nat i)) with (Z.to_nat (i + 1)) by lia.
  destruct ((v =? 0) || ((31 <=? v) && (v <=? 37))) eqn:Hq.
  - destruct (IH (i + 1) (set_color (sgr_color (color t) v) t)
                (w ++ [Wattron (sgr_color 0 v)])) as [H1 H2]; [lia | cbn; lia |].
    cbn [esc_buf set_color color] in H1, H2. rewrite H1, H2.
    by rewrite <- app_assoc.
  - destruct (IH (i + 1) t w) as [H1 H2]; [lia | lia |].
    rewrite H1, H2. split; [|done]. f_equal. unfold sgr_color.
    destruct (v =? 0); [discriminate Hq|]. cbn [orb] in Hq. by rewrite Hq.
Qed.

Lemma on_term_esc_flags c t w : flags (on_term_esc c (t, w)).1 = flags t.
Proof.
  unfold on_term_esc. destruct (c =? 109); [|done]. cbn [fst].
  generalize (Z.to_nat (esc_cnt t)) 0. intros n. revert t w.
  induction n as [|n IH]; intros t w i; [done|].
  cbn [on_term_esc_loop]. unfold on_term_esc_body.
  destruct (esc_get t i =? 0); [by rewrite IH|].
  destruct ((31 <=? esc_get t i) && (esc_get t i <=? 37)); by rewrite IH.
Qed.

Lemma decimal_snoc ds d : decimal (ds ++ [d]) = decimal ds * 10 + (d - 48).
Proof. unfold decimal. by rewrite fold_left_app. Qed.

Lemma decimal_nonneg ds : Forall (fun d => 48 <= d <= 57) ds -> 0 <= decimal ds.
Proof.
  induction ds as [|d ds IH] using rev_ind; intros H; [done|].
  apply Forall_app in H as [H1 H2]. apply Forall_inv in H2.
  rewrite decimal_snoc. specialize (IH H1). lia.
Qed.

(** A digit in the parameter run, the count being [n >= 1]: it goes into
    slot [n - 1]. *)
Lemma send_text_ansi_step_digit t w d :
  state t = TERM_ESCRUN -> 48 <= d <= 57 ->
  1 <= esc_cnt t -> (Z.to_nat (esc_cnt t) <= length (esc_buf t))%nat ->
  let j := esc_cnt t - 1 in
  0 <= esc_get t j -> esc_get t j * 10 + (d - 48) < 2 ^ 31 ->
  send_text_ansi_step (t, w) d = (esc_put t j (esc_get t j * 10 + (d - 48)), w).
Proof.
  intros Hst Hd Hcnt Hlen j Hv Hbound.
  assert (Hj : 0 <= j /\ (Z.to_nat j < length (esc_buf t))%nat) by (unfold j; lia).
  assert (Ej : esc_cnt t - 1 = j) by done. clearbody j.
  unfold send_text_ansi_step. rewrite Hst.
  assert (Hdig : isdigit d = true).
  { unfold isdigit. destruct (Z.leb_spec 48 d), (Z.leb_spec d 57); lia || done. }
  rewrite Hdig. destruct (Z.eqb_spec (esc_cnt t) 0); [lia|].
  cbv zeta. rewrite Ej.
  destruct (esc_put_frame t j (int_wrap (esc_get t j * 10))) as (_ & H2 & _).
  rewrite H2, Ej.
  destruct Hj as [Hj1 Hj2].
  rewrite esc_get_put_eq by lia. rewrite esc_put_put.
  rewrite (int_wrap_small (esc_get t j * 10)) by lia.
  rewrite int_wrap_small by lia. done.
Qed.

End EscapeFacts.

Section ParamFacts.

Implicit Types (t : TERMINAL) (w : log) (c d v : Z) (ds text : list Z)
  (dss : list (list Z)).

Lemma send_text_ansi_app text1 text2 tw :
  send_text_ansi (text1 ++ text2) tw = send_text_ansi text2 (send_text_ansi text1 tw).
Proof. unfold send_text_ansi. by rewrite fold_left_app. Qed.

Lemma send_text_ansi_cons c text tw :
  send_text_ansi (c :: text) tw = send_text_ansi text (send_text_ansi_step tw c).
Proof. reflexivity. Qed.

Lemma digits_fold_ge ds a :
  Forall (fun d => 48 <= d <= 57) ds -> 0 <= a ->
  a <= fold_left (fun a d => a * 10 + (d - 48)) ds a.
Proof.
  intros Hds. revert a. induction Hds as [|d ds Hd _ IH]; intros a Ha; [done|].
  cbn [fold_left]. specialize (IH (a * 10 + (d - 48))). lia.
Qed.

(** Digits going on into slot [j] of a parameter run that has a count. *)
Lemma digits_run ds t w :
  state t = TERM_ESCRUN -> 1 <= esc_cnt t ->
  (Z.to_nat (esc_cnt t) <= length (esc_buf t))%nat ->
  Forall (fun d => 48 <= d <= 57) ds ->
  let j := esc_cnt t - 1 in
  let v := fold_left (fun a d => a * 10 + (d - 48)) ds (esc_get t j) in
  0 <= esc_get t j -> v < 2 ^ 31 ->
  let tw := send_text_ansi ds (t, w) in
  state tw.1 = TERM_ESCRUN /\ esc_cnt tw.1 = esc_cnt t /\
  esc_buf tw.1 = <[Z.to_nat j := v]> (esc_buf t) /\
  color tw.1 = color t /\ flags tw.1 = flags t /\ tw.2 = w.
Proof.
  intros Hst Hcnt Hlen Hds. revert t Hst Hcnt Hlen.
  induction Hds as [|d ds Hd Hds IH]; intros t Hst Hcnt Hlen j v H0 Hv.
  { cbn. repeat split; try done. symmetry. apply list_insert_id.
    unfold v, esc_get. cbn [fold_left].
    destruct (Z.ltb_spec j 0); [unfold j in *; lia|].
    destruct (lookup_lt_is_Some_2 (esc_buf t) (Z.to_nat j)) as [x Hx];
      [unfold j; lia|]. by rewrite Hx. }
  cbv zeta. rewrite send_text_ansi_cons.
  assert (Hv1 : esc_get t j * 10 + (d - 48) < 2 ^ 31).
  { pose proof (digits_fold_ge ds (esc_get t j * 10 + (d - 48)) Hds).
    unfold v in Hv. cbn [fold_left] in Hv. lia. }
  rewrite send_text_ansi_step_digit by done. fold j.
  set (t1 := esc_put t j (esc_get t j * 10 + (d - 48))).
  destruct (esc_put_frame t j (esc_get t j * 10 + (d - 48))) as (F1 & F2 & F3 & F4).
  fold t1 in F1, F2, F3, F4.
  assert (Hg : esc_get t1 j = esc_get t j * 10 + (d - 48)).
  { apply esc_get_put_eq; unfold j; lia. }
  destruct (IH t1) as (A & B & C & D & E & F).
  - congruence.
  - lia.
  - rewrite F2, F4. done.
  - rewrite F2. fold j. rewrite Hg. lia.
  - rewrite F2. fold j. rewrite Hg. exact Hv.
  - rewrite F2 in *. fold j in C. rewrite Hg in C.
    split; [done|]. split; [done|]. split; [|split; [congruence|split; [|done]]].
    + rewrite C. unfold t1, esc_put. destruct (Z.ltb_spec j 0); [unfold j in *; lia|].
      cbn [esc_buf set_esc_buf]. by rewrite list_insert_insert_eq.
    + rewrite E. unfold t1, esc_put. by destruct (j <? 0).
Qed.

(** The first digit of the first parameter gives the run its count. *)
Lemma send_text_ansi_step_first_digit t w d :
  state t = TERM_ESCRUN -> 48 <= d <= 57 -> esc_cnt t = 0 ->
  send_text_ansi_step (t, w) d = send_text_ansi_step (set_esc_cnt 1 t, w) d.
Proof.
  intros Hst Hd Hcnt. unfold send_text_ansi_step.
  cbn [state set_esc_cnt esc_cnt]. rewrite Hst, Hcnt.
  assert (Hdig : isdigit d = true).
  { unfold isdigit. destruct (Z.leb_spec 48 d), (Z.leb_spec d 57); lia || done. }
  rewrite Hdig. reflexivity.
Qed.

(** A parameter written into a zeroed slot [k], the count being [k + 1]
    already, or 0 for the first parameter. *)
Lemma param_run ds t w (k : nat) :
  state t = TERM_ESCRUN ->
  (esc_cnt t = Z.of_nat k + 1 \/ (k = 0%nat /\ esc_cnt t = 0)) ->
  (k < length (esc_buf t))%nat -> esc_buf t !! k = Some 0 ->
  param_digits ds ->
  let tw := send_text_ansi ds (t, w) in
  state tw.1 = TERM_ESCRUN /\ esc_cnt tw.1 = Z.of_nat k + 1 /\
  esc_buf tw.1 = <[k := decimal ds]> (esc_buf t) /\
  color tw.1 = color t /\ flags tw.1 = flags t /\ tw.2 = w.
Proof.
  intros Hst Hcnt Hk H0 (Hne & Hds & Hbound).
  set (t1 := set_esc_cnt (Z.of_nat k + 1) t).
  assert (E : send_text_ansi ds (t, w) = send_text_ansi ds (t1, w)).
  { destruct Hcnt as [Hc|[-> Hc]].
    - unfold t1. rewrite <- Hc. by destruct t.
    - destruct ds as [|d ds]; [done|]. rewrite !send_text_ansi_cons.
      apply Forall_inv in Hds. by rewrite send_text_ansi_step_first_digit. }
  cbv zeta. rewrite E.
  assert (Hg : esc_get t1 (Z.of_nat k) = 0).
  { unfold esc_get. destruct (Z.ltb_spec (Z.of_nat k) 0); [lia|].
    cbn [t1 set_esc_cnt esc_buf]. by rewrite Nat2Z.id, H0. }
  pose proof (digits_run ds t1 w) as R. cbv zeta in R.
  cbn [t1 set_esc_cnt state esc_cnt esc_buf color flags] in R. fold t1 in R.
  replace (Z.of_nat k + 1 - 1) with (Z.of_nat k) in R by lia.
  rewrite Hg, Nat2Z.id in R.
  apply R; try done; try lia.
Qed.

(** The parameters of an escape sequence, read from the plain state: they
    are in [esc_buf], in order, and counted. *)
Lemma params_run dss t w :
  state t = TERM_ASCII -> length (esc_buf t) = Z.to_nat TERM_MAX_ESC ->
  dss <> [] -> (length dss <= 16)%nat -> Forall param_digits dss ->
  let tw := send_text_ansi (27 :: 91 :: params_text dss) (t, w) in
  in_run t tw.1 (decimal <$> dss) /\ tw.2 = w.
Proof.
  intros Hst Hlen. unfold TERM_MAX_ESC in Hlen.
  induction dss as [|ds dss IH] using rev_ind; intros Hne Hl Hall; [done|].
  apply Forall_app in Hall as [Hall Hds]. apply Forall_inv in Hds.
  rewrite length_app in Hl. cbn [length] in Hl.
  destruct dss as [|ds0 dss0].
  - cbn [app params_text]. cbv zeta.
    set (t1 := esc_put (set_esc_cnt 0 (set_state TERM_ESCRUN (set_state TERM_ESC t))) 0 0).
    assert (E0 : send_text_ansi [27; 91] (t, w) = (t1, w)).
    { unfold send_text_ansi. cbn [fold_left].
      unfold send_text_ansi_step at 2. rewrite Hst. change (27 =? 27) with true.
      cbv iota. unfold send_text_ansi_step. cbn [state set_state].
      change (91 =? 91) with true. reflexivity. }
    change (27 :: 91 :: ds) with ([27; 91] ++ ds).
    rewrite send_text_ansi_app, E0.
    assert (Hb1 : esc_buf t1 = <[0%nat := 0]> (esc_buf t)) by done.
    assert (P1 : state t1 = TERM_ESCRUN) by done.
    assert (P2 : esc_cnt t1 = Z.of_nat 0 + 1 \/ (0%nat = 0%nat /\ esc_cnt t1 = 0))
      by (by right).
    assert (P3 : (0 < length (esc_buf t1))%nat) by (rewrite Hb1, length_insert; lia).
    assert (P4 : esc_buf t1 !! 0%nat = Some 0).
    { rewrite Hb1. apply list_lookup_insert_eq. lia. }
    destruct (param_run ds t1 w 0 P1 P2 P3 P4 Hds) as (A & B & C & D & E & F).
    split; [|done]. unfold in_run. cbn [fmap list_fmap length].
    rewrite A, B, C, D, E, Hb1, !length_insert, list_insert_insert_eq.
    split; [done|]. split; [done|]. split; [done|]. split; [|done].
    destruct (esc_buf t); [discriminate Hlen|]. done.
  - assert (Hne0 : ds0 :: dss0 <> []) by done.
    destruct (IH Hne0) as [(A & B & C & D & E & F) G]; [lia | done |].
    set (dss := ds0 :: dss0) in *.
    assert (Hp : params_text (dss ++ [ds]) = params_text dss ++ 59 :: ds).
    { clear. unfold dss. generalize ds0. induction dss0 as [|a l IHl]; intros b; [done|].
      cbn [app params_text] in *. rewrite IHl. by rewrite <- app_assoc. }
    cbv zeta. rewrite Hp, !app_comm_cons, send_text_ansi_app.
    destruct (send_text_ansi (27 :: 91 :: params_text dss) (t, w)) as [t1 w1].
    cbn [fst snd] in *. subst w1. rewrite send_text_ansi_cons.
    rewrite length_fmap in B, D. set (k := length dss) in *.
    assert (Hsemi : send_text_ansi_step (t1, w) 59
                    = (esc_put (set_esc_cnt (Z.of_nat k + 1) t1) (Z.of_nat k) 0, w)).
    { unfold send_text_ansi_step. rewrite A. change (isdigit 59) with false.
      change (59 =? 59) with true. cbv iota. rewrite B.
      destruct (Z.ltb_spec (Z.of_nat k) TERM_MAX_ESC); [|unfold TERM_MAX_ESC in *; lia].
      cbv zeta. cbn [esc_cnt set_esc_cnt]. rewrite size_wrap_small by lia.
      do 2 f_equal. lia. }
    rewrite Hsemi. set (t2 := esc_put _ (Z.of_nat k) 0).
    assert (Hb2 : esc_buf t2 = <[k := 0]> (esc_buf t1)).
    { unfold t2, esc_put. destruct (Z.ltb_spec (Z.of_nat k) 0); [lia|].
      cbn. by rewrite Nat2Z.id. }
    assert (P1 : state t2 = TERM_ESCRUN).
    { unfold t2, esc_put. by destruct (Z.of_nat k <? 0). }
    assert (P2 : esc_cnt t2 = Z.of_nat k + 1 \/ (k = 0%nat /\ esc_cnt t2 = 0)).
    { left. unfold t2, esc_put. by destruct (Z.of_nat k <? 0). }
    assert (P3 : (k < length (esc_buf t2))%nat) by (rewrite Hb2, length_insert; lia).
    assert (P4 : esc_buf t2 !! k = Some 0).
    { rewrite Hb2. apply list_lookup_insert_eq. lia. }
    destruct (param_run ds t2 w k P1 P2 P3 P4 Hds) as (A' & B' & C' & D' & E' & F').
    split; [|done]. unfold in_run. rewrite fmap_app, length_app, length_fmap.
    cbn [fmap list_fmap length]. fold k.
    assert (Hc2 : color t2 = color t1) by (unfold t2, esc_put; by destruct (Z.of_nat k <? 0)).
    assert (Hf2 : flags t2 = flags t1) by (unfold t2, esc_put; by destruct (Z.of_nat k <? 0)).
    rewrite A', B', C', D', E', Hb2, !length_insert, Hc2, Hf2.
    split; [done|]. split; [lia|]. split; [done|]. split; [|done].
    rewrite list_insert_insert_eq, insert_split by lia.
    rewrite take_app_add' by (rewrite length_take; lia).
    rewrite D. cbn [take]. by rewrite take_0.
Qed.

End ParamFacts.

(** [on_term_esc] on the parameters counted. *)
Lemma on_term_esc_sgr (cmd : Z) (t : TERMINAL) (w : log) :
  0 <= esc_cnt t -> (Z.to_nat (esc_cnt t) <= length (esc_buf t))%nat ->
  let params := take (Z.to_nat (esc_cnt t)) (esc_buf t) in
  let tw := on_term_esc cmd (t, w) in
  (state tw.1 = state t /\ esc_buf tw.1 = esc_buf t /\ esc_cnt tw.1 = esc_cnt t) /\
  (cmd = 109 ->
   color tw.1 = fold_left sgr_color params (color t) /\
   tw.2 = w ++ sgr_calls params) /\
  (cmd <> 109 -> tw = (t, w)).
Proof.
  intros Hcnt Hlen params tw. split; [apply on_term_esc_frame|]. split.
  - intros ->. unfold tw, on_term_esc. change (109 =? 109) with true. cbv iota.
    cbn [fst]. pose proof (on_term_esc_loop_color (Z.to_nat (esc_cnt t)) 0 t w) as H.
    cbv zeta in H. change (Z.to_nat 0) with 0%nat in H. rewrite drop_0 in H.
    apply H; lia.
  - intros Hne. unfold tw, on_term_esc. by destruct (Z.eqb_spec cmd 109).
Qed.

(** X15.  [on_term_esc] applies the parameters counted by [esc_cnt] in
    order: a 0 sets the default colour, 31 to 37 set colour 1 to 7,
    anything else is passed over, so that the last parameter of these
    kinds decides the colour; each parameter applied costs one call of
    [wattron].  A command other than [m] changes nothing.  State,
    parameters and count are left alone. *)
Theorem on_term_esc_applies_params (cmd : Z) (t : TERMINAL) (w : log) :
  0 <= esc_cnt t -> (Z.to_nat (esc_cnt t) <= length (esc_buf t))%nat ->
  let params := take (Z.to_nat (esc_cnt t)) (esc_buf t) in
  let tw := on_term_esc cmd (t, w) in
  (state tw.1 = state t /\ esc_buf tw.1 = esc_buf t /\ esc_cnt tw.1 = esc_cnt t) /\
  (cmd = 109 ->
   color tw.1 = fold_left sgr_color params (color t) /\
   tw.2 = w ++ sgr_calls params) /\
  (cmd <> 109 -> tw = (t, w)).
Proof. exact (on_term_esc_sgr cmd t w). Qed.

Lemma on_term_esc_applies_params_witness :
  let t := (send_text_ansi [27; 91; 49; 59; 51; 51; 59; 57; 57] (terminal0, [])).1 in
  let params := take (Z.to_nat (esc_cnt t)) (esc_buf t) in
  let tw := on_term_esc 109 (t, []) in
  params = [1; 33; 99] /\
  (state tw.1 = state t /\ esc_buf tw.1 = esc_buf t /\ esc_cnt tw.1 = esc_cnt t) /\
  (color tw.1 = fold_left sgr_color params (color t) /\
   tw.2 = [] ++ sgr_calls params) /\
  color tw.1 = 3.
Proof.
  intros t params tw. split; [reflexivity|].
  destruct (on_term_esc_applies_params 109 t []) as (H1 & H2 & _).
  - by vm_compute.
  - vm_compute. lia.
  - split; [exact H1|]. split; [exact (H2 eq_refl) | reflexivity].
Defined.

(** X16.  A whole escape sequence read from the plain state: ESC [, one
    to sixteen numbers with semicolons between them, and a command byte
    that is neither a digit nor a semicolon.  The machine is back in the
    plain state; for the command [m] the colour is the one the numbers
    give when applied in order, with the calls of [wattron] that go with
    it, and for any other command colour and window are untouched. *)
Theorem send_text_ansi_sequence
    (dss : list (list Z)) (cmd : Z) (t : TERMINAL) (w : log) :
  state t = TERM_ASCII -> length (esc_buf t) = Z.to_nat TERM_MAX_ESC ->
  dss <> [] -> (length dss <= 16)%nat -> Forall param_digits dss ->
  isdigit cmd = false -> cmd <> 59 ->
  let tw := send_text_ansi (27 :: 91 :: params_text dss ++ [cmd]) (t, w) in
  let params := decimal <$> dss in
  state tw.1 = TERM_ASCII /\ flags tw.1 = flags t /\
  (cmd = 109 ->
   color tw.1 = fold_left sgr_color params (color t) /\
   tw.2 = w ++ sgr_calls params) /\
  (cmd <> 109 -> color tw.1 = color t /\ tw.2 = w).
Proof.
  intros Hst Hlen Hne Hl Hall Hdig Hsemi tw params.
  destruct (params_run dss t w Hst Hlen Hne Hl Hall) as [(A & B & C & D & E & F) G].
  unfold tw. rewrite !app_comm_cons, send_text_ansi_app.
  destruct (send_text_ansi (27 :: 91 :: params_text dss) (t, w)) as [t1 w1].
  cbn [fst snd] in *. subst w1. fold params in B, D.
  assert (Hstep : send_text_ansi [cmd] (t1, w)
                  = (set_state TERM_ASCII (on_term_esc cmd (t1, w)).1,
                     (on_term_esc cmd (t1, w)).2)).
  { unfold send_text_ansi. cbn [fold_left]. unfold send_text_ansi_step.
    rewrite A, Hdig. destruct (Z.eqb_spec cmd 59); [done|].
    by destruct (on_term_esc cmd (t1, w)). }
  rewrite Hstep. cbn [fst snd state flags color set_state].
  destruct (on_term_esc_sgr cmd t1 w) as ((P1 & P2 & P3) & Pm & Po).
  { lia. }
  { rewrite B, Nat2Z.id, C, Hlen. unfold params. rewrite length_fmap.
    unfold TERM_MAX_ESC. lia. }
  rewrite B, Nat2Z.id, D in Pm.
  split; [done|]. split.
  - by rewrite on_term_esc_flags.
  - split.
    + intros Hm. destruct (Pm Hm) as [Q1 Q2]. rewrite Q1, Q2, E. done.
    + intros Hm. rewrite (Po Hm). done.
Qed.

Lemma send_text_ansi_sequence_witness :
  let dss := [[49]; [51; 51]] in
  let tw := send_text_ansi (27 :: 91 :: params_text dss ++ [109]) (terminal0, []) in
  let params := decimal <$> dss in
  state tw.1 = TERM_ASCII /\ flags tw.1 = flags terminal0 /\
  (color tw.1 = fold_left sgr_color params (color terminal0) /\
   tw.2 = [] ++ sgr_calls params) /\
  color tw.1 = 3.
Proof.
  intros dss tw params.
  assert (Hp : forall ds, ds <> [] -> Forall (fun d => 48 <= d <= 57) ds ->
            (decimal ds ?= 2 ^ 31) = Lt -> param_digits ds).
  { intros ds ? ? ?. by repeat split. }
  destruct (send_text_ansi_sequence dss 109 terminal0 []) as (H1 & H2 & H3 & _).
  - reflexivity.
  - reflexivity.
  - discriminate.
  - cbn. lia.
  - apply Forall_cons; [|apply Forall_cons; [|apply Forall_nil]];
      (apply Hp;
       [discriminate
       | repeat (apply Forall_cons; [lia|]); apply Forall_nil
       | reflexivity]).
  - reflexivity.
  - discriminate.
  - split; [exact H1|]. split; [exact H2|]. split; [exact (H3 eq_refl) | reflexivity].
Defined.

(** X17.  Text without an escape byte, rendered from the plain state:
    every byte but the carriage returns is written to the window with
    [waddch], in order, and the terminal is as before.  What [waddch]
    receives is the [char] converted to [chtype]: a byte of 0 to 127 as
    it is, a negative [char] [c] as [2 ^ 32 + c]. *)
Theorem send_text_ansi_writes_plain (text : list Z) (t : TERMINAL) (w : log) :
  state t = TERM_ASCII -> Forall (fun c => c <> 27) text ->
  Forall (fun c => -128 <= c < 128) text ->
  send_text_ansi text (t, w)
  = (t, w ++ ((fun c => Waddch (if c <? 0 then 2 ^ 32 + c else c))
                <$> filter (fun c => c <> 13) text)).
Proof.
  intros Ht Hesc Hchar. rewrite send_text_ansi_plain by done. do 2 f_equal.
  clear Ht Hesc. induction Hchar as [|c text Hc _ IH]; [done|].
  rewrite filter_cons. destruct (decide (c <> 13)); [|exact IH].
  rewrite !fmap_cons, IH. do 2 f_equal. unfold chtype_of_char.
  destruct (Z.ltb_spec c 0).
  - rewrite <- (Z.mod_small (2 ^ 32 + c) (2 ^ 32)) by lia.
    rewrite <- (Z_mod_plus_full c 1 (2 ^ 32)). f_equal. lia.
  - apply Z.mod_small. lia.
Qed.

Lemma send_text_ansi_writes_plain_witness :
  send_text_ansi [111; -23; 13; 10; 7] (terminal0, [])
  = (terminal0, [Waddch 111; Waddch 4294967273; Waddch 10; Waddch 7]).
Proof.
  apply (send_text_ansi_writes_plain [111; -23; 13; 10; 7] terminal0 []).
  - reflexivity.
  - repeat constructor; discriminate.
  - repeat constructor; (lia || discriminate).
Defined.

(** ** More on sending and printing *)

Section SendPrintMore.

Implicit Types (env : list send_result) (ns : list Z) (len sent : Z)
  (b : buffer_t) (tw : TERMINAL * log).

(** Writes accepted in parts carry the loop on to what is left. *)
Lemma do_send_prefix ns env len sent :
  Forall (fun n => 0 < n) ns -> foldr Z.add 0 ns <= len ->
  len < 2 ^ 31 -> 0 <= sent -> sent + len < 2 ^ 64 ->
  do_send (((fun n => mkSend n 0) <$> ns) ++ env) len sent
  = do_send env (len - foldr Z.add 0 ns) (sent + foldr Z.add 0 ns).
Proof.
  intros Hns. revert len sent.
  induction Hns as [|n ns Hn Hns IH]; intros len sent Hsum Hlen Hs Hsl.
  { cbn. by rewrite Z.sub_0_r, Z.add_0_r. }
  cbn [foldr] in *. rewrite fmap_cons. cbn [app].
  assert (H0 : 0 <= foldr Z.add 0 ns).
  { clear -Hns. induction Hns as [|m ns Hm _ IH]; cbn; lia. }
  rewrite do_send_partial by lia. rewrite IH by lia. f_equal; lia.
Qed.

(** The loop of [print_buffer] over rows of the buffer renders their
    strings one after the other. *)
Lemma print_loop_eq n y b tw :
  0 <= y -> (Z.to_nat y + n <= length b)%nat ->
  print_loop n y b tw
  = Some (send_text_ansi (concat (take n (drop (Z.to_nat y) (lines b)))) tw).
Proof.
  revert y tw. induction n as [|n IH]; intros y tw Hy Hn; [done|].
  cbn [print_loop]. destruct (Z.ltb_spec y 0); [lia|].
  destruct (lookup_lt_is_Some_2 b (Z.to_nat y)) as [r Hr]; [lia|].
  rewrite Hr, IH by lia.
  rewrite (drop_S (lines b) (cstr r) (Z.to_nat y)).
  - cbn [take concat]. rewrite send_text_ansi_app.
    by replace (Z.to_nat (y + 1)) with (S (Z.to_nat y)) by lia.
  - unfold lines. by rewrite list_lookup_fmap, Hr.
Qed.

(** [print_buffer] on rows of the buffer, first row not after the last. *)
Lemma print_buffer_eq b startline endline tw u :
  length b = Z.to_nat MAXLINES -> 0 <= startline <= endline ->
  endline < MAXLINES ->
  print_buffer b startline endline tw u
  = Some (0,
          send_text_ansi
            (concat (take (Z.to_nat (endline - startline + 1))
                       (drop (Z.to_nat startline) (lines b))))
            (tw.1, tw.2 ++ [Wclear_main]),
          0).
Proof.
  intros Hb Hse He. unfold print_buffer, MAXLINES in *.
  destruct (Z.ltb_spec startline 0); [lia|].
  destruct (Z.gtb_spec startline endline); [lia|].
  destruct (Z.gtb_spec endline 100); [lia|].
  by rewrite print_loop_eq by lia.
Qed.

End SendPrintMore.

(** X18.  [do_send] against a socket that takes the bytes in parts: when
    the parts make up the whole, the loop ends with all of them counted
    in [sent_bytes]; when they stop short, a failing [send] ends the
    program with failure whatever its [errno], a [send] returning 0 ends
    it as a disconnect, and without another answer the loop is still
    waiting with the rest. *)
Theorem do_send_parts (ns : list Z) (env : list send_result)
    (len sent errno : Z) :
  Forall (fun n => 0 < n) ns -> foldr Z.add 0 ns <= len ->
  len < 2 ^ 31 -> 0 <= sent -> sent + len < 2 ^ 64 ->
  let parts := (fun n => mkSend n 0) <$> ns in
  let s := foldr Z.add 0 ns in
  (s = len -> do_send (parts ++ env) len sent = Sent (sent + len)) /\
  (s < len ->
   do_send (parts ++ mkSend (-1) errno :: env) len sent = ExitFailure errno /\
   do_send (parts ++ mkSend 0 errno :: env) len sent = ExitDisconnected /\
   do_send (parts ++ []) len sent = Pending (len - s) (sent + s)).
Proof.
  intros Hns Hsum Hlen Hs Hsl parts s. split.
  - intros Heq. unfold parts. rewrite do_send_prefix by done. fold s.
    rewrite Heq, Z.sub_diag. apply do_send_done.
  - intros Hlt. unfold parts. rewrite !do_send_prefix by done. fold s.
    split; [apply do_send_error_fatal; lia|].
    split; [apply do_send_zero_disconnects; lia|].
    cbn [do_send]. destruct (Z.gtb_spec (len - s) 0); [done | lia].
Qed.

Lemma do_send_parts_witness :
  let parts := (fun n => mkSend n 0) <$> [2; 1] in
  do_send (parts ++ [mkSend 7 0]) 3 10 = Sent (10 + 3) /\
  do_send (parts ++ mkSend (-1) EINTR :: [mkSend 2 0]) 5 10 = ExitFailure EINTR /\
  do_send (parts ++ mkSend 0 EINTR :: [mkSend 2 0]) 5 10 = ExitDisconnected /\
  do_send (parts ++ []) 5 10 = Pending (5 - 3) (10 + 3).
Proof.
  intros parts.
  destruct (do_send_parts [2; 1] [mkSend 7 0] 3 10 0) as [H1 _];
    [repeat constructor; lia | cbn; lia | lia | lia | lia |].
  destruct (do_send_parts [2; 1] [mkSend 2 0] 5 10 EINTR) as [_ H2];
    [repeat constructor; lia | cbn; lia | lia | lia | lia |].
  split; [exact (H1 eq_refl) | apply H2; cbn; lia].
Defined.

(** X19.  [print_buffer] with [endline] on a row of the buffer clears the
    window and renders the lines from [startline], or from line 0 if
    that is negative, to [endline] as one text, the terminal state going
    from each line into the next; it returns 0 and resets
    [updowntoggle].  With [startline] beyond [endline] it clears the
    window, renders nothing and returns 1. *)
Theorem print_buffer_renders (b : buffer_t) (startline endline : Z)
    (tw : TERMINAL * log) (updowntoggle : Z) :
  length b = Z.to_nat MAXLINES -> endline < MAXLINES ->
  let s := Z.max 0 startline in
  let cleared := (tw.1, tw.2 ++ [Wclear_main]) in
  (s <= endline ->
   print_buffer b startline endline tw updowntoggle
   = Some (0,
           send_text_ansi
             (concat (take (Z.to_nat (endline - s + 1))
                        (drop (Z.to_nat s) (lines b)))) cleared,
           0)) /\
  (endline < s ->
   print_buffer b startline endline tw updowntoggle
   = Some (1, cleared, updowntoggle)).
Proof.
  intros Hb He s cleared. unfold print_buffer, MAXLINES in *.
  assert (Hs : (if startline <? 0 then 0 else startline) = s).
  { unfold s. destruct (Z.ltb_spec startline 0); lia. }
  rewrite Hs. fold cleared.
  assert (Hs0 : 0 <= s) by (unfold s; lia). clearbody s.
  destruct (Z.gtb_spec endline 100); [lia|].
  split; intros Hse; destruct (Z.gtb_spec s endline); try lia; [|done].
  by rewrite print_loop_eq by lia.
Qed.

Lemma print_buffer_renders_witness :
  let b := (on_text_plain [104; 105; 10; 33; 10] sb_init).1 in
  let s := Z.max 0 (-2) in
  let cleared := (terminal0, [Wclear_main]) in
  (print_buffer b (-2) 1 (terminal0, []) 7
   = Some (0,
           send_text_ansi
             (concat (take (Z.to_nat (1 - s + 1))
                        (drop (Z.to_nat s) (lines b)))) cleared,
           0)) /\
  (1 < s -> print_buffer b (-2) 1 (terminal0, []) 7 = Some (1, cleared, 7)).
Proof.
  intros b s cleared.
  destruct (print_buffer_renders b (-2) 1 (terminal0, []) 7) as [H1 H2].
  - destruct (on_text_plain_wf [104; 105; 10; 33; 10] sb_init) as [[Hl _] _];
      [apply sb_init_wf | by vm_compute | exact Hl].
  - done.
  - split; [apply H1; by vm_compute | exact H2].
Defined.

(** X20.  Flushing the output.  While the view follows the text
    ([updowntoggle] 0) and the screen has at most [MAXLINES + 2] lines,
    the scroll position chosen is within the buffer and [print_buffer]
    reads rows of the buffer only.  After scrolling by hand, with the
    scroll position anywhere in [0, MAXLINES], it reads past the last row exactly when the window reaches
    down to row [MAXLINES].  The screen has at least three lines. *)
Theorem flush_output_reads (b : buffer_t) (lastline LINES windowpos : Z)
    (tw : TERMINAL * log) (updowntoggle : Z) :
  length b = Z.to_nat MAXLINES -> 0 <= lastline <= MAXLINES ->
  0 <= windowpos <= MAXLINES -> 3 <= LINES ->
  let r := flush_output b lastline LINES windowpos tw updowntoggle in
  (updowntoggle = 0 -> LINES <= MAXLINES + 2 ->
   0 <= r.1 <= MAXLINES /\ is_Some r.2) /\
  (updowntoggle <> 0 ->
   r.1 = windowpos /\ (r.2 = None <-> MAXLINES <= windowpos + LINES - 3)).
Proof.
  intros Hb Hlast Hwp HL3 r. unfold r, flush_output, follow_windowpos.
  cbn [fst snd]. split.
  - intros -> HL. change (0 =? 0) with true. cbv iota zeta.
    destruct (Z.ltb_spec (lastline - LINES + 2) 0).
    + split; [unfold MAXLINES; lia|]. apply print_buffer_safe; [done | lia].
    + split; [lia|]. apply print_buffer_safe; [done | lia].
  - intros Hu. destruct (Z.eqb_spec updowntoggle 0); [done|].
    split; [done|]. split.
    + intros Hnone. destruct (Z.ltb_spec (windowpos + LINES - 3) MAXLINES); [|lia].
      destruct (print_buffer_safe b windowpos (windowpos + LINES - 3) tw updowntoggle)
        as [x Hx]; [done | lia |]. congruence.
    + intros Hge. apply print_buffer_overrun; [done | lia].
Qed.

Lemma flush_output_reads_witness :
  let b := sb_init.1 in
  let r0 := flush_output b 100 24 0 (terminal0, []) 0 in
  let r1 := flush_output b 100 24 90 (terminal0, []) 1 in
  (0 <= r0.1 <= MAXLINES /\ is_Some r0.2) /\
  (r1.1 = 90 /\ (r1.2 = None <-> MAXLINES <= 90 + 24 - 3)) /\
  r0.1 = 78 /\ r1.2 = None.
Proof.
  intros b r0 r1.
  destruct (flush_output_reads b 100 24 0 (terminal0, []) 0) as [H0 _];
    [reflexivity | done | done | done |].
  destruct (flush_output_reads b 100 24 90 (terminal0, []) 1) as [_ H1];
    [reflexivity | done | done | done |].
  split; [apply H0; [reflexivity | by vm_compute]|].
  split; [apply H1; discriminate|].
  split; [reflexivity|]. apply H1; [discriminate | by vm_compute].
Defined.

(** ** Telnet events *)

Section EventFacts.

Implicit Types (f v : Z) (t : TERMINAL) (b : buffer_t) (text : list Z).

(** A property of every [char] can be checked value by value. *)
Lemma char_cases (P : Z -> bool) :
  forallb P ((fun k => Z.of_nat k - 128) <$> seq 0 256) = true ->
  forall f, -128 <= f < 128 -> P f = true.
Proof.
  intros HP f Hf. rewrite forallb_forall in HP. apply HP.
  apply in_map_iff. exists (Z.to_nat (f + 128)). split; [lia|].
  apply in_seq. lia.
Qed.

Lemma char_of_int_range v : -128 <= char_of_int v < 128.
Proof. unfold char_of_int. pose proof (Z.mod_pos_bound (v + 128) 256). lia. Qed.

(** Clearing or setting one of the two flags of a [char] gives a [char]
    again: the store into [terminal.flags] loses nothing. *)
Lemma flags_clear_echo f :
  -128 <= f < 128 ->
  char_of_int (Z.land f (Z.lnot TERM_FLAG_ECHO)) = Z.land f (Z.lnot TERM_FLAG_ECHO).
Proof.
  intros Hf. apply Z.eqb_eq.
  apply (char_cases
           (fun f => char_of_int (Z.land f (Z.lnot TERM_FLAG_ECHO))
                     =? Z.land f (Z.lnot TERM_FLAG_ECHO))); [by vm_compute | done].
Qed.

Lemma flags_set_echo f :
  -128 <= f < 128 ->
  char_of_int (Z.lor f TERM_FLAG_ECHO) = Z.lor f TERM_FLAG_ECHO.
Proof.
  intros Hf. apply Z.eqb_eq.
  apply (char_cases
           (fun f => char_of_int (Z.lor f TERM_FLAG_ECHO) =? Z.lor f TERM_FLAG_ECHO));
    [by vm_compute | done].
Qed.

Lemma flags_set_naws f :
  -128 <= f < 128 ->
  char_of_int (Z.lor f TERM_FLAG_NAWS) = Z.lor f TERM_FLAG_NAWS.
Proof.
  intros Hf. apply Z.eqb_eq.
  apply (char_cases
           (fun f => char_of_int (Z.lor f TERM_FLAG_NAWS) =? Z.lor f TERM_FLAG_NAWS));
    [by vm_compute | done].
Qed.

Lemma testbit_flag_echo i : 0 <= i -> Z.testbit TERM_FLAG_ECHO i = (i =? 0).
Proof.
  intros Hi. change TERM_FLAG_ECHO with (2 ^ 0).
  rewrite Z.pow2_bits_eqb by lia. by rewrite Z.eqb_sym.
Qed.

Lemma testbit_flag_naws i : 0 <= i -> Z.testbit TERM_FLAG_NAWS i = (i =? 2).
Proof.
  intros Hi. change TERM_FLAG_NAWS with (2 ^ 2).
  rewrite Z.pow2_bits_eqb by lia. by rewrite Z.eqb_sym.
Qed.

(** The test [flags & TERM_FLAG_NAWS] reads bit 2. *)
Lemma land_flag_naws f :
  (Z.land f TERM_FLAG_NAWS =? 0) = negb (Z.testbit f 2).
Proof.
  destruct (Z.testbit f 2) eqn:E; cbn [negb].
  - apply Z.eqb_neq. intros H0.
    assert (Hb : Z.testbit (Z.land f TERM_FLAG_NAWS) 2 = true).
    { by rewrite Z.land_spec, E, testbit_flag_naws. }
    rewrite H0, Z.bits_0 in Hb. discriminate.
  - apply Z.eqb_eq. apply Z.bits_inj'. intros i Hi.
    rewrite Z.land_spec, Z.bits_0, testbit_flag_naws by done.
    destruct (Z.eqb_spec i 2) as [->|]; [by rewrite E | apply andb_false_r].
Qed.

(** The two bytes of a 16-bit number, high byte first, give it back. *)
Lemma htons_bytes_eq v :
  0 <= v < 65536 ->
  exists hi lo, htons_bytes v = [hi; lo] /\
    0 <= hi < 256 /\ 0 <= lo < 256 /\ 256 * hi + lo = v.
Proof.
  intros Hv. exists (v / 256), (v mod 256). unfold htons_bytes.
  rewrite (Z.mod_small v 65536) by lia.
  split; [reflexivity|].
  pose proof (Z.mod_pos_bound v 256). pose proof (Z.div_mod v 256).
  assert (0 <= v / 256 < 256).
  { split; [apply Z.div_pos; lia | apply Z.div_lt_upper_bound; lia]. }
  lia.
Qed.

(** Text without a newline leaves the other rows alone. *)
Lemma on_text_plain_frame text b last :
  wf_buffer b -> 0 <= last < MAXLINES ->
  Forall (fun c => c <> 10) text ->
  let st := on_text_plain text (b, last) in
  forall y, y <> last -> row st.1 y = row b y.
Proof.
  intros Hwf Hlast Htext. revert b Hwf.
  induction Htext as [|c text Hc _ IH]; intros b Hwf; [done|].
  intros st y Hy. unfold st, on_text_plain. cbn [fold_left fst snd].
  destruct (add_char_buffer_row b c last Hwf Hlast) as (Hwf' & Hn & _ & Hfr).
  destruct (Z.eqb_spec c 10); [done|].
  destruct (add_char_buffer b c last) as [b' n'] eqn:E. cbn [fst snd] in *.
  subst n'. rewrite <- (Hfr y Hy). by apply IH.
Qed.

(** A whole line: its characters and the newline are added to the row
    under the cursor, which moves to the next row. *)
Lemma on_text_plain_line text b last :
  wf_buffer b -> 0 <= last < MAXLINES ->
  Forall (fun c => c <> 0 /\ c <> 10) text ->
  (strlen (row b last) + length text <= 999)%nat ->
  let st := on_text_plain (text ++ [10]) (b, last) in
  wf_buffer st.1 /\ st.2 = last + 1 /\
  cstr (row st.1 last) = cstr (row b last) ++ text ++ [10] /\
  forall y, y <> last -> row st.1 y = row b y.
Proof.
  intros Hwf Hlast Htext Hlen st. unfold st. rewrite on_text_plain_snoc.
  destruct (on_text_plain_grow text b last Hwf Hlast Htext) as (Hwf1 & Hn1 & Hc1);
    [lia|].
  pose proof (on_text_plain_frame text b last Hwf Hlast) as Hf1.
  cbv zeta in Hf1.
  destruct (on_text_plain text (b, last)) as [b1 n1]. cbn [fst snd] in *.
  subst n1.
  assert (Hs1 : (strlen (row b1 last) <= 999)%nat).
  { rewrite <- length_cstr, Hc1, length_app, length_cstr. lia. }
  destruct (add_char_buffer_grow b1 10 last Hwf1 Hlast Hs1) as (Hwf2 & Hn2 & Hc2);
    [done|].
  destruct (add_char_buffer_row b1 10 last Hwf1 Hlast) as (_ & _ & _ & Hf2).
  split; [done|]. split; [done|]. split.
  - by rewrite Hc2, Hc1, <- app_assoc.
  - intros y Hy. rewrite Hf2 by done. apply Hf1; [|done].
    eapply Forall_impl; [|exact Htext]. by intros c [_ ?].
Qed.

End EventFacts.

(** X21.  Echo negotiation.  WILL ECHO from the server clears the flag
    [TERM_FLAG_ECHO] and WONT ECHO sets it; every other bit of
    [terminal.flags], the NAWS flag among them, is left as it was, and
    so is everything else.  WILL and WONT of any other option change
    nothing at all. *)
Theorem telnet_event_echo (COLS LINES : Z) (env : list send_result)
    (telopt : Z) (w : WORLD) :
  -128 <= flags (w_terminal w) < 128 ->
  let t := w_terminal w in
  let world t' :=
    Continue (mkWORLD t' (w_sbuffer w) (w_last w) (w_curses w) (w_telnet w)
                      (w_sent_bytes w)) in
  (telopt = TELNET_TELOPT_ECHO ->
   exists f0 f1,
     telnet_event COLS LINES env (TELNET_EV_WILL telopt) w = world (set_flags f0 t) /\
     telnet_event COLS LINES env (TELNET_EV_WONT telopt) w = world (set_flags f1 t) /\
     -128 <= f0 < 128 /\ -128 <= f1 < 128 /\
     forall i, 0 <= i ->
       Z.testbit f0 i = (if i =? 0 then false else Z.testbit (flags t) i) /\
       Z.testbit f1 i = (if i =? 0 then true else Z.testbit (flags t) i)) /\
  (telopt <> TELNET_TELOPT_ECHO ->
   telnet_event COLS LINES env (TELNET_EV_WILL telopt) w = world t /\
   telnet_event COLS LINES env (TELNET_EV_WONT telopt) w = world t).
Proof.
  intros Hf t world. split.
  - intros ->. cbn [telnet_event]. rewrite Z.eqb_refl. fold t.
    exists (char_of_int (Z.land (flags t) (Z.lnot TERM_FLAG_ECHO))),
           (char_of_int (Z.lor (flags t) TERM_FLAG_ECHO)).
    split; [reflexivity|]. split; [reflexivity|].
    split; [apply char_of_int_range|]. split; [apply char_of_int_range|].
    intros i Hi. rewrite flags_clear_echo, flags_set_echo by done.
    rewrite Z.land_spec, Z.lor_spec, Z.lnot_spec, testbit_flag_echo by done.
    destruct (i =? 0); cbn [negb]; split;
      [apply andb_false_r | apply orb_true_r | apply andb_true_r | apply orb_false_r].
  - intros Hne. cbn [telnet_event].
    destruct (Z.eqb_spec telopt TELNET_TELOPT_ECHO); [done|]. done.
Qed.

Lemma telnet_event_echo_witness :
  let w := mkWORLD terminal0 sb_init.1 0 [] [] 0 in
  exists f0 f1,
    telnet_event 80 24 [] (TELNET_EV_WILL 1) w
    = Continue (mkWORLD (set_flags f0 terminal0) sb_init.1 0 [] [] 0) /\
    telnet_event 80 24 [] (TELNET_EV_WONT 1) w
    = Continue (mkWORLD (set_flags f1 terminal0) sb_init.1 0 [] [] 0) /\
    -128 <= f0 < 128 /\ -128 <= f1 < 128 /\
    forall i, 0 <= i ->
      Z.testbit f0 i = (if i =? 0 then false else Z.testbit (flags terminal0) i) /\
      Z.testbit f1 i = (if i =? 0 then true else Z.testbit (flags terminal0) i).
Proof.
  intros w.
  destruct (telnet_event_echo 80 24 [] 1 w) as [H _]; [by vm_compute|].
  exact (H eq_refl).
Defined.

(** X22.  Window-size reports.  DO NAWS from the server sets the flag
    [TERM_FLAG_NAWS], leaving the other bits of [terminal.flags], and at
    once sends one report: the subnegotiation of option 31 with the
    columns and then the lines of the screen, each as two bytes, high
    byte first.  From then on every [send_naws] sends such a report;
    until then, with the flag clear, [send_naws] sends nothing.  DO of
    any other option changes nothing. *)
Theorem telnet_event_do_naws (COLS LINES : Z) (env : list send_result)
    (telopt : Z) (w : WORLD) :
  -128 <= flags (w_terminal w) < 128 ->
  0 <= COLS < 65536 -> 0 <= LINES < 65536 ->
  let t := w_terminal w in
  let report tl c1 c0 l1 l0 :=
    tl ++ [Telnet_begin_sb 31; Telnet_send [c1; c0]; Telnet_send [l1; l0];
           Telnet_finish_sb] in
  exists c1 c0 l1 l0 f,
    (0 <= c1 < 256 /\ 0 <= c0 < 256 /\ 256 * c1 + c0 = COLS) /\
    (0 <= l1 < 256 /\ 0 <= l0 < 256 /\ 256 * l1 + l0 = LINES) /\
    (telopt = TELNET_TELOPT_NAWS ->
     telnet_event COLS LINES env (TELNET_EV_DO telopt) w
     = Continue (mkWORLD (set_flags f t) (w_sbuffer w) (w_last w) (w_curses w)
                         (report (w_telnet w) c1 c0 l1 l0) (w_sent_bytes w))) /\
    (forall i, 0 <= i ->
       Z.testbit f i = (if i =? 2 then true else Z.testbit (flags t) i)) /\
    (forall tl, send_naws COLS LINES (set_flags f t) tl = report tl c1 c0 l1 l0) /\
    (forall tl, Z.testbit (flags t) 2 = false -> send_naws COLS LINES t tl = tl) /\
    (telopt <> TELNET_TELOPT_NAWS ->
     telnet_event COLS LINES env (TELNET_EV_DO telopt) w = Continue w).
Proof.
  intros Hf HC HL t report.
  destruct (htons_bytes_eq COLS HC) as (c1 & c0 & EC & Hc1 & Hc0 & HCe).
  destruct (htons_bytes_eq LINES HL) as (l1 & l0 & EL & Hl1 & Hl0 & HLe).
  exists c1, c0, l1, l0, (char_of_int (Z.lor (flags t) TERM_FLAG_NAWS)).
  assert (Hbits : forall i, 0 <= i ->
            Z.testbit (char_of_int (Z.lor (flags t) TERM_FLAG_NAWS)) i
            = (if i =? 2 then true else Z.testbit (flags t) i)).
  { intros i Hi. rewrite flags_set_naws by done.
    rewrite Z.lor_spec, testbit_flag_naws by done.
    destruct (i =? 2); [apply orb_true_r | apply orb_false_r]. }
  assert (Hsend : forall tl,
            send_naws COLS LINES
              (set_flags (char_of_int (Z.lor (flags t) TERM_FLAG_NAWS)) t) tl
            = report tl c1 c0 l1 l0).
  { intros tl. unfold send_naws, set_flags. cbn [flags].
    rewrite land_flag_naws, Hbits by lia. cbn [Z.eqb negb].
    by rewrite EC, EL. }
  split; [done|]. split; [done|]. split.
  { intros ->. cbn [telnet_event]. rewrite Z.eqb_refl. fold t. by rewrite Hsend. }
  split; [exact Hbits|]. split; [exact Hsend|]. split.
  - intros tl Hb. unfold send_naws. by rewrite land_flag_naws, Hb.
  - intros Hne. cbn [telnet_event].
    by destruct (Z.eqb_spec telopt TELNET_TELOPT_NAWS).
Qed.

Lemma telnet_event_do_naws_witness :
  let w := mkWORLD terminal0 sb_init.1 0 [] [] 0 in
  exists f,
    telnet_event 80 24 [] (TELNET_EV_DO 31) w
    = Continue (mkWORLD (set_flags f terminal0) sb_init.1 0 []
                  [Telnet_begin_sb 31; Telnet_send [0; 80]; Telnet_send [0; 24];
                   Telnet_finish_sb] 0) /\
    send_naws 80 24 terminal0 [] = [].
Proof.
  intros w.
  destruct (telnet_event_do_naws 80 24 [] 31 w)
    as (c1 & c0 & l1 & l0 & f & HC & HL & Hev & _ & _ & Hoff & _);
    [by vm_compute | lia | lia |].
  exists f. split; [|apply Hoff; reflexivity].
  assert (c1 = 0 /\ c0 = 80 /\ l1 = 0 /\ l0 = 24) as (-> & -> & -> & ->) by lia.
  exact (Hev eq_refl).
Defined.

(** X23.  A warning of the telnet library is shown in red as two lines of
    text: the newline that ends the line being written, and then the
    word WARNING, without the colon of the string in the code, directly
    followed by the message and a newline.  The colour of the terminal
    state is switched back on afterwards.  Here the line being written
    has room for the newline, the next row is empty and not the last,
    and the message has no newline and at most 992 characters. *)
Theorem telnet_event_warning (COLS LINES : Z) (env : list send_result)
    (msg : list Z) (w : WORLD) :
  wf_buffer (w_sbuffer w) -> 0 <= w_last w -> w_last w + 1 < MAXLINES ->
  (strlen (row (w_sbuffer w) (w_last w)) <= 999)%nat ->
  strlen (row (w_sbuffer w) (w_last w + 1)) = 0%nat ->
  Forall (fun c => c <> 10) (cstr msg) -> (strlen msg <= 992)%nat ->
  exists b,
    telnet_event COLS LINES env (TELNET_EV_WARNING msg) w
    = Continue (mkWORLD (w_terminal w) b (w_last w + 2)
                  (w_curses w ++ [Wattron COLOR_RED;
                                  Wattron (color (w_terminal w))])
                  (w_telnet w) (w_sent_bytes w)) /\
    wf_buffer b /\
    cstr (row b (w_last w)) = cstr (row (w_sbuffer w) (w_last w)) ++ [10] /\
    cstr (row b (w_last w + 1))
    = [87; 65; 82; 78; 73; 78; 71] ++ cstr msg ++ [10] /\
    forall y, y <> w_last w -> y <> w_last w + 1 ->
      row b y = row (w_sbuffer w) y.
Proof.
  intros Hwf Hl0 Hl1 Hs0 Hs1 Hmsg Hlen.
  set (b0 := w_sbuffer w) in *. set (last := w_last w) in *.
  set (word := [87; 65; 82; 78; 73; 78; 71]).
  set (st := on_text_plain (word ++ cstr msg ++ [10])
               (on_text_plain ([] ++ [10]) (b0, last))).
  assert (E : telnet_event COLS LINES env (TELNET_EV_WARNING msg) w
              = Continue (mkWORLD (w_terminal w) st.1 st.2
                            (w_curses w ++ [Wattron COLOR_RED;
                                            Wattron (color (w_terminal w))])
                            (w_telnet w) (w_sent_bytes w))).
  { cbn [telnet_event]. fold b0 last. rewrite <- app_assoc.
    unfold st. rewrite !on_text_plain_app. reflexivity. }
  destruct (on_text_plain_line [] b0 last) as (Hwf1 & Hn1 & Hc1 & Hf1);
    [done | lia | done | cbn [length]; lia |].
  destruct (on_text_plain ([] ++ [10]) (b0, last)) as [b1 n1]. cbn [fst snd] in *.
  subst n1.
  assert (Hs1' : strlen (row b1 (last + 1)) = 0%nat).
  { rewrite Hf1 by lia. exact Hs1. }
  assert (Hmsg' : Forall (fun c => c <> 0 /\ c <> 10) (word ++ cstr msg)).
  { apply Forall_app. split.
    - unfold word. repeat (apply Forall_cons; [lia|]). apply Forall_nil.
    - pose proof (cstr_nonzero msg) as Hnz.
      rewrite Forall_forall in *. intros c Hc. split; [by apply Hnz | by apply Hmsg]. }
  destruct (on_text_plain_line (word ++ cstr msg) b1 (last + 1))
    as (Hwf2 & Hn2 & Hc2 & Hf2);
    [done | lia | done | rewrite Hs1', length_app, length_cstr; cbn [length word]; lia |].
  rewrite <- app_assoc in Hc2, Hf2, Hn2, Hwf2. fold st in Hwf2, Hn2, Hc2, Hf2.
  exists st.1. split.
  { rewrite E, Hn2. by replace (last + 1 + 1) with (last + 2) by lia. }
  split; [done|]. split.
  { rewrite Hf2 by lia. by rewrite Hc1, app_nil_l. }
  split.
  { assert (Hnil : cstr (row b1 (last + 1)) = []).
    { unfold cstr. by rewrite Hs1'. }
    by rewrite Hc2, Hnil. }
  intros y Hy0 Hy1. rewrite Hf2 by done. by apply Hf1.
Qed.

Lemma telnet_event_warning_witness :
  let w := mkWORLD terminal0 sb_init.1 0 [] [] 0 in
  exists b,
    telnet_event 80 24 [] (TELNET_EV_WARNING (literal [111; 104])) w
    = Continue (mkWORLD terminal0 b (0 + 2)
                  ([] ++ [Wattron COLOR_RED; Wattron (color terminal0)]) [] 0) /\
    cstr (row b 0) = cstr (row sb_init.1 0) ++ [10] /\
    cstr (row b (0 + 1)) = [87; 65; 82; 78; 73; 78; 71] ++ [111; 104] ++ [10].
Proof.
  intros w.
  destruct (telnet_event_warning 80 24 [] (literal [111; 104]) w)
    as (b & E & _ & H0 & H1 & _).
  - apply sb_init_wf.
  - by vm_compute.
  - by vm_compute.
  - apply Nat.leb_le. by vm_compute.
  - by vm_compute.
  - repeat (apply Forall_cons; [lia|]). apply Forall_nil.
  - apply Nat.leb_le. by vm_compute.
  - exists b. split; [exact E|]. split; [exact H0 | exact H1].
Defined.

(** ** Scrolling by hand *)

Section ScrollFacts.

Implicit Types (u : UI) (key : Z).

(** The four scroll keys move the window by their step, kept within
    [0, MAXLINES], mark the scroll as manual and ask for a full refresh. *)
Lemma on_key_switch_scroll key u :
  In key [KEY_UP; KEY_DOWN; KEY_PPAGE; KEY_NPAGE] ->
  0 <= ui_windowpos u <= MAXLINES ->
  on_key_switch key u
  = (ui_scroll (Z.max 0 (Z.min MAXLINES (ui_windowpos u + scroll_step key))) u, 1).
Proof.
  intros Hkey Hw. unfold MAXLINES in *.
  destruct Hkey as [<-|[<-|[<-|[<-|[]]]]].
  - change (on_key_switch KEY_UP u)
      with (ui_scroll (if ui_windowpos u - 1 <? 0 then 0 else ui_windowpos u - 1) u, 1).
    change (scroll_step KEY_UP) with (-1).
    destruct (Z.ltb_spec (ui_windowpos u - 1) 0); do 2 f_equal; lia.
  - change (on_key_switch KEY_DOWN u)
      with (ui_scroll (if ui_windowpos u + 1 >? 100 then 100
                       else ui_windowpos u + 1) u, 1).
    change (scroll_step KEY_DOWN) with 1.
    destruct (Z.gtb_spec (ui_windowpos u + 1) 100); do 2 f_equal; lia.
  - change (on_key_switch KEY_PPAGE u)
      with (ui_scroll (if ui_windowpos u - 10 <? 0 then 0 else ui_windowpos u - 10) u, 1).
    change (scroll_step KEY_PPAGE) with (-10).
    destruct (Z.ltb_spec (ui_windowpos u - 10) 0); do 2 f_equal; lia.
  - change (on_key_switch KEY_NPAGE u)
      with (ui_scroll (if ui_windowpos u + 10 >? 100 then 100
                       else ui_windowpos u + 10) u, 1).
    change (scroll_step KEY_NPAGE) with 10.
    destruct (Z.gtb_spec (ui_windowpos u + 10) 100); do 2 f_equal; lia.
Qed.

End ScrollFacts.

(** X24.  A scroll key and the flush that follows it.  Each of the keys
    up, down, page up and page down moves the scroll position by its
    step, kept within [0, MAXLINES], sends nothing, and makes [on_key]
    return 1, so that the main loop goes on to flush.  That flush prints
    from the position scrolled to, whatever the last line written.  If
    the window ends above row [MAXLINES] the flush completes and takes
    the manual scroll back, so that the flush after it follows the text
    again; if the window reaches row [MAXLINES] the flush reads past the
    buffer. *)
Theorem scroll_key_then_flush (COLS LINES : Z) (key : Z) (u : UI)
    (b : buffer_t) (lastline : Z) (tw : TERMINAL * log) :
  In key [KEY_UP; KEY_DOWN; KEY_PPAGE; KEY_NPAGE] ->
  0 <= ui_windowpos u <= MAXLINES -> 3 <= LINES ->
  length b = Z.to_nat MAXLINES ->
  let r := on_key COLS key u in
  let u' := r.1.1 in
  let wp := Z.max 0 (Z.min MAXLINES (ui_windowpos u + scroll_step key)) in
  let f := flush_output b lastline LINES (ui_windowpos u') tw (ui_updowntoggle u') in
  r.2 = 1 /\ ui_windowpos u' = wp /\ ui_telnet u' = ui_telnet u /\
  f.1 = wp /\
  (wp + LINES - 3 < MAXLINES ->
   exists tw', f.2 = Some (0, tw', 0) /\
     (flush_output b lastline LINES wp tw' 0).1 = Z.max 0 (lastline - LINES + 2)) /\
  (MAXLINES <= wp + LINES - 3 -> f.2 = None).
Proof.
  intros Hkey Hw HL Hb r u' wp f.
  destruct (on_key_state COLS key u) as (_ & _ & _ & Kw & Ku & Kt).
  fold r in Kw, Ku, Kt. fold u' in Kw, Ku, Kt.
  assert (Hr : r.2 = 1).
  { unfold r, on_key. rewrite on_key_switch_scroll by done.
    by destruct (editbuf_display COLS _). }
  rewrite on_key_switch_scroll in Kw, Ku, Kt by done.
  cbn [fst ui_scroll ui_windowpos ui_updowntoggle ui_telnet] in Kw, Ku, Kt.
  fold wp in Kw. unfold f. rewrite Kw, Ku.
  assert (Hwp : 0 <= wp <= MAXLINES) by (unfold wp, MAXLINES; lia).
  clearbody wp.
  split; [done|]. split; [done|]. split; [done|].
  unfold flush_output, follow_windowpos. cbn [fst snd Z.eqb].
  split; [done|]. split.
  - intros Hlt. rewrite print_buffer_eq by (done || lia).
    eexists. split; [reflexivity|].
    destruct (Z.ltb_spec (lastline - LINES + 2) 0); lia.
  - intros Hge. apply print_buffer_overrun; [done | lia].
Qed.

Lemma scroll_key_then_flush_witness :
  let b := sb_init.1 in
  let r := on_key 80 KEY_NPAGE ui0 in
  let u' := r.1.1 in
  let f := flush_output b 50 24 (ui_windowpos u') (terminal0, []) (ui_updowntoggle u') in
  r.2 = 1 /\ ui_windowpos u' = 10 /\ f.1 = 10 /\
  exists tw', f.2 = Some (0, tw', 0) /\
    (flush_output b 50 24 10 tw' 0).1 = 28.
Proof.
  intros b r u' f.
  destruct (scroll_key_then_flush 80 24 KEY_NPAGE ui0 b 50 (terminal0, []))
    as (H1 & H2 & _ & H3 & H4 & _).
  - right. right. right. by left.
  - by vm_compute.
  - lia.
  - reflexivity.
  - split; [exact H1|]. split; [exact H2|]. split; [exact H3|].
    apply H4. by vm_compute.
Defined.
